(** * Voice assistant front-end: a shallow embedding of the browser scripts

    The development follows the JavaScript sources of the repository:

    - [static/script.js] (the continuous-listening assistant): the rolling
      [AudioBuffer], the voice-activity loop [startVoiceDetection] /
      [checkVoiceLevel], [startRecording] / [stopRecording],
      [executeGlobalInterrupt], [processAudio], [callSTTAPI] and
      [handleStreamResponse];
    - a second copy of the same assistant whose [handleStreamResponse] still
      honours the interrupt flags;
    - [static/tts_service.js]: the [TTSService] class;
    - the chat page script: [processAudio] with its retrying
      [attemptTranscription], its own [handleStreamResponse], and the
      frame callback [detectVoiceActivity] of its real-time voice mode.

    Conventions.  JavaScript runs one callback at a time, so every function
    below is one synchronous run of the source between two [await]s; what the
    event loop does in between (timer callbacks, fetch completions) is an
    explicit event.  [Date.now()] is an argument [now].  Loudness values are
    rationals: the comparison [volume > threshold] is the only operation the
    scripts perform on them.  DOM updates and calls into the browser are
    recorded in an effect trace. *)

From Stdlib Require Import ZArith QArith List String Ascii Bool Lia Sorted DecimalString.
Import ListNotations.
Local Open Scope string_scope.
Local Open Scope list_scope.
Local Open Scope Z_scope.

Set Implicit Arguments.

(** ** JavaScript values used by the scripts *)

Module JS.

(** A JavaScript string is kept as the sequence of its UTF-8 bytes. *)

(** One-byte white space of [String.prototype.trim]: TAB, LF, VT, FF, CR
    and SPACE. *)
Definition ws1 (c : ascii) : bool :=
  let n := nat_of_ascii c in
  ((9 <=? n)%nat && (n <=? 13)%nat) || (n =? 32)%nat.

(** Two-byte white space: U+00A0 (C2 A0). *)
Definition ws2 (a b : ascii) : bool :=
  (nat_of_ascii a =? 194)%nat && (nat_of_ascii b =? 160)%nat.

(** Three-byte white space: U+1680, U+2000..U+200A, U+2028, U+2029,
    U+202F, U+205F, U+3000 and U+FEFF. *)
Definition ws3 (a b c : ascii) : bool :=
  let x := nat_of_ascii a in
  let y := nat_of_ascii b in
  let z := nat_of_ascii c in
  ((x =? 225) && (y =? 154) && (z =? 128))%nat
  || ((x =? 226) && (y =? 128)
      && (((128 <=? z) && (z <=? 138)) || (z =? 168) || (z =? 169) || (z =? 175)))%nat
  || ((x =? 226) && (y =? 129) && (z =? 159))%nat
  || ((x =? 227) && (y =? 128) && (z =? 128))%nat
  || ((x =? 239) && (y =? 187) && (z =? 191))%nat.

(** [trimStartBytes]: drop white-space characters from the front. *)
Fixpoint trimStartBytes (l : list ascii) : list ascii :=
  match l with
  | [] => []
  | a :: r1 =>
      if ws1 a then trimStartBytes r1
      else
        match r1 with
        | [] => l
        | b :: r2 =>
            if ws2 a b then trimStartBytes r2
            else
              match r2 with
              | [] => l
              | c :: r3 => if ws3 a b c then trimStartBytes r3 else l
              end
        end
  end.

(** The same from the back; the list is the reversed string, so the
    bytes of a character arrive last byte first. *)
Fixpoint trimEndBytesRev (l : list ascii) : list ascii :=
  match l with
  | [] => []
  | c :: r1 =>
      if ws1 c then trimEndBytesRev r1
      else
        match r1 with
        | [] => l
        | b :: r2 =>
            if ws2 b c then trimEndBytesRev r2
            else
              match r2 with
              | [] => l
              | a :: r3 => if ws3 a b c then trimEndBytesRev r3 else l
              end
        end
  end.

(** [String.prototype.trim]. *)
Definition trim (s : string) : string :=
  string_of_list_ascii
    (rev (trimEndBytesRev (rev (trimStartBytes (list_ascii_of_string s))))).

(** Truthiness of a string: only the empty string is falsy. *)
Definition truthy (s : string) : bool :=
  match s with EmptyString => false | String _ _ => true end.

(** [!text || !text.trim()] for a [text] that may be [null]. *)
Definition blank (text : option string) : bool :=
  match text with
  | None => true
  | Some s => negb (truthy s) || negb (truthy (trim s))
  end.

(** [a || b] on an optional string field: a missing or empty field is
    falsy. *)
Definition orElse (a : option string) (b : string) : string :=
  match a with
  | Some s => if truthy s then s else b
  | None => b
  end.

(** [String.prototype.startsWith]. *)
Fixpoint startsWith (p s : string) : bool :=
  match p with
  | EmptyString => true
  | String a p' =>
      match s with
      | EmptyString => false
      | String b s' => Ascii.eqb a b && startsWith p' s'
      end
  end.

(** [s.slice(n)] for a non-negative [n] (on ASCII prefixes byte and
    character offsets agree, which is the only use the scripts make). *)
Fixpoint slice (n : nat) (s : string) : string :=
  match n with
  | O => s
  | S n' => match s with EmptyString => EmptyString | String _ s' => slice n' s' end
  end.

(** [String.prototype.includes]. *)
Fixpoint includes (needle s : string) : bool :=
  startsWith needle s
  || match s with
     | EmptyString => false
     | String _ s' => includes needle s'
     end.

(** [chunk.split('\n')]. *)
Fixpoint splitLinesAux (cur : string) (s : string) : list string :=
  match s with
  | EmptyString => [cur]
  | String c s' =>
      if Ascii.eqb c "010"%char then cur :: splitLinesAux EmptyString s'
      else splitLinesAux (cur ++ String c EmptyString) s'
  end.

Definition splitLines (s : string) : list string := splitLinesAux EmptyString s.

(** Truthiness of a timestamp held in a nullable field: [null] and [0]
    are falsy. *)
Definition truthyTime (t : option Z) : bool :=
  match t with
  | Some n => negb (n =? 0)
  | None => false
  end.

(** [volume > threshold]. *)
Definition gt (a b : Q) : bool := negb (Qle_bool a b).

End JS.

(** ** The rolling pre-speech buffer: [class AudioBuffer] *)

Module AudioBuffer.

(** One entry pushed by [addToBuffer]: the copied channel data and the
    time it was captured. *)
Record item : Type := Item { data : list Q; timestamp : Z }.

Record t : Type := Make {
  bufferDuration : Z;
  buffer : list item;
  isRecording : bool
}.

(** [constructor(bufferDuration = 3000)]. *)
Definition create (bufferDuration : Z) : t :=
  {| bufferDuration := bufferDuration; buffer := []; isRecording := false |}.

Definition default : t := create 3000.

Definition set_buffer (b : list item) (ab : t) : t :=
  {| bufferDuration := bufferDuration ab; buffer := b; isRecording := isRecording ab |}.

Definition set_isRecording (r : bool) (ab : t) : t :=
  {| bufferDuration := bufferDuration ab; buffer := buffer ab; isRecording := r |}.

(** [addToBuffer(audioBuffer)]: [this.buffer.push({data, timestamp: Date.now()})]. *)
Definition addToBuffer (now : Z) (d : list Q) (ab : t) : t :=
  set_buffer (buffer ab ++ [Item d now]) ab.

(** [trimBuffer()]:
    [cutoffTime = Date.now() - this.bufferDuration;]
    [this.buffer = this.buffer.filter(item => item.timestamp > cutoffTime)]. *)
Definition trimBuffer (now : Z) (ab : t) : t :=
  let cutoffTime := now - bufferDuration ab in
  set_buffer (filter (fun it => cutoffTime <? timestamp it) (buffer ab)) ab.

(** [getBufferedAudio(fromTimestamp)]:
    [this.buffer.filter(item => item.timestamp >= fromTimestamp)]. *)
Definition getBufferedAudio (fromTimestamp : Z) (ab : t) : list item :=
  filter (fun it => fromTimestamp <=? timestamp it) (buffer ab).

(** The [onaudioprocess] callback installed by [initialize]; the two
    clock readings are those of [addToBuffer] and of [trimBuffer]. *)
Definition onaudioprocess (tAdd tTrim : Z) (d : list Q) (ab : t) : t :=
  if negb (isRecording ab) then trimBuffer tTrim (addToBuffer tAdd d ab) else ab.

(** [startRecording(fromTimestamp = null)]. *)
Definition startRecording (fromTimestamp : option Z) (ab : t) : t * list item :=
  let ab' := set_isRecording true ab in
  match fromTimestamp with
  | Some ts => if JS.truthyTime fromTimestamp then (ab', getBufferedAudio ts ab') else (ab', [])
  | None => (ab', [])
  end.

(** [stopRecording()]: returns a copy of the whole buffer. *)
Definition stopRecording (ab : t) : t * list item :=
  (set_isRecording false ab, buffer ab).

(** [destroy()]. *)
Definition destroy (ab : t) : t := set_buffer [] ab.

(** Entries in capture order: time stamps never decrease. *)
Definition ordered (l : list item) : Prop :=
  StronglySorted (fun a b => timestamp a <= timestamp b) l.

End AudioBuffer.

(** ** Shared vocabulary: errors, network outcomes, effects *)

(** A thrown [Error]: its [name] and [message]. *)
Record JSError : Type := MkError { errName : string; errMessage : string }.

Definition Error (msg : string) : JSError := MkError "Error" msg.

(** The status classes accepted by [updateStatus(text, status)]. *)
Inductive Status : Type :=
| loading | ready | listening | recording | processing | speaking | stopped.

Inductive Role : Type := user | assistant.

(** What a run does to the outside world, in order.  [E_startRecording]
    and [E_stopRecording] record the calls of [startRecording()] and
    [stopRecording()] themselves: they are the utterance-start and
    utterance-end signals. *)
Inductive Effect : Type :=
| E_updateStatus (s : Status)
| E_showError (msg : string)
| E_startRecording
| E_stopRecording
| E_recorderStart                     (* mediaRecorder.start(100) *)
| E_recorderStop                      (* mediaRecorder.stop() *)
| E_cancelStream (reader : nat)       (* reader.cancel() *)
| E_releaseLock (reader : nat)        (* reader.releaseLock() *)
| E_fetchTranscribe (size : Z)        (* POST /transcribe *)
| E_fetchChat (query conversation : string)   (* POST /chat *)
| E_speak (text : string)             (* ttsService.speak(text) is called *)
| E_fetchTTS (text : string)          (* POST to the synthesis endpoint *)
| E_saveAudioFile
| E_unlockAudio
| E_audioPlay (audio : nat)           (* audio.play() *)
| E_audioPause (audio : nat)          (* audio.pause() *)
| E_revokeObjectURL (audio : nat)
| E_onStart (text : string)           (* the TTS callbacks being invoked *)
| E_onEnd
| E_onError (e : JSError)
| E_sleep (ms : Z)                    (* await new Promise(r => setTimeout(r, ms)) *)
| E_warn.                             (* console.warn of a caught exception *)

Definition Trace : Type := list Effect.

(** How a promise settles. *)
Inductive Settled : Type :=
| Resolved
| Rejected (e : JSError).

(** ** [class TTSService]: state and the methods that call nothing back *)

Module TTSService.

(** An [Audio] element created by [_playAudio]. *)
Record Audio : Type := MkAudio {
  playing : bool;       (* play() was called and it was neither paused nor ended *)
  urlRevoked : bool     (* URL.revokeObjectURL(audioUrl) was called *)
}.

Record Config : Type := MkConfig {
  apiToken : string;
  enabled : bool;
  saveAudioFiles : bool;
  timeout : Z
}.

(** The object literal handed to the constructor; an absent key is
    [None]. *)
Record Options : Type := MkOptions {
  o_apiToken : option string;
  o_enabled : option bool;
  o_saveAudioFiles : option bool;
  o_timeout : option Z
}.

(** [this.config = { apiToken: config.apiToken || '',
      enabled: config.enabled !== true, timeout: config.timeout || 30000,
      saveAudioFiles: config.saveAudioFiles !== true, ...config }]:
    a key present in [config] wins through the spread. *)
Definition makeConfig (o : Options) : Config :=
  {| apiToken := match o_apiToken o with Some s => s | None => "" end;
     enabled := match o_enabled o with Some b => b | None => true end;
     saveAudioFiles := match o_saveAudioFiles o with Some b => b | None => true end;
     timeout := match o_timeout o with Some z => z | None => 30000 end |}.

Record t : Type := Make {
  config : Config;
  currentAudio : option nat;
  isSpeaking : bool;
  audioQueue : list string;
  isProcessing : bool;
  audioUnlocked : bool;
  audios : list Audio;   (* every Audio element created so far, by index *)
  mobile : bool          (* what _isMobileDevice() answers in this browser *)
}.

(** [new TTSService(config)]. *)
Definition create (o : Options) (isMobile : bool) : t :=
  {| config := makeConfig o; currentAudio := None; isSpeaking := false;
     audioQueue := []; isProcessing := false; audioUnlocked := false;
     audios := []; mobile := isMobile |}.

Definition set_config (c : Config) (s : t) : t :=
  Make c (currentAudio s) (isSpeaking s) (audioQueue s) (isProcessing s)
       (audioUnlocked s) (audios s) (mobile s).
Definition set_currentAudio (a : option nat) (s : t) : t :=
  Make (config s) a (isSpeaking s) (audioQueue s) (isProcessing s)
       (audioUnlocked s) (audios s) (mobile s).
Definition set_isSpeaking (b : bool) (s : t) : t :=
  Make (config s) (currentAudio s) b (audioQueue s) (isProcessing s)
       (audioUnlocked s) (audios s) (mobile s).
Definition set_audioQueue (q : list string) (s : t) : t :=
  Make (config s) (currentAudio s) (isSpeaking s) q (isProcessing s)
       (audioUnlocked s) (audios s) (mobile s).
Definition set_isProcessing (b : bool) (s : t) : t :=
  Make (config s) (currentAudio s) (isSpeaking s) (audioQueue s) b
       (audioUnlocked s) (audios s) (mobile s).
Definition set_audioUnlocked (b : bool) (s : t) : t :=
  Make (config s) (currentAudio s) (isSpeaking s) (audioQueue s) (isProcessing s)
       b (audios s) (mobile s).
Definition set_audios (l : list Audio) (s : t) : t :=
  Make (config s) (currentAudio s) (isSpeaking s) (audioQueue s) (isProcessing s)
       (audioUnlocked s) l (mobile s).

(** Update of one [Audio] element; an index past the end changes
    nothing. *)
Fixpoint updAudio (i : nat) (f : Audio -> Audio) (l : list Audio) : list Audio :=
  match l, i with
  | [], _ => []
  | a :: r, O => f a :: r
  | a :: r, S j => a :: updAudio j f r
  end.

Definition pauseAudio (a : Audio) : Audio := MkAudio false (urlRevoked a).
Definition revokeAudio (a : Audio) : Audio := MkAudio (playing a) true.
Definition endAudio (a : Audio) : Audio := MkAudio false (urlRevoked a).

(** How many elements are sounding. *)
Definition audible (s : t) : nat := List.length (filter playing (audios s)).

(** [stop()]. *)
Definition stop (s : t) : t * Trace :=
  let '(s1, tr) :=
    match currentAudio s with
    | Some a =>
        (set_currentAudio None (set_audios (updAudio a pauseAudio (audios s)) s),
         [E_audioPause a])
    | None => (s, [])
    end in
  (set_audioQueue [] (set_isSpeaking false s1), tr).

(** [setEnabled(enabled)]. *)
Definition setEnabled (e : bool) (s : t) : t * Trace :=
  let c := config s in
  let s1 := set_config (MkConfig (apiToken c) e (saveAudioFiles c) (timeout c)) s in
  if negb e && isSpeaking s1 then stop s1 else (s1, []).

(** The [Audio] element is created, made current and started: the tail
    of the executor in [_playAudio]. *)
Definition startAudio (s : t) : t * nat :=
  let id := List.length (audios s) in
  (set_isSpeaking true
     (set_currentAudio (Some id)
        (set_audios (audios s ++ [MkAudio true false]) s)),
   id).

(** The three handlers [_playAudio] attaches all begin with
    [isSpeaking = false; currentAudio = null; URL.revokeObjectURL(audioUrl)],
    whichever element is current at that moment. *)
Definition settleAudio (id : nat) (s : t) : t :=
  set_audios (updAudio id (fun a => revokeAudio (endAudio a)) (audios s))
    (set_currentAudio None (set_isSpeaking false s)).

(** *** Pausing, resuming and the switches *)

(** [audio.paused] of element [a]. *)
Definition paused (a : nat) (s : t) : bool :=
  match nth_error (audios s) a with
  | Some x => negb (playing x)
  | None => true
  end.

Definition playAudio (a : Audio) : Audio := MkAudio true (urlRevoked a).

(** [pause()]: the current element is paused unless it already is;
    [isSpeaking] and [currentAudio] stay as they are. *)
Definition pause (s : t) : t * Trace :=
  match currentAudio s with
  | Some a =>
      if negb (paused a s)
      then (set_audios (updAudio a pauseAudio (audios s)) s, [E_audioPause a])
      else (s, [])
  | None => (s, [])
  end.

(** [resume()]: [currentAudio.play()] on a paused current element.
    [started] tells whether the browser lets it play: a rejection is
    only logged and leaves the element paused. *)
Definition resume (started : bool) (s : t) : t * Trace :=
  match currentAudio s with
  | Some a =>
      if paused a s
      then (if started then set_audios (updAudio a playAudio (audios s)) s else s,
            [E_audioPlay a])
      else (s, [])
  | None => (s, [])
  end.

(** [setSaveAudioFiles(enabled)]. *)
Definition setSaveAudioFiles (e : bool) (s : t) : t :=
  let c := config s in
  set_config (MkConfig (apiToken c) (enabled c) e (timeout c)) s.

End TTSService.

(** What the TTS endpoint answered. *)
Record Blob : Type := MkBlob { blobSize : Z }.

Inductive TTSFetch : Type :=
| TTSBlob (b : Blob)                  (* 2xx: response.blob() *)
| TTSHttpError (message : string)     (* non-2xx: the message built from the body *)
| TTSTimeout                          (* the AbortController fired *)
| TTSNetworkError (e : JSError).      (* fetch rejected *)

(** What [_getMobileBrowserInfo()] and [_isIOSDevice()] read from
    [navigator.userAgent], as far as the messages depend on it. *)
Record Browser : Type := MkBrowser {
  isIOS : bool;
  isAndroid : bool;
  isSafari : bool;
  isChrome : bool;
  isWechat : bool
}.

(** How the playback promise of one [Audio] element settles: [onended]
    ran; [onerror] ran, with the code of [error.target.error] when there
    is one; or the promise of [audio.play()] rejected.  The two failures
    come with the browser the handler finds itself in. *)
Inductive PlayEvent : Type :=
| Ended
| MediaError (code : option Z) (browser : Browser)
| PlayRejected (e : JSError) (browser : Browser).

(** [errorDetail] of [audio.onerror]. *)
Definition mediaErrorDetail (code : option Z) : string :=
  match code with
  | None => "未知错误"
  | Some 1 => "MEDIA_ERR_ABORTED - 播放被中止"
  | Some 2 => "MEDIA_ERR_NETWORK - 网络错误"
  | Some 3 => "MEDIA_ERR_DECODE - 解码失败"
  | Some 4 => "MEDIA_ERR_SRC_NOT_SUPPORTED - 音频格式不支持"
  | Some c => "媒体错误代码: " ++ DecimalString.NilZero.string_of_int (Z.to_int c)
  end.

(** What the [catch] of [audio.play()] appends on a mobile browser. *)
Definition mobileHint (b : Browser) (e : JSError) : string :=
  if String.eqb (errName e) "NotAllowedError" then
    if isIOS b && isSafari b
    then " - iOS Safari阻止了音频播放，请点击页面任意位置后重试"
    else if isAndroid b then
      if isChrome b
      then " - Chrome for Android阻止了音频播放，请在设置中允许自动播放"
      else " - Android浏览器阻止了音频播放，请允许自动播放或点击页面后重试"
    else if isWechat b
    then " - 微信内置浏览器需要用户交互后才能播放音频"
    else ""
  else if String.eqb (errName e) "NotSupportedError"
  then " - 移动端不支持此音频格式，已使用MP3格式但仍失败"
  else if String.eqb (errName e) "AbortError"
  then " - 播放被中止"
  else "".

(** The error [_playAudio] rejects with, on a browser where
    [_isMobileDevice()] answers [mobile], [audioUnlocked] being
    [unlocked] when the handler runs. *)
Definition playError (mobile unlocked : bool) (ev : PlayEvent) : JSError :=
  match ev with
  | Ended => Error ""
  | MediaError code b =>
      let detail := mediaErrorDetail code in
      Error ("音频播放失败: " ++ detail
             ++ (if isIOS b
                 then " (iOS Safari)"
                      ++ (if JS.includes "不支持" detail || JS.includes "解码失败" detail
                          then " - 已强制使用MP3格式，如仍有问题请检查网络连接"
                          else "")
                      ++ (if negb unlocked
                          then " - 请点击页面任意位置解锁音频播放"
                          else "")
                 else ""))
  | PlayRejected e0 b =>
      Error ("音频播放启动失败: " ++ errMessage e0
             ++ (if mobile then mobileHint b e0 else ""))
  end.

(** ** The assistant script: configuration and global state *)

Module Assistant.

(** The [CONFIG] object built by [initConfigSync]. *)
Record Config : Type := MkConfig {
  RECORDING_TIMEOUT : Z;
  SILENCE_THRESHOLD : Q;
  SILENCE_DURATION : Z;
  VOICE_DETECTION_THRESHOLD : Q;
  QUESTION_DELAY : Z;
  VOICE_DETECTION_INTERVAL : Z;
  VOICE_START_DELAY : Z;
  TTS : TTSService.Options
}.

(** [CONFIG.TTS]: the token comes from the YAML file. *)
Definition ttsOptions (apiToken : option string) : TTSService.Options :=
  {| TTSService.o_apiToken := apiToken;
     TTSService.o_enabled := Some true;
     TTSService.o_saveAudioFiles := None;
     TTSService.o_timeout := Some 30000 |}.

(** The values of [static/script.js]. *)
Definition CONFIG (apiToken : option string) : Config :=
  {| RECORDING_TIMEOUT := 10000;
     SILENCE_THRESHOLD := 1 # 10;
     SILENCE_DURATION := 1500;
     VOICE_DETECTION_THRESHOLD := 2 # 10;
     QUESTION_DELAY := 1000;
     VOICE_DETECTION_INTERVAL := 1;
     VOICE_START_DELAY := 100;
     TTS := ttsOptions apiToken |}.

(** The values of the copy of the script that checks the interrupt flags
    before playing an answer. *)
Definition CONFIG_guarded (apiToken : option string) : Config :=
  {| RECORDING_TIMEOUT := 10000;
     SILENCE_THRESHOLD := 1 # 100;
     SILENCE_DURATION := 2000;
     VOICE_DETECTION_THRESHOLD := 8 # 100;
     QUESTION_DELAY := 2000;
     VOICE_DETECTION_INTERVAL := 10;
     VOICE_START_DELAY := 100;
     TTS := ttsOptions apiToken |}.

(** Callbacks given to [setTimeout]. *)
Inductive TimerCallback : Type :=
| RecordingTimeout        (* startRecording: stop a recording that runs too long *)
| InterruptReset          (* executeGlobalInterrupt: 100 ms later *)
| StatusAfterEmpty        (* processAudio: 2000 ms after an empty transcript *)
| StatusAfterProcessing.  (* processAudio: 1000 ms after a normal completion *)

Record Timer : Type := MkTimer {
  timerId : nat;
  deadline : Z;
  callback : TimerCallback
}.

Record Message : Type := MkMessage { role : Role; content : string }.

(** The global [state] object, the two frame counters of
    [startVoiceDetection], and the parts of the browser the script talks
    to: pending timers, cancelled readers, the conversation panel. *)
Record State : Type := MkState {
  isListening : bool;
  isRecording : bool;
  isProcessing : bool;
  mediaRecorder : option bool;   (* null, or the recorder with [state === 'recording'] or not *)
  conversationId : string;
  recordingTimer : option nat;   (* the id setTimeout returned *)
  lastVolume : Q;
  ttsService : option TTSService.t;
  continuousMonitoring : bool;
  lastVoiceTime : Z;
  audioBuffer : option AudioBuffer.t;
  voiceStartTime : option Z;
  shouldInterrupt : bool;
  isInterrupted : bool;
  currentStreamReader : option nat;
  interruptTimestamp : Z;
  consecutiveVoiceFrames : Z;   (* the two counters closed over by checkVoiceLevel *)
  consecutiveSilenceFrames : Z;
  timers : list Timer;   (* callbacks handed to setTimeout and not yet run or cleared *)
  nextTimerId : nat;
  cancelledReaders : list nat;   (* stream readers on which cancel() was called *)
  conversation : list Message   (* the messages shown in the conversation panel *)
}.

Definition set_isListening (v : bool) (s : State) : State :=
  MkState v (isRecording s) (isProcessing s) (mediaRecorder s)
    (conversationId s) (recordingTimer s) (lastVolume s) (ttsService s)
    (continuousMonitoring s) (lastVoiceTime s) (audioBuffer s)
    (voiceStartTime s) (shouldInterrupt s) (isInterrupted s)
    (currentStreamReader s) (interruptTimestamp s)
    (consecutiveVoiceFrames s) (consecutiveSilenceFrames s) (timers s)
    (nextTimerId s) (cancelledReaders s) (conversation s).
Definition set_isRecording (v : bool) (s : State) : State :=
  MkState (isListening s) v (isProcessing s) (mediaRecorder s)
    (conversationId s) (recordingTimer s) (lastVolume s) (ttsService s)
    (continuousMonitoring s) (lastVoiceTime s) (audioBuffer s)
    (voiceStartTime s) (shouldInterrupt s) (isInterrupted s)
    (currentStreamReader s) (interruptTimestamp s)
    (consecutiveVoiceFrames s) (consecutiveSilenceFrames s) (timers s)
    (nextTimerId s) (cancelledReaders s) (conversation s).
Definition set_isProcessing (v : bool) (s : State) : State :=
  MkState (isListening s) (isRecording s) v (mediaRecorder s)
    (conversationId s) (recordingTimer s) (lastVolume s) (ttsService s)
    (continuousMonitoring s) (lastVoiceTime s) (audioBuffer s)
    (voiceStartTime s) (shouldInterrupt s) (isInterrupted s)
    (currentStreamReader s) (interruptTimestamp s)
    (consecutiveVoiceFrames s) (consecutiveSilenceFrames s) (timers s)
    (nextTimerId s) (cancelledReaders s) (conversation s).
Definition set_mediaRecorder (v : option bool) (s : State) : State :=
  MkState (isListening s) (isRecording s) (isProcessing s) v
    (conversationId s) (recordingTimer s) (lastVolume s) (ttsService s)
    (continuousMonitoring s) (lastVoiceTime s) (audioBuffer s)
    (voiceStartTime s) (shouldInterrupt s) (isInterrupted s)
    (currentStreamReader s) (interruptTimestamp s)
    (consecutiveVoiceFrames s) (consecutiveSilenceFrames s) (timers s)
    (nextTimerId s) (cancelledReaders s) (conversation s).
Definition set_conversationId (v : string) (s : State) : State :=
  MkState (isListening s) (isRecording s) (isProcessing s) (mediaRecorder s)
    v (recordingTimer s) (lastVolume s) (ttsService s)
    (continuousMonitoring s) (lastVoiceTime s) (audioBuffer s)
    (voiceStartTime s) (shouldInterrupt s) (isInterrupted s)
    (currentStreamReader s) (interruptTimestamp s)
    (consecutiveVoiceFrames s) (consecutiveSilenceFrames s) (timers s)
    (nextTimerId s) (cancelledReaders s) (conversation s).
Definition set_recordingTimer (v : option nat) (s : State) : State :=
  MkState (isListening s) (isRecording s) (isProcessing s) (mediaRecorder s)
    (conversationId s) v (lastVolume s) (ttsService s)
    (continuousMonitoring s) (lastVoiceTime s) (audioBuffer s)
    (voiceStartTime s) (shouldInterrupt s) (isInterrupted s)
    (currentStreamReader s) (interruptTimestamp s)
    (consecutiveVoiceFrames s) (consecutiveSilenceFrames s) (timers s)
    (nextTimerId s) (cancelledReaders s) (conversation s).
Definition set_lastVolume (v : Q) (s : State) : State :=
  MkState (isListening s) (isRecording s) (isProcessing s) (mediaRecorder s)
    (conversationId s) (recordingTimer s) v (ttsService s)
    (continuousMonitoring s) (lastVoiceTime s) (audioBuffer s)
    (voiceStartTime s) (shouldInterrupt s) (isInterrupted s)
    (currentStreamReader s) (interruptTimestamp s)
    (consecutiveVoiceFrames s) (consecutiveSilenceFrames s) (timers s)
    (nextTimerId s) (cancelledReaders s) (conversation s).
Definition set_ttsService (v : option TTSService.t) (s : State) : State :=
  MkState (isListening s) (isRecording s) (isProcessing s) (mediaRecorder s)
    (conversationId s) (recordingTimer s) (lastVolume s) v
    (continuousMonitoring s) (lastVoiceTime s) (audioBuffer s)
    (voiceStartTime s) (shouldInterrupt s) (isInterrupted s)
    (currentStreamReader s) (interruptTimestamp s)
    (consecutiveVoiceFrames s) (consecutiveSilenceFrames s) (timers s)
    (nextTimerId s) (cancelledReaders s) (conversation s).
Definition set_continuousMonitoring (v : bool) (s : State) : State :=
  MkState (isListening s) (isRecording s) (isProcessing s) (mediaRecorder s)
    (conversationId s) (recordingTimer s) (lastVolume s) (ttsService s) v
    (lastVoiceTime s) (audioBuffer s) (voiceStartTime s) (shouldInterrupt s)
    (isInterrupted s) (currentStreamReader s) (interruptTimestamp s)
    (consecutiveVoiceFrames s) (consecutiveSilenceFrames s) (timers s)
    (nextTimerId s) (cancelledReaders s) (conversation s).
Definition set_lastVoiceTime (v : Z) (s : State) : State :=
  MkState (isListening s) (isRecording s) (isProcessing s) (mediaRecorder s)
    (conversationId s) (recordingTimer s) (lastVolume s) (ttsService s)
    (continuousMonitoring s) v (audioBuffer s) (voiceStartTime s)
    (shouldInterrupt s) (isInterrupted s) (currentStreamReader s)
    (interruptTimestamp s) (consecutiveVoiceFrames s)
    (consecutiveSilenceFrames s) (timers s) (nextTimerId s)
    (cancelledReaders s) (conversation s).
Definition set_audioBuffer (v : option AudioBuffer.t) (s : State) : State :=
  MkState (isListening s) (isRecording s) (isProcessing s) (mediaRecorder s)
    (conversationId s) (recordingTimer s) (lastVolume s) (ttsService s)
    (continuousMonitoring s) (lastVoiceTime s) v (voiceStartTime s)
    (shouldInterrupt s) (isInterrupted s) (currentStreamReader s)
    (interruptTimestamp s) (consecutiveVoiceFrames s)
    (consecutiveSilenceFrames s) (timers s) (nextTimerId s)
    (cancelledReaders s) (conversation s).
Definition set_voiceStartTime (v : option Z) (s : State) : State :=
  MkState (isListening s) (isRecording s) (isProcessing s) (mediaRecorder s)
    (conversationId s) (recordingTimer s) (lastVolume s) (ttsService s)
    (continuousMonitoring s) (lastVoiceTime s) (audioBuffer s) v
    (shouldInterrupt s) (isInterrupted s) (currentStreamReader s)
    (interruptTimestamp s) (consecutiveVoiceFrames s)
    (consecutiveSilenceFrames s) (timers s) (nextTimerId s)
    (cancelledReaders s) (conversation s).
Definition set_shouldInterrupt (v : bool) (s : State) : State :=
  MkState (isListening s) (isRecording s) (isProcessing s) (mediaRecorder s)
    (conversationId s) (recordingTimer s) (lastVolume s) (ttsService s)
    (continuousMonitoring s) (lastVoiceTime s) (audioBuffer s)
    (voiceStartTime s) v (isInterrupted s) (currentStreamReader s)
    (interruptTimestamp s) (consecutiveVoiceFrames s)
    (consecutiveSilenceFrames s) (timers s) (nextTimerId s)
    (cancelledReaders s) (conversation s).
Definition set_isInterrupted (v : bool) (s : State) : State :=
  MkState (isListening s) (isRecording s) (isProcessing s) (mediaRecorder s)
    (conversationId s) (recordingTimer s) (lastVolume s) (ttsService s)
    (continuousMonitoring s) (lastVoiceTime s) (audioBuffer s)
    (voiceStartTime s) (shouldInterrupt s) v (currentStreamReader s)
    (interruptTimestamp s) (consecutiveVoiceFrames s)
    (consecutiveSilenceFrames s) (timers s) (nextTimerId s)
    (cancelledReaders s) (conversation s).
Definition set_currentStreamReader (v : option nat) (s : State) : State :=
  MkState (isListening s) (isRecording s) (isProcessing s) (mediaRecorder s)
    (conversationId s) (recordingTimer s) (lastVolume s) (ttsService s)
    (continuousMonitoring s) (lastVoiceTime s) (audioBuffer s)
    (voiceStartTime s) (shouldInterrupt s) (isInterrupted s) v
    (interruptTimestamp s) (consecutiveVoiceFrames s)
    (consecutiveSilenceFrames s) (timers s) (nextTimerId s)
    (cancelledReaders s) (conversation s).
Definition set_interruptTimestamp (v : Z) (s : State) : State :=
  MkState (isListening s) (isRecording s) (isProcessing s) (mediaRecorder s)
    (conversationId s) (recordingTimer s) (lastVolume s) (ttsService s)
    (continuousMonitoring s) (lastVoiceTime s) (audioBuffer s)
    (voiceStartTime s) (shouldInterrupt s) (isInterrupted s)
    (currentStreamReader s) v (consecutiveVoiceFrames s)
    (consecutiveSilenceFrames s) (timers s) (nextTimerId s)
    (cancelledReaders s) (conversation s).
Definition set_consecutiveVoiceFrames (v : Z) (s : State) : State :=
  MkState (isListening s) (isRecording s) (isProcessing s) (mediaRecorder s)
    (conversationId s) (recordingTimer s) (lastVolume s) (ttsService s)
    (continuousMonitoring s) (lastVoiceTime s) (audioBuffer s)
    (voiceStartTime s) (shouldInterrupt s) (isInterrupted s)
    (currentStreamReader s) (interruptTimestamp s) v
    (consecutiveSilenceFrames s) (timers s) (nextTimerId s)
    (cancelledReaders s) (conversation s).
Definition set_consecutiveSilenceFrames (v : Z) (s : State) : State :=
  MkState (isListening s) (isRecording s) (isProcessing s) (mediaRecorder s)
    (conversationId s) (recordingTimer s) (lastVolume s) (ttsService s)
    (continuousMonitoring s) (lastVoiceTime s) (audioBuffer s)
    (voiceStartTime s) (shouldInterrupt s) (isInterrupted s)
    (currentStreamReader s) (interruptTimestamp s)
    (consecutiveVoiceFrames s) v (timers s) (nextTimerId s)
    (cancelledReaders s) (conversation s).
Definition set_timers (v : list Timer) (s : State) : State :=
  MkState (isListening s) (isRecording s) (isProcessing s) (mediaRecorder s)
    (conversationId s) (recordingTimer s) (lastVolume s) (ttsService s)
    (continuousMonitoring s) (lastVoiceTime s) (audioBuffer s)
    (voiceStartTime s) (shouldInterrupt s) (isInterrupted s)
    (currentStreamReader s) (interruptTimestamp s)
    (consecutiveVoiceFrames s) (consecutiveSilenceFrames s) v
    (nextTimerId s) (cancelledReaders s) (conversation s).
Definition set_nextTimerId (v : nat) (s : State) : State :=
  MkState (isListening s) (isRecording s) (isProcessing s) (mediaRecorder s)
    (conversationId s) (recordingTimer s) (lastVolume s) (ttsService s)
    (continuousMonitoring s) (lastVoiceTime s) (audioBuffer s)
    (voiceStartTime s) (shouldInterrupt s) (isInterrupted s)
    (currentStreamReader s) (interruptTimestamp s)
    (consecutiveVoiceFrames s) (consecutiveSilenceFrames s) (timers s) v
    (cancelledReaders s) (conversation s).
Definition set_cancelledReaders (v : list nat) (s : State) : State :=
  MkState (isListening s) (isRecording s) (isProcessing s) (mediaRecorder s)
    (conversationId s) (recordingTimer s) (lastVolume s) (ttsService s)
    (continuousMonitoring s) (lastVoiceTime s) (audioBuffer s)
    (voiceStartTime s) (shouldInterrupt s) (isInterrupted s)
    (currentStreamReader s) (interruptTimestamp s)
    (consecutiveVoiceFrames s) (consecutiveSilenceFrames s) (timers s)
    (nextTimerId s) v (conversation s).
Definition set_conversation (v : list Message) (s : State) : State :=
  MkState (isListening s) (isRecording s) (isProcessing s) (mediaRecorder s)
    (conversationId s) (recordingTimer s) (lastVolume s) (ttsService s)
    (continuousMonitoring s) (lastVoiceTime s) (audioBuffer s)
    (voiceStartTime s) (shouldInterrupt s) (isInterrupted s)
    (currentStreamReader s) (interruptTimestamp s)
    (consecutiveVoiceFrames s) (consecutiveSilenceFrames s) (timers s)
    (nextTimerId s) (cancelledReaders s) v.

(** The state right after the script is loaded ([let state = {...}]),
    before any initialisation. *)
Definition initialState : State :=
  {| isListening := false; isRecording := false; isProcessing := false;
     mediaRecorder := None; conversationId := ""; recordingTimer := None;
     lastVolume := 0; ttsService := None; continuousMonitoring := false;
     lastVoiceTime := 0; audioBuffer := None; voiceStartTime := None;
     shouldInterrupt := false; isInterrupted := false;
     currentStreamReader := None; interruptTimestamp := 0;
     consecutiveVoiceFrames := 0; consecutiveSilenceFrames := 0;
     timers := []; nextTimerId := 1; cancelledReaders := [];
     conversation := [] |}.

(** *** Small helpers over the state *)

(** [state.isInterrupted || state.shouldInterrupt]. *)
Definition interrupted (s : State) : bool := isInterrupted s || shouldInterrupt s.

(** [state.ttsService && state.ttsService.isSpeaking()]. *)
Definition ttsSpeaking (s : State) : bool :=
  match ttsService s with
  | Some t => TTSService.isSpeaking t
  | None => false
  end.

(** [state.ttsService.stop()]. *)
Definition ttsStop (s : State) : State * Trace :=
  match ttsService s with
  | Some t => let '(t', tr) := TTSService.stop t in (set_ttsService (Some t') s, tr)
  | None => (s, [])
  end.

(** [setTimeout(cb, delay)] called at time [now]. *)
Definition setTimeout (now delay : Z) (cb : TimerCallback) (s : State) : State * nat :=
  let id := nextTimerId s in
  (set_nextTimerId (S id) (set_timers (timers s ++ [MkTimer id (now + delay) cb]) s), id).

(** [clearTimeout(id)]. *)
Definition clearTimeout (id : nat) (s : State) : State :=
  set_timers (filter (fun t => negb (timerId t =? id)%nat) (timers s)) s.

(** [addMessage(content, type)]: appends to the panel and returns the new
    element, here its index. *)
Definition addMessage (c : string) (r : Role) (s : State) : State * nat :=
  (set_conversation (conversation s ++ [MkMessage r c]) s, List.length (conversation s)).

Fixpoint setContent (i : nat) (c : string) (l : list Message) : list Message :=
  match l, i with
  | [], _ => []
  | m :: r, O => MkMessage (role m) c :: r
  | m :: r, S j => m :: setContent j c r
  end.

(** [updateMessageContent(messageElement, content)]. *)
Definition updateMessageContent (i : nat) (c : string) (s : State) : State :=
  set_conversation (setContent i c (conversation s)) s.

(** *** Recording *)

(** [startRecording()] of the assistant script.  [mediaRecorder.start]
    throws when the recorder is already recording; the [catch] then shows
    an error and resets [isRecording] and [voiceStartTime]. *)
Definition startRecording (cfg : Config) (now : Z) (s : State) : State * Trace :=
  if isRecording s then (s, [E_startRecording])
  else
    match mediaRecorder s with
    | None => (s, [E_startRecording])
    | Some active =>
        let s1 :=
          match audioBuffer s with
          | Some ab =>
              if JS.truthyTime (voiceStartTime s)
              then set_audioBuffer
                     (Some (fst (AudioBuffer.startRecording (voiceStartTime s) ab))) s
              else s
          | None => s
          end in
        let s2 := set_isRecording true s1 in
        if active
        then (set_voiceStartTime None (set_isRecording false s2),
              [E_startRecording; E_showError "录音启动失败"])
        else
          let s3 := set_mediaRecorder (Some true) s2 in
          let '(s4, id) := setTimeout now (RECORDING_TIMEOUT cfg) RecordingTimeout s3 in
          (set_recordingTimer (Some id) s4,
           [E_startRecording; E_recorderStart; E_updateStatus recording])
    end.

(** [stopRecording()].  [mediaRecorder.stop()] throws on a missing or
    inactive recorder; the [catch] only clears [voiceStartTime]. *)
Definition stopRecording (s : State) : State * Trace :=
  if negb (isRecording s) then (s, [E_stopRecording])
  else
    let s1 := set_isRecording false s in
    let s2 :=
      match audioBuffer s1 with
      | Some ab => set_audioBuffer (Some (fst (AudioBuffer.stopRecording ab))) s1
      | None => s1
      end in
    match mediaRecorder s2 with
    | Some true =>
        let s3 := set_mediaRecorder (Some false) s2 in
        let s4 :=
          match recordingTimer s3 with
          | Some id =>
              if (id =? 0)%nat then s3
              else set_recordingTimer None (clearTimeout id s3)
          | None => s3
          end in
        (set_voiceStartTime None s4,
         [E_stopRecording; E_recorderStop; E_updateStatus processing])
    | _ => (set_voiceStartTime None s2, [E_stopRecording])
    end.

(** *** Interruption *)

(** [executeGlobalInterrupt()]. *)
Definition executeGlobalInterrupt (now : Z) (s : State) : State * Trace :=
  let s1 := set_shouldInterrupt false (set_isInterrupted true s) in
  let '(s2, tr1) :=
    match currentStreamReader s1 with
    | Some r =>
        (set_currentStreamReader None
           (set_cancelledReaders (r :: cancelledReaders s1) s1),
         [E_cancelStream r])
    | None => (s1, [])
    end in
  let '(s3, tr2) := if ttsSpeaking s2 then ttsStop s2 else (s2, []) in
  let s4 := set_isProcessing false s3 in
  let '(s5, _) := setTimeout now 100 InterruptReset s4 in
  (s5, tr1 ++ tr2 ++ [E_updateStatus listening]).

(** [window.interruptTTS()]. *)
Definition interruptTTS (now : Z) (s : State) : State * Trace :=
  if isProcessing s || ttsSpeaking s
  then executeGlobalInterrupt now (set_shouldInterrupt true s)
  else (s, []).

(** *** Timers *)

(** The body of each callback given to [setTimeout]. *)
Definition runCallback (cfg : Config) (now : Z) (cb : TimerCallback) (s : State)
  : State * Trace :=
  match cb with
  | RecordingTimeout =>
      if isRecording s then stopRecording s else (s, [])
  | InterruptReset =>
      let s1 := set_isInterrupted false s in
      if JS.gt (lastVolume s1) (VOICE_DETECTION_THRESHOLD cfg) && negb (isRecording s1)
      then startRecording cfg now s1
      else (s1, [])
  | StatusAfterEmpty =>
      if isListening s then (s, [E_updateStatus listening]) else (s, [])
  | StatusAfterProcessing =>
      if negb (isInterrupted s) && negb (shouldInterrupt s)
      then (s, [E_updateStatus listening])
      else (s, [])
  end.

(** The event loop runs timer [id] at time [now]: nothing happens unless
    the timer is still pending and due. *)
Definition fireTimer (cfg : Config) (now : Z) (id : nat) (s : State) : State * Trace :=
  match find (fun t => (timerId t =? id)%nat) (timers s) with
  | Some t =>
      if deadline t <=? now
      then runCallback cfg now (callback t) (clearTimeout id s)
      else (s, [])
  | None => (s, [])
  end.

(** *** Voice activity detection: [startVoiceDetection] *)

Definition VOICE_CONFIRM_FRAMES : Z := 3.

(** [Math.ceil(a / b)] for integers and [b <> 0]. *)
Definition ceilDiv (a b : Z) : Z := - ((- a) / b).

(** [SILENCE_CONFIRM_FRAMES =
     Math.ceil(CONFIG.QUESTION_DELAY / CONFIG.VOICE_DETECTION_INTERVAL)]
    for a non-zero interval. *)
Definition SILENCE_CONFIRM_FRAMES (cfg : Config) : Z :=
  ceilDiv (QUESTION_DELAY cfg) (VOICE_DETECTION_INTERVAL cfg).

(** [consecutiveSilenceFrames >= SILENCE_CONFIRM_FRAMES].  With a zero
    interval the quotient is [NaN] or an infinity: the test then holds
    only for [-Infinity]. *)
Definition silenceConfirmed (cfg : Config) (count : Z) : bool :=
  if VOICE_DETECTION_INTERVAL cfg =? 0
  then QUESTION_DELAY cfg <? 0
  else SILENCE_CONFIRM_FRAMES cfg <=? count.

(** The branch [volume > CONFIG.VOICE_DETECTION_THRESHOLD]. *)
Definition voiceBranch (cfg : Config) (now : Z) (s : State) : State * Trace :=
  let s1 := set_consecutiveSilenceFrames 0
              (set_consecutiveVoiceFrames (consecutiveVoiceFrames s + 1) s) in
  let s2 :=
    if consecutiveVoiceFrames s1 =? 1 then
      let a := if JS.truthyTime (voiceStartTime s1) then s1
               else set_voiceStartTime (Some now) s1 in
      if isProcessing a || ttsSpeaking a
      then set_interruptTimestamp now (set_shouldInterrupt true a)
      else a
    else s1 in
  let '(s3, tr) :=
    if (VOICE_CONFIRM_FRAMES <=? consecutiveVoiceFrames s2)
       && negb (isRecording s2) && negb (isProcessing s2)
    then
      let '(a, tr1) := if ttsSpeaking s2 then ttsStop s2 else (s2, []) in
      let '(b, tr2) := startRecording cfg now a in
      (b, tr1 ++ tr2)
    else (s2, []) in
  (set_lastVoiceTime now s3, tr).

(** The [else] branch: silence. *)
Definition silenceBranch (cfg : Config) (s : State) : State * Trace :=
  let s1 := set_consecutiveVoiceFrames 0
              (set_consecutiveSilenceFrames (consecutiveSilenceFrames s + 1) s) in
  let s2 :=
    if JS.truthyTime (voiceStartTime s1) && negb (isRecording s1)
    then set_voiceStartTime None s1
    else s1 in
  if isRecording s2 && silenceConfirmed cfg (consecutiveSilenceFrames s2)
  then
    let '(a, tr) := stopRecording s2 in
    (set_consecutiveSilenceFrames 0 a, tr)
  else (s2, []).

(** One run of [checkVoiceLevel] at time [now], the analyser reporting
    loudness [volume]. *)
Definition checkVoiceLevel (cfg : Config) (now : Z) (volume : Q) (s : State)
  : State * Trace :=
  if negb (continuousMonitoring s) then (s, [])
  else
    let '(s1, tr1) :=
      if shouldInterrupt s && (isProcessing s || ttsSpeaking s)
      then executeGlobalInterrupt now s
      else (s, []) in
    let '(s2, tr2) :=
      if JS.gt volume (VOICE_DETECTION_THRESHOLD cfg)
      then voiceBranch cfg now s1
      else silenceBranch cfg s1 in
    (set_lastVolume volume s2, tr1 ++ tr2).

(** What the event loop can run between two [await]s of the assistant:
    a detection tick or a due timer. *)
Inductive Event : Type :=
| Tick (now : Z) (volume : Q)
| Fire (now : Z) (timer : nat).

Definition step (cfg : Config) (e : Event) (s : State) : State * Trace :=
  match e with
  | Tick now v => checkVoiceLevel cfg now v s
  | Fire now id => fireTimer cfg now id s
  end.

(** The events in order, with the trace of each. *)
Fixpoint run (cfg : Config) (es : list Event) (s : State) : State * list Trace :=
  match es with
  | [] => (s, [])
  | e :: r =>
      let '(s1, tr) := step cfg e s in
      let '(s2, trs) := run cfg r s1 in
      (s2, tr :: trs)
  end.

(** Detection ticks only. *)
Definition ticks (samples : list (Z * Q)) : list Event :=
  map (fun p => Tick (fst p) (snd p)) samples.

(** *** The speaking half of [TTSService], run against the global state

    [speak] invokes the callbacks registered with [setCallbacks]; those
    of the assistant read and write the global [state] and may call back
    into the service, so [speak] is a function of the whole state.  The
    callbacks are an argument. *)

Record Callbacks : Type := MkCallbacks {
  onStart : option (string -> State -> State * Trace);
  onEnd : option (State -> State * Trace);
  onError : option (JSError -> State -> State * Trace)
}.

(** The callbacks a fresh service has: all [null]. *)
Definition noCallbacks : Callbacks := MkCallbacks None None None.

(** [if (this.callbacks.onStart) this.callbacks.onStart(text)]. *)
Definition callOnStart (cb : Callbacks) (text : string) (s : State) : State * Trace :=
  match onStart cb with
  | Some f => let '(s1, tr) := f text s in (s1, E_onStart text :: tr)
  | None => (s, [])
  end.

Definition callOnEnd (cb : Callbacks) (s : State) : State * Trace :=
  match onEnd cb with
  | Some f => let '(s1, tr) := f s in (s1, E_onEnd :: tr)
  | None => (s, [])
  end.

Definition callOnError (cb : Callbacks) (e : JSError) (s : State) : State * Trace :=
  match onError cb with
  | Some f => let '(s1, tr) := f e s in (s1, E_onError e :: tr)
  | None => (s, [])
  end.

(** A field update on [this]. *)
Definition updTTS (f : TTSService.t -> TTSService.t) (s : State) : State :=
  match ttsService s with
  | Some t => set_ttsService (Some (f t)) s
  | None => s
  end.

(** Where a call of [speak] is waiting. *)
Inductive SpeakPC : Type :=
| AwaitUnlock (text : string)                      (* await this.unlockAudio() *)
| AwaitFetch (text : string)                       (* await this._callTTSAPI(text) *)
| AwaitPlay (blob : Blob) (attempt : nat) (audio : nat)   (* await this._playAudio(blob) *)
| AwaitRetry (blob : Blob) (attempt : nat).        (* the pause before the next attempt *)

Inductive SpeakStep : Type :=
| Suspended (pc : SpeakPC)
| Finished (r : Settled).

(** [options.retries || 2] with the [options = {}] every caller passes. *)
Definition playRetries : nat := 2.

(** The [catch] and [finally] of [speak]: report, rethrow, clear
    [isProcessing]. *)
Definition speak_fail (cb : Callbacks) (e : JSError) (s : State)
  : SpeakStep * State * Trace :=
  let '(s1, tr) := callOnError cb e s in
  (Finished (Rejected e), updTTS (TTSService.set_isProcessing false) s1, tr).

(** The [catch] inside the loop of [_playAudioWithRetry]: after the last
    attempt the error is rethrown, otherwise the loop pauses
    [500 * (attempt + 1)] ms.  On a mobile browser a [NotAllowedError]
    first goes through [unlockAudio()], which leaves [audioUnlocked] set. *)
Definition playFailed (cb : Callbacks) (blob : Blob) (attempt : nat) (e : JSError)
    (s : State) : SpeakStep * State * Trace :=
  let notAllowed :=
    JS.includes "NotAllowedError" (errMessage e)
    || String.eqb (errName e) "NotAllowedError" in
  let unlock :=
    match ttsService s with
    | Some t => TTSService.mobile t && notAllowed
    | None => false
    end in
  let s1 := if unlock then updTTS (TTSService.set_audioUnlocked true) s else s in
  let tr1 := if unlock then [E_unlockAudio; E_sleep 300] else [] in
  if (attempt =? playRetries)%nat
  then
    let '(r, s2, tr2) := speak_fail cb e s1 in
    (r, s2, tr1 ++ tr2)
  else
    (Suspended (AwaitRetry blob attempt), s1,
     tr1 ++ [E_sleep (500 * (Z.of_nat attempt + 1))]).

(** One [await this._playAudio(audioBlob)]: an empty blob is rejected at
    once, otherwise a new [Audio] element becomes current and is
    started. *)
Definition playAttempt (cb : Callbacks) (blob : Blob) (attempt : nat) (s : State)
  : SpeakStep * State * Trace :=
  if blobSize blob =? 0
  then playFailed cb blob attempt (Error "音频数据无效或为空") s
  else
    match ttsService s with
    | Some t =>
        let '(t1, id) := TTSService.startAudio t in
        (Suspended (AwaitPlay blob attempt id), set_ttsService (Some t1) s,
         [E_audioPlay id])
    | None => (Finished (Rejected (MkError "TypeError" "")), s, [])
    end.

(** The [try] block of [speak] up to its first [await]. *)
Definition speak_body (cb : Callbacks) (text : string) (s : State)
  : SpeakStep * State * Trace :=
  let s1 := updTTS (TTSService.set_isProcessing true) s in
  let '(s2, tr1) := callOnStart cb text s1 in
  let '(s3, tr2) := ttsStop s2 in
  (Suspended (AwaitFetch text), s3, tr1 ++ tr2 ++ [E_fetchTTS text]).

(** [speak(text)]: the synchronous run from the call to the first
    [await], or to the return. *)
Definition speak (cb : Callbacks) (text : option string) (s : State)
  : SpeakStep * State * Trace :=
  match ttsService s with
  | None => (Finished (Rejected (MkError "TypeError" "")), s, [])
  | Some t =>
      if negb (TTSService.enabled (TTSService.config t))
      then (Finished Resolved, s, [])
      else
        match text with
        | None => (Finished Resolved, s, [])
        | Some txt =>
            if JS.blank text then (Finished Resolved, s, [])
            else if negb (JS.truthy (TTSService.apiToken (TTSService.config t)))
            then (Finished (Rejected (Error "TTS API Token 未配置")), s, [])
            else if TTSService.mobile t && negb (TTSService.audioUnlocked t)
            then (Suspended (AwaitUnlock txt), s, [E_unlockAudio])
            else speak_body cb txt s
        end
  end.

(** [speak] resumes after [unlockAudio()] settled. *)
Definition speak_onUnlock (cb : Callbacks) (text : string) (s : State)
  : SpeakStep * State * Trace :=
  speak_body cb text (updTTS (TTSService.set_audioUnlocked true) s).

(** [speak] resumes with the answer of the TTS endpoint. *)
Definition speak_onFetch (cb : Callbacks) (r : TTSFetch) (s : State)
  : SpeakStep * State * Trace :=
  match r with
  | TTSBlob b =>
      let save :=
        match ttsService s with
        | Some t => TTSService.saveAudioFiles (TTSService.config t)
        | None => false
        end in
      let '(st, s1, tr) := playAttempt cb b 0 s in
      (st, s1, (if save then [E_saveAudioFile] else []) ++ tr)
  | TTSHttpError m => speak_fail cb (Error m) s
  | TTSTimeout => speak_fail cb (Error "TTS请求超时") s
  | TTSNetworkError e => speak_fail cb e s
  end.

(** The handlers of element [audio] run and [speak] resumes.  On a
    mobile browser the [catch] of [audio.play()] answers a
    [NotAllowedError] with a call of [unlockAudio()] that it does not
    await. *)
Definition speak_onPlay (cb : Callbacks) (blob : Blob) (attempt audio : nat)
    (ev : PlayEvent) (s : State) : SpeakStep * State * Trace :=
  let s1 := updTTS (TTSService.settleAudio audio) s in
  let '(mobile, unlocked) :=
    match ttsService s1 with
    | Some t => (TTSService.mobile t, TTSService.audioUnlocked t)
    | None => (false, false)
    end in
  match ev with
  | Ended =>
      let '(s2, tr) := callOnEnd cb s1 in
      (Finished Resolved, updTTS (TTSService.set_isProcessing false) s2,
       E_revokeObjectURL audio :: tr)
  | MediaError _ _ =>
      let e := playError mobile unlocked ev in
      let '(s2, tr1) := callOnError cb e s1 in
      let '(r, s3, tr2) := playFailed cb blob attempt e s2 in
      (r, s3, E_revokeObjectURL audio :: tr1 ++ tr2)
  | PlayRejected e0 _ =>
      let e := playError mobile unlocked ev in
      let tr0 :=
        if mobile && String.eqb (errName e0) "NotAllowedError"
        then [E_unlockAudio] else [] in
      let '(r, s2, tr) := playFailed cb blob attempt e s1 in
      (r, s2, E_revokeObjectURL audio :: tr0 ++ tr)
  end.

(** The promise of an [unlockAudio()] that nobody awaits settles:
    [audioUnlocked] is set, whether the silent element played or not. *)
Definition unlockAudio_settled (s : State) : State :=
  updTTS (TTSService.set_audioUnlocked true) s.

(** [speak] resumes after the pause between two attempts. *)
Definition speak_onRetry (cb : Callbacks) (blob : Blob) (attempt : nat) (s : State)
  : SpeakStep * State * Trace :=
  playAttempt cb blob (S attempt) s.

(** What wakes a suspended [speak]. *)
Inductive SpeakInput : Type :=
| UnlockSettled
| FetchSettled (r : TTSFetch)
| PlaySettled (ev : PlayEvent)
| RetryDue.

(** Resume a suspended call with the input it waits for; any other input
    leaves it suspended. *)
Definition speak_resume (cb : Callbacks) (pc : SpeakPC) (i : SpeakInput) (s : State)
  : SpeakStep * State * Trace :=
  match pc, i with
  | AwaitUnlock text, UnlockSettled => speak_onUnlock cb text s
  | AwaitFetch _, FetchSettled r => speak_onFetch cb r s
  | AwaitPlay blob attempt audio, PlaySettled ev => speak_onPlay cb blob attempt audio ev s
  | AwaitRetry blob attempt, RetryDue => speak_onRetry cb blob attempt s
  | _, _ => (Suspended pc, s, [])
  end.

(** *** The callbacks registered by [initializeTTS] *)

Definition clearFlags (s : State) : State :=
  set_isInterrupted false (set_shouldInterrupt false s).

Definition appOnStart (text : string) (s : State) : State * Trace :=
  if isInterrupted s || shouldInterrupt s
  then ttsStop s
  else (clearFlags s, [E_updateStatus speaking]).

Definition appOnEnd (s : State) : State * Trace :=
  let s1 := clearFlags s in
  (s1, [E_updateStatus (if continuousMonitoring s1 then listening else ready)]).

Definition appOnError (e : JSError) (s : State) : State * Trace :=
  let s1 := clearFlags s in
  let tr1 :=
    if JS.truthy (errMessage e) && JS.includes "中断" (errMessage e)
    then []
    else [E_showError ("语音播放失败: " ++ errMessage e)] in
  (s1, tr1 ++ (if continuousMonitoring s1 then [E_updateStatus listening] else [])).

Definition appCallbacks : Callbacks :=
  MkCallbacks (Some appOnStart) (Some appOnEnd) (Some appOnError).

(** [initializeTTS()]: [new TTSService(CONFIG.TTS)]. *)
Definition initializeTTS (cfg : Config) (isMobile : bool) (s : State) : State :=
  set_ttsService (Some (TTSService.create (TTS cfg) isMobile)) s.

(** *** The playback queue: [enqueue] and [_processQueue]

    An entry of [audioQueue] is [{ text, options }]; [options] is the
    [{}] of the default argument, as for [speak]. *)

(** Where [_processQueue] is waiting. *)
Inductive QueueStep : Type :=
| QueueAwait (pc : SpeakPC)     (* inside await this.speak(text, options) *)
| QueueDone.

(** [_processQueue()]: the loop
    [while (audioQueue.length > 0 && config.enabled) { shift; try { await speak } catch {} }]
    up to the first [speak] that suspends.  A [speak] that returns or
    throws before its first [await] is followed at once by the next
    turn.  [fuel] bounds the number of turns; [None] is fuel
    exhausted. *)
Fixpoint _processQueue (fuel : nat) (cb : Callbacks) (s : State)
  : option (QueueStep * State * Trace) :=
  match fuel with
  | O => None
  | S f =>
      match ttsService s with
      | None => Some (QueueDone, s, [])
      | Some t =>
          match TTSService.audioQueue t with
          | [] => Some (QueueDone, s, [])
          | text :: rest =>
              if TTSService.enabled (TTSService.config t) then
                let s1 := set_ttsService (Some (TTSService.set_audioQueue rest t)) s in
                let '(st, s2, tr) := speak cb (Some text) s1 in
                match st with
                | Suspended pc => Some (QueueAwait pc, s2, tr)
                | Finished _ =>
                    match _processQueue f cb s2 with
                    | Some (st1, s3, tr1) => Some (st1, s3, tr ++ tr1)
                    | None => None
                    end
                end
              else Some (QueueDone, s, [])
          end
      end
  end.

(** [_processQueue] resumes when the [speak] it awaits is resumed: once
    that call has settled, whatever the outcome, the loop goes on. *)
Definition _processQueue_resume (fuel : nat) (cb : Callbacks) (pc : SpeakPC)
    (i : SpeakInput) (s : State) : option (QueueStep * State * Trace) :=
  let '(st, s1, tr) := speak_resume cb pc i s in
  match st with
  | Suspended pc1 => Some (QueueAwait pc1, s1, tr)
  | Finished _ =>
      match _processQueue fuel cb s1 with
      | Some (st1, s2, tr1) => Some (st1, s2, tr ++ tr1)
      | None => None
      end
  end.

(** [enqueue(text)]:
    [if (!config.enabled || !text?.trim()) return; audioQueue.push(...);]
    [if (!isSpeaking && !isProcessing) await _processQueue()]. *)
Definition enqueue (fuel : nat) (cb : Callbacks) (text : option string) (s : State)
  : option (QueueStep * State * Trace) :=
  match ttsService s with
  | None => Some (QueueDone, s, [])
  | Some t =>
      match text with
      | Some txt =>
          if negb (TTSService.enabled (TTSService.config t))
             || negb (JS.truthy (JS.trim txt))
          then Some (QueueDone, s, [])
          else
            let t1 := TTSService.set_audioQueue (TTSService.audioQueue t ++ [txt]) t in
            let s1 := set_ttsService (Some t1) s in
            if negb (TTSService.isSpeaking t1) && negb (TTSService.isProcessing t1)
            then _processQueue fuel cb s1
            else Some (QueueDone, s1, [])
      | None => Some (QueueDone, s, [])
      end
  end.

(** *** Controls exposed on [window] *)

(** [window.toggleTTS()]. *)
Definition toggleTTS (s : State) : State * Trace :=
  match ttsService s with
  | Some t =>
      let newState := negb (TTSService.enabled (TTSService.config t)) in
      let '(t1, tr) := TTSService.setEnabled newState t in
      (set_ttsService (Some t1) s,
       tr ++ [E_showError (if newState then "TTS已启用" else "TTS已禁用")])
  | None => (s, [])
  end.

(** [window.toggleSaveAudio()]. *)
Definition toggleSaveAudio (s : State) : State * Trace :=
  match ttsService s with
  | Some t =>
      let newState := negb (TTSService.saveAudioFiles (TTSService.config t)) in
      (set_ttsService (Some (TTSService.setSaveAudioFiles newState t)) s,
       [E_showError (if newState then "音频文件保存已启用" else "音频文件保存已禁用")])
  | None => (s, [])
  end.

(** [window.stopTTS()]. *)
Definition stopTTS (s : State) : State * Trace :=
  match ttsService s with
  | Some _ =>
      let '(s1, tr) := ttsStop s in
      let s2 := set_shouldInterrupt false s1 in
      (s2, tr ++ (if continuousMonitoring s2 then [E_updateStatus listening] else []))
  | None => (s, [])
  end.

(** [stopContinuousMonitoring()]; [voiceDetectionTimer] and
    [questionTimer] are never set by the script. *)
Definition stopContinuousMonitoring (s : State) : State * Trace :=
  (set_isListening false (set_continuousMonitoring false s), [E_updateStatus stopped]).

(** [window.clearConversation()]: the panel is replaced by one message of
    the assistant and the conversation starts anew. *)
Definition clearConversation (s : State) : State :=
  set_conversationId ""
    (set_conversation
       [MkMessage assistant
          "对话已清空。现在处于连续监听模式，检测到声音时会自动开始录音。"] s).

End Assistant.

(** ** The wire formats *)

Module Protocol.

(** The payload of one [data: ] line of the chat stream: the fields the
    scripts read.  [None] is an absent field; the fields are strings, as
    the chat endpoint sends them. *)
Record StreamData : Type := MkData {
  event : option string;
  conversation_id : option string;
  complete_answer : option string;
  answer : option string;
  final_answer : option string;
  error : option string
}.

(** The JSON body of [POST /transcribe]. *)
Record STTJson : Type := MkSTT {
  success : bool;
  text : option string;
  sttError : option string
}.

(** What [await response.json()] gives: the parsed body, or the error it
    throws ([SyntaxError] with the browser's message on a body that is
    not JSON). *)
Inductive Json (A : Type) : Type :=
| JsonValue (a : A)
| JsonThrows (e : JSError).

Arguments JsonValue {A} a.
Arguments JsonThrows {A} e.

(** What [fetch] gave for a request, as far as the scripts look at it. *)
Inductive Response : Type :=
| NetworkError (e : JSError)            (* fetch rejected *)
| Aborted                               (* the AbortController fired *)
| Http (ok : bool) (status : Z) (statusText body : string).

(** What [reader.read()] gave. *)
Inductive ReadResult : Type :=
| ReadDone
| ReadChunk (text : string)
| ReadError (e : JSError).

(** *** A reader for the JSON the stream examples use

    [JSON.parse] is the browser's; the functions of the scripts take it as
    a parameter.  [parseFlat] is [JSON.parse] on objects whose members are
    all strings without escapes, written without white space; every other
    text is rejected, which for the scripts is a caught exception. *)

Fixpoint readUntilQuote (l : list ascii) (acc : string) : option (string * list ascii) :=
  match l with
  | [] => None
  | c :: r =>
      if Ascii.eqb c "034"%char then Some (acc, r)
      else if Ascii.eqb c "\"%char then None
      else readUntilQuote r (acc ++ String c EmptyString)
  end.

Definition readString (l : list ascii) : option (string * list ascii) :=
  match l with
  | c :: r => if Ascii.eqb c "034"%char then readUntilQuote r EmptyString else None
  | [] => None
  end.

Fixpoint readMembers (fuel : nat) (l : list ascii) (acc : list (string * string))
  : option (list (string * string)) :=
  match fuel with
  | O => None
  | S f =>
      match readString l with
      | Some (k, c1 :: r1) =>
          if Ascii.eqb c1 ":"%char then
            match readString r1 with
            | Some (v, c2 :: r2) =>
                if Ascii.eqb c2 ","%char then readMembers f r2 (acc ++ [(k, v)])
                else if Ascii.eqb c2 "}"%char
                then match r2 with [] => Some (acc ++ [(k, v)]) | _ => None end
                else None
            | _ => None
            end
          else None
      | _ => None
      end
  end.

Definition parseMembers (s : string) : option (list (string * string)) :=
  match list_ascii_of_string s with
  | c :: r =>
      if Ascii.eqb c "{"%char then
        match r with
        | [c2] => if Ascii.eqb c2 "}"%char then Some [] else None
        | _ => readMembers (List.length r) r []
        end
      else None
  | [] => None
  end.

(** The value of member [k]; a repeated key keeps its last value. *)
Fixpoint member (k : string) (l : list (string * string)) : option string :=
  match l with
  | [] => None
  | (k', v) :: r =>
      match member k r with
      | Some v' => Some v'
      | None => if String.eqb k k' then Some v else None
      end
  end.

Definition parseFlat (s : string) : option StreamData :=
  match parseMembers s with
  | Some m =>
      Some (MkData (member "event" m) (member "conversation_id" m)
                   (member "complete_answer" m) (member "answer" m)
                   (member "final_answer" m) (member "error" m))
  | None => None
  end.

(** The text of such an object, as the endpoint writes it. *)
Definition quoted (s : string) : string :=
  (String "034"%char EmptyString ++ s ++ String "034"%char EmptyString)%string.

Definition writeMember (m : string * string) : string :=
  (quoted (fst m) ++ ":" ++ quoted (snd m))%string.

Definition writeFlat (members : list (string * string)) : string :=
  ("{" ++ String.concat "," (map writeMember members) ++ "}")%string.

(** One line of the stream. *)
Definition dataLine (members : list (string * string)) : string :=
  ("data: " ++ writeFlat members)%string.

(** Lines joined into one chunk. *)
Definition chunkOf (lines : list string) : string :=
  String.concat (String "010"%char EmptyString) lines.

(** [`${n}`] for an integer. *)
Definition showZ (n : Z) : string := DecimalString.NilZero.string_of_int (Z.to_int n).

End Protocol.

(** ** The assistant script: from a recorded clip to the spoken answer *)

Module Coordinator.

Import Assistant Protocol.

(** The two copies of the assistant script differ in [handleStreamResponse]:
    [static/script.js] plays the final answer whatever the interrupt flags
    say ([Forced]); the other copy checks them ([Guarded]). *)
Inductive Variant : Type := Forced | Guarded.

(** *** [callSTTAPI] *)

(** [callSTTAPI(audioBlob)] builds the form and issues the request: there
    is no test before the [fetch]. *)
Definition callSTTAPI_request (blob : Blob) : Trace :=
  [E_fetchTranscribe (blobSize blob)].

(** The rest of [callSTTAPI] once [fetch] settled.  [json] is what
    [response.json()] gives. *)
Definition callSTTAPI_result (r : Response) (json : Json STTJson) : JSError + string :=
  match r with
  | NetworkError e => inl e
  | Aborted => inl (MkError "AbortError" "")
  | Http ok status statusText _ =>
      if negb ok
      then inl (Error ("STT API错误: " ++ showZ status ++ " " ++ statusText))
      else
        match json with
        | JsonThrows e => inl e
        | JsonValue j => inr (JS.orElse (text j) "")
        end
  end.

(** *** [processAudio] *)

(** Where [processAudio] is waiting. *)
Inductive ProcessStep : Type :=
| AwaitSTT                      (* await callSTTAPI(audioBlob) *)
| AwaitChat (query : string)    (* callChatAPI: await fetch(.../chat) *)
| ProcessDone.

(** The [finally] block of [processAudio]. *)
Definition processAudio_finally (now : Z) (s : State) : State * Trace :=
  let s1 := set_isProcessing false s in
  if isInterrupted s1 || shouldInterrupt s1
  then executeGlobalInterrupt now s1
  else if continuousMonitoring s1
  then (fst (setTimeout now 1000 StatusAfterProcessing s1), [])
  else (s1, []).

(** [processAudio(audioBlob)] up to [await callSTTAPI(audioBlob)]. *)
Definition processAudio (now : Z) (blob : Blob) (s : State)
  : ProcessStep * State * Trace :=
  let s1 := set_isProcessing true s in
  if isInterrupted s1 || shouldInterrupt s1
  then
    let '(s2, tr) := processAudio_finally now s1 in
    (ProcessDone, s2, E_updateStatus processing :: tr)
  else (AwaitSTT, s1, E_updateStatus processing :: callSTTAPI_request blob).

(** [callChatAPI(query)] up to its [fetch]. *)
Definition callChatAPI (query : string) (s : State) : Trace :=
  [E_updateStatus processing; E_fetchChat query (conversationId s)].

(** [processAudio] resumes with the outcome of [callSTTAPI]. *)
Definition processAudio_onSTT (now : Z) (r : Response) (json : Json STTJson)
    (s : State) : ProcessStep * State * Trace :=
  match callSTTAPI_result r json with
  | inl e =>
      let '(s1, tr) := processAudio_finally now s in
      (ProcessDone, s1, E_showError ("语音处理失败: " ++ errMessage e) :: tr)
  | inr transcript =>
      if JS.truthy (JS.trim transcript) then
        if isInterrupted s || shouldInterrupt s
        then
          let '(s1, tr) := processAudio_finally now s in
          (ProcessDone, s1, tr)
        else
          let '(s1, _) := addMessage transcript user s in
          if negb (isInterrupted s1) && negb (shouldInterrupt s1)
          then (AwaitChat transcript, s1, callChatAPI transcript s1)
          else
            let '(s2, tr) := processAudio_finally now s1 in
            (ProcessDone, s2, tr)
      else
        let '(s1, _) := setTimeout now 2000 StatusAfterEmpty s in
        let '(s2, tr) := processAudio_finally now s1 in
        (ProcessDone, s2, E_updateStatus ready :: tr)
  end.

(** The [catch] of [callChatAPI], followed by the [finally] of
    [processAudio]. *)
Definition callChatAPI_failed (now : Z) (e : JSError) (s : State) : State * Trace :=
  let '(s1, _) := addMessage "抱歉，我现在无法回应，请稍后再试。" assistant s in
  let '(s2, tr) := processAudio_finally now s1 in
  (s2, E_showError ("对话失败: " ++ errMessage e) :: tr).

(** *** [handleStreamResponse] *)

(** The local variables of one call. *)
Record Handler : Type := MkHandler {
  reader : nat;
  completeAnswer : string;
  messageElement : option nat
}.

(** Where [handleStreamResponse] is waiting. *)
Inductive HandlerStep : Type :=
| AwaitRead (h : Handler)                                       (* await reader.read() *)
| AwaitSpeak (h : Handler) (pc : SpeakPC) (rest : list string)  (* await speak(...) *)
| HandlerDone.

(** What one line of a chunk leads to. *)
Inductive LineOutcome : Type :=
| Next                 (* go on with the following line *)
| Break                (* the [break] of the [for] loop *)
| Await (pc : SpeakPC).

Definition isEvent (d : StreamData) (name : string) : bool :=
  match event d with
  | Some e => String.eqb e name
  | None => false
  end.

Definition hasTTS (s : State) : bool :=
  match ttsService s with Some _ => true | None => false end.

(** [state.ttsService.setEnabled(true)]. *)
Definition ttsEnable (s : State) : State * Trace :=
  match ttsService s with
  | Some t => let '(t1, tr) := TTSService.setEnabled true t in (set_ttsService (Some t1) s, tr)
  | None => (s, [])
  end.

Section WithJSON.

(** [JSON.parse]: [None] when it throws. *)
Variable JSON_parse : string -> option StreamData.

(** The [catch] around [await state.ttsService.speak(finalAnswer)]. *)
Definition speakFailed (v : Variant) (s : State) : Trace :=
  match v with
  | Forced =>
      if continuousMonitoring s then [E_updateStatus listening] else []
  | Guarded =>
      if continuousMonitoring s && negb (isInterrupted s)
      then [E_updateStatus listening] else []
  end.

(** The branch [data.event === 'workflow_finished']. *)
Definition onWorkflowFinished (v : Variant) (cb : Callbacks) (d : StreamData)
    (h : Handler) (s : State) : LineOutcome * Handler * State * Trace :=
  if match v with
     | Guarded => isInterrupted s || shouldInterrupt s
     | Forced => false
     end
  then (Break, h, s, [])
  else
    let finalAnswer := JS.orElse (final_answer d) (completeAnswer h) in
    match messageElement h with
    | None => (Next, h, s, [])
    | Some m =>
        let s1 := updateMessageContent m finalAnswer s in
        let play :=
          match v with
          | Forced => JS.truthy (JS.trim finalAnswer) && hasTTS s1
          | Guarded =>
              JS.truthy (JS.trim finalAnswer) && hasTTS s1
              && negb (isInterrupted s1) && negb (shouldInterrupt s1)
          end in
        if play then
          let '(s2, tr0) :=
            match v with
            | Forced => ttsEnable (set_shouldInterrupt false (set_isInterrupted false s1))
            | Guarded => (s1, [])
            end in
          let '(st, s3, tr1) := speak cb (Some finalAnswer) s2 in
          match st with
          | Suspended pc => (Await pc, h, s3, tr0 ++ E_speak finalAnswer :: tr1)
          | Finished Resolved => (Next, h, s3, tr0 ++ E_speak finalAnswer :: tr1)
          | Finished (Rejected _) =>
              (Next, h, s3, tr0 ++ E_speak finalAnswer :: tr1 ++ speakFailed v s3)
          end
        else
          let st :=
            match v with
            | Forced => if continuousMonitoring s1 then listening else ready
            | Guarded =>
                if continuousMonitoring s1 && negb (isInterrupted s1)
                then listening else ready
            end in
          (Next, h, s1, [E_updateStatus st])
    end.

(** The body of [for (const line of lines)]. *)
Definition onLine (v : Variant) (cb : Callbacks) (line : string) (h : Handler)
    (s : State) : LineOutcome * Handler * State * Trace :=
  if JS.startsWith "data: " line then
    match JSON_parse (JS.slice 6 line) with
    | None => (Next, h, s, [E_warn])
    | Some d =>
        if isEvent d "workflow_started" then
          let s1 := set_conversationId
                      (JS.orElse (conversation_id d) (conversationId s)) s in
          let '(s2, m) := addMessage "" assistant s1 in
          (Next, MkHandler (reader h) (completeAnswer h) (Some m), s2, [])
        else if isEvent d "message" then
          let c := JS.orElse (complete_answer d) "" in
          let h1 := MkHandler (reader h) c (messageElement h) in
          match messageElement h with
          | Some m => (Next, h1, updateMessageContent m c s, [])
          | None => (Next, h1, s, [])
          end
        else if isEvent d "workflow_finished" then onWorkflowFinished v cb d h s
        else (Next, h, s, [])
    end
  else (Next, h, s, []).

(** How the [for] loop over the lines of a chunk ends. *)
Inductive LinesEnd : Type :=
| LinesDone (h : Handler)
| LinesAwait (h : Handler) (pc : SpeakPC) (rest : list string).

Fixpoint processLines (v : Variant) (cb : Callbacks) (lines : list string)
    (h : Handler) (s : State) : LinesEnd * State * Trace :=
  match lines with
  | [] => (LinesDone h, s, [])
  | line :: rest =>
      let '(o, h1, s1, tr1) := onLine v cb line h s in
      match o with
      | Next =>
          let '(e, s2, tr2) := processLines v cb rest h1 s1 in
          (e, s2, tr1 ++ tr2)
      | Break => (LinesDone h1, s1, tr1)
      | Await pc => (LinesAwait h1 pc rest, s1, tr1)
      end
  end.

(** The [finally] of [handleStreamResponse]. *)
Definition finish (h : Handler) (s : State) : HandlerStep * State * Trace :=
  (HandlerDone, set_currentStreamReader None s, [E_releaseLock (reader h)]).

(** The top of [while (true)], before [await reader.read()]. *)
Definition loopTop (v : Variant) (h : Handler) (s : State)
  : HandlerStep * State * Trace :=
  match v with
  | Forced => (AwaitRead h, s, [])
  | Guarded =>
      if isInterrupted s || shouldInterrupt s then
        let s1 :=
          match messageElement h with
          | Some m => updateMessageContent m (completeAnswer h ++ " [被中断]") s
          | None => s
          end in
        finish h s1
      else (AwaitRead h, s, [])
  end.

(** After the [for] loop: back to the top of the [while], unless [speak]
    is awaited. *)
Definition afterLines (v : Variant) (r : LinesEnd * State * Trace)
  : HandlerStep * State * Trace :=
  let '(e, s, tr) := r in
  match e with
  | LinesDone h =>
      let '(st, s1, tr1) := loopTop v h s in
      (st, s1, tr ++ tr1)
  | LinesAwait h pc rest => (AwaitSpeak h pc rest, s, tr)
  end.

(** [handleStreamResponse(response)] from the call to the first
    [await reader.read()]; [r] names the reader the response body gave. *)
Definition handleStreamResponse (v : Variant) (r : nat) (s : State)
  : HandlerStep * State * Trace :=
  loopTop v (MkHandler r "" None) (set_currentStreamReader (Some r) s).

(** The handler resumes with the outcome of [reader.read()].  A reader
    that was cancelled reports the end of the stream. *)
Definition onRead (v : Variant) (cb : Callbacks) (res : ReadResult) (h : Handler)
    (s : State) : HandlerStep * State * Trace :=
  if existsb (Nat.eqb (reader h)) (cancelledReaders s) then finish h s
  else
    match res with
    | ReadDone => finish h s
    | ReadError _ =>
        let s1 :=
          match messageElement h with
          | Some m =>
              if negb (isInterrupted s)
              then updateMessageContent m "抱歉，回答被中断了。" s
              else s
          | None => s
          end in
        finish h s1
    | ReadChunk chunk =>
        afterLines v (processLines v cb (JS.splitLines chunk) h s)
    end.

(** The handler resumes once the awaited [speak] settled: the remaining
    lines of the chunk follow. *)
Definition onSpeakSettled (v : Variant) (cb : Callbacks) (r : Settled)
    (h : Handler) (rest : list string) (s : State) : HandlerStep * State * Trace :=
  let tr0 :=
    match r with
    | Resolved => []
    | Rejected _ => speakFailed v s
    end in
  let '(st, s1, tr) := afterLines v (processLines v cb rest h s) in
  (st, s1, tr0 ++ tr).

End WithJSON.

(** *** [setupMediaRecorder]: the chunks of a recording

    [audioChunks] is the array the three handlers close over; a chunk is
    kept as its size in bytes. *)

(** [mediaRecorder.ondataavailable]. *)
Definition ondataavailable (size : Z) (audioChunks : list Z) : list Z :=
  if 0 <? size then audioChunks ++ [size] else audioChunks.

(** [mediaRecorder.onstop]: the chunks become one blob, the array is
    emptied and the blob goes to [processAudio]; with no chunk nothing
    happens. *)
Definition onstop (now : Z) (audioChunks : list Z) (s : State)
  : list Z * (ProcessStep * State * Trace) :=
  match audioChunks with
  | [] => ([], (ProcessDone, s, []))
  | _ :: _ => ([], processAudio now (MkBlob (fold_right Z.add 0 audioChunks)) s)
  end.

(** [mediaRecorder.onerror]. *)
Definition onerror (error : string) (s : State) : State * Trace :=
  let '(s1, tr) := stopRecording s in
  (s1, E_showError ("录音失败: " ++ error) :: tr).

End Coordinator.

(** ** The chat page script: transcription with retries, stream display *)

Module ChatPage.

Import Protocol.

(** The globals of the page and the parts of the document it writes. *)
Record Page : Type := MkPage {
  conversationId : string;
  messageCount : Z;
  audioChunks : list Z;                (* the sizes of the recorded chunks *)
  messages : list (bool * string);     (* isUser, content *)
  typingIndicator : bool;
  messageInput : option string         (* the input box, when the page has one *)
}.

Definition set_conversationId (v : string) (p : Page) : Page :=
  MkPage v (messageCount p) (audioChunks p) (messages p) (typingIndicator p)
         (messageInput p).
Definition set_messageCount (v : Z) (p : Page) : Page :=
  MkPage (conversationId p) v (audioChunks p) (messages p) (typingIndicator p)
         (messageInput p).
Definition set_audioChunks (v : list Z) (p : Page) : Page :=
  MkPage (conversationId p) (messageCount p) v (messages p) (typingIndicator p)
         (messageInput p).
Definition set_messages (v : list (bool * string)) (p : Page) : Page :=
  MkPage (conversationId p) (messageCount p) (audioChunks p) v (typingIndicator p)
         (messageInput p).
Definition set_typingIndicator (v : bool) (p : Page) : Page :=
  MkPage (conversationId p) (messageCount p) (audioChunks p) (messages p) v
         (messageInput p).
Definition set_messageInput (v : option string) (p : Page) : Page :=
  MkPage (conversationId p) (messageCount p) (audioChunks p) (messages p)
         (typingIndicator p) v.

Inductive PageEffect : Type :=
| P_status (text : string)               (* updateStatus(text) *)
| P_recordingUI (rec processing : bool)  (* updateRecordingUI(rec, processing) *)
| P_fetchTranscribe (size : Z)           (* POST /transcribe *)
| P_sleep (ms : Z)                       (* await new Promise(r => setTimeout(r, ms)) *)
| P_sendLater                            (* setTimeout(() => sendMessage(), 500) *)
| P_statusLater                          (* setTimeout(() => updateStatus(''), 2000) *)
| P_warn.

Definition PageTrace : Type := list PageEffect.

(** *** [processAudio] and [attemptTranscription] *)

Definition maxRetries : nat := 3.

(** [25 * 1024 * 1024]. *)
Definition maxAudioBytes : Z := 25 * 1024 * 1024.

(** [new Blob(audioChunks).size]. *)
Definition blobSize (p : Page) : Z := fold_right Z.add 0 (audioChunks p).

(** The retry test of the [catch]: the message names a network failure. *)
Definition retryable (e : JSError) : bool :=
  JS.includes "Failed to fetch" (errMessage e)
  || JS.includes "Network" (errMessage e)
  || JS.includes "timeout" (errMessage e).

(** The [try] block after the response arrived.  [json] is what
    [response.json()] gives; what it throws goes to the [catch] like any
    other error. *)
Definition onTranscribeResponse (r : Response) (json : Json STTJson) (p : Page)
  : JSError + Page * PageTrace :=
  match r with
  | NetworkError e => inl e
  | Aborted => inl (MkError "AbortError" "")
  | Http ok status _ body =>
      if negb ok
      then inl (Error ("语音转文字服务错误 (" ++ showZ status ++ "): " ++ body))
      else
        match json with
        | JsonThrows e => inl e
        | JsonValue d =>
            let t := match text d with Some t => t | None => "" end in
            if success d && JS.truthy t && JS.truthy (JS.trim t) then
              match messageInput p with
              | Some _ =>
                  inr (set_messageInput (Some (JS.trim t)) p,
                       [P_status "语音转换完成"; P_sendLater])
              | None => inl (Error "找不到输入框元素")
              end
            else if negb (success d)
            then inl (Error (JS.orElse (sttError d) "语音识别失败"))
            else inl (Error "未检测到有效语音内容")
        end
  end.

(** The status line of an attempt. *)
Definition attemptStatus (retryCount : nat) : string :=
  "正在转换语音..."
  ++ (if (0 <? retryCount)%nat
      then " (重试 " ++ showZ (Z.of_nat retryCount) ++ "/"
           ++ showZ (Z.of_nat maxRetries) ++ ")"
      else "").

(** [attemptTranscription()].  [remaining] is [maxRetries - retryCount],
    so that [retryCount < maxRetries] reads [remaining <> 0]; [net n] is
    what the [n]-th request meets. *)
Fixpoint attemptTranscription (remaining : nat)
    (net : nat -> Response * Json STTJson) (p : Page)
  : Settled * Page * PageTrace :=
  let retryCount := (maxRetries - remaining)%nat in
  let head := [P_recordingUI false true; P_status (attemptStatus retryCount)] in
  let size := blobSize p in
  let '(tried, tr) :=
    if size =? 0 then (inl (Error "音频文件为空"), head)
    else if maxAudioBytes <? size
    then (inl (Error "音频文件过大，请录制较短的语音"), head)
    else
      let '(r, json) := net retryCount in
      (onTranscribeResponse r json p, head ++ [P_fetchTranscribe size]) in
  match tried with
  | inr (p1, tr1) => (Resolved, p1, tr ++ tr1)
  | inl e =>
      if String.eqb (errName e) "AbortError"
      then (Rejected (Error "语音处理超时，请重试"), p, tr)
      else
        match remaining with
        | S r =>
            if retryable e then
              let '(res, p1, tr1) := attemptTranscription r net p in
              (res, p1, tr ++ P_sleep (1000 * Z.of_nat (S retryCount)) :: tr1)
            else (Rejected e, p, tr)
        | O => (Rejected e, p, tr)
        end
  end.

(** [processAudio()] of the chat page. *)
Definition processAudio (net : nat -> Response * Json STTJson) (p : Page)
  : Page * PageTrace :=
  match audioChunks p with
  | [] => (p, [P_recordingUI false false; P_status "录音时间太短或无音频数据"])
  | _ =>
      let '(res, p1, tr) := attemptTranscription maxRetries net p in
      let tr1 :=
        match res with
        | Resolved => []
        | Rejected e => [P_status ("❌ 语音处理失败: " ++ errMessage e)]
        end in
      (set_audioChunks [] p1, tr ++ tr1 ++ [P_recordingUI false false])
  end.

(** *** [handleStreamResponse] of the chat page *)

Record Local : Type := MkLocal {
  assistantMessage : option nat;
  completeAnswer : string
}.

Definition addMessage (c : string) (isUser : bool) (p : Page) : Page * nat :=
  (set_messages (messages p ++ [(isUser, c)]) p, List.length (messages p)).

Fixpoint setContent (i : nat) (c : string) (l : list (bool * string))
  : list (bool * string) :=
  match l, i with
  | [], _ => []
  | m :: r, O => (fst m, c) :: r
  | m :: r, S j => m :: setContent j c r
  end.

Definition updateMessageContent (i : nat) (c : string) (p : Page) : Page :=
  set_messages (setContent i c (messages p)) p.

Definition isEvent (d : StreamData) (name : string) : bool :=
  match event d with
  | Some e => String.eqb e name
  | None => false
  end.

Section WithJSON.

Variable JSON_parse : string -> option StreamData.

(** The body of [for (const line of lines)]; [true] in the first
    component is the [break] of the [error] event. *)
Definition onLine (line : string) (l : Local) (p : Page)
  : bool * Local * Page * PageTrace :=
  if JS.startsWith "data: " line then
    let jsonData := JS.trim (JS.slice 6 line) in
    if negb (JS.truthy jsonData) || String.eqb jsonData "[DONE]"
    then (false, l, p, [])
    else
      match JSON_parse jsonData with
      | None => (false, l, p, [P_warn])
      | Some d =>
          if isEvent d "workflow_started" then
            (false, l,
             set_conversationId (JS.orElse (conversation_id d) "")
               (set_typingIndicator false p),
             [P_status "AI正在思考..."])
          else if isEvent d "message" then
            let '(p1, m) :=
              match assistantMessage l with
              | Some m => (p, m)
              | None => addMessage "" false p
              end in
            let c := JS.orElse (complete_answer d) (JS.orElse (answer d) "") in
            (false, MkLocal (Some m) c, updateMessageContent m c p1, [])
          else if isEvent d "workflow_finished" then
            let p1 :=
              match assistantMessage l with
              | Some m =>
                  set_messageCount (messageCount p + 1)
                    (updateMessageContent m
                       (JS.orElse (final_answer d) (completeAnswer l)) p)
              | None => p
              end in
            (false, l, p1, [P_status "回答完成"; P_statusLater])
          else if isEvent d "error" then
            let '(p1, _) :=
              addMessage ("❌ AI服务错误: " ++ JS.orElse (error d) "未知错误") false
                (set_typingIndicator false p) in
            (true, l, p1, [P_status "AI服务发生错误"])
          else (false, l, p, [])
      end
  else (false, l, p, []).

Fixpoint processLines (lines : list string) (l : Local) (p : Page)
  : Local * Page * PageTrace :=
  match lines with
  | [] => (l, p, [])
  | line :: rest =>
      let '(brk, l1, p1, tr1) := onLine line l p in
      if brk then (l1, p1, tr1)
      else
        let '(l2, p2, tr2) := processLines rest l1 p1 in
        (l2, p2, tr1 ++ tr2)
  end.

(** [handleStreamResponse(response)] over what the successive
    [reader.read()] give.  [None]: the stream has not ended yet. *)
Fixpoint handleStreamResponse (reads : list ReadResult) (l : Local) (p : Page)
  : option Settled * Page * PageTrace :=
  match reads with
  | [] => (None, p, [])
  | ReadDone :: _ => (Some Resolved, p, [])
  | ReadError e :: _ =>
      let p1 := set_typingIndicator false p in
      let p2 :=
        match assistantMessage l with
        | Some _ => p1
        | None => fst (addMessage ("❌ 响应处理失败: " ++ errMessage e) false p1)
        end in
      (Some (Rejected e), p2, [])
  | ReadChunk chunk :: rest =>
      let '(l1, p1, tr1) := processLines (JS.splitLines chunk) l p in
      let '(r, p2, tr2) := handleStreamResponse rest l1 p1 in
      (r, p2, tr1 ++ tr2)
  end.

End WithJSON.

End ChatPage.

(** ** The real-time voice mode of the chat page

    [startVoiceActivityDetection] and its frame callback
    [detectVoiceActivity], with the two timers the callback arms.  The
    recorder is [continuousRecorder]; stopping it hands the recorded
    utterance to [processRealtimeAudio]. *)

Module VoiceMode.

Definition energyThreshold : Q := 40.
Definition silenceDuration : Z := 1500.
Definition minimumSpeechDuration : Z := 1000.
Definition maxSpeechDuration : Z := 30000.

(** Callbacks given to [setTimeout]. *)
Inductive TimerCallback : Type :=
| SilenceElapsed (frame : Z)   (* armed by the frame that ran at time [frame]; the closure keeps its [now] *)
| RestartRecorder.             (* 100 ms after the recorder was stopped at the start of an utterance *)

Record Timer : Type := MkTimer {
  timerId : nat;
  deadline : Z;
  callback : TimerCallback
}.

Inductive Effect : Type :=
| RecorderStop       (* continuousRecorder.stop() *)
| RecorderStart      (* continuousRecorder.start() on a new MediaRecorder *)
| Visualizer         (* updateVoiceVisualizer(average) *)
| NextFrame.         (* requestAnimationFrame(detectVoiceActivity) *)

(** The module-level variables the detection reads and writes, and the
    pending timers. *)
Record State : Type := MkState {
  isVoiceModeActive : bool;
  analyser : bool;                    (* the AnalyserNode exists *)
  continuousStream : bool;            (* the microphone stream exists *)
  continuousRecorder : option bool;   (* null, or the recorder with [state === 'recording'] or not *)
  isProcessingRealtime : bool;
  realtimeAudioChunks : list Z;       (* the sizes of the chunks *)
  voiceActivityDetected : bool;
  voiceStartTime : option Z;
  silenceTimer : option nat;
  timers : list Timer;
  nextTimerId : nat
}.

Definition set_continuousRecorder (v : option bool) (s : State) : State :=
  MkState (isVoiceModeActive s) (analyser s) (continuousStream s) v
    (isProcessingRealtime s) (realtimeAudioChunks s) (voiceActivityDetected s)
    (voiceStartTime s) (silenceTimer s) (timers s) (nextTimerId s).
Definition set_realtimeAudioChunks (v : list Z) (s : State) : State :=
  MkState (isVoiceModeActive s) (analyser s) (continuousStream s) (continuousRecorder s)
    (isProcessingRealtime s) v (voiceActivityDetected s)
    (voiceStartTime s) (silenceTimer s) (timers s) (nextTimerId s).
Definition set_voiceActivityDetected (v : bool) (s : State) : State :=
  MkState (isVoiceModeActive s) (analyser s) (continuousStream s) (continuousRecorder s)
    (isProcessingRealtime s) (realtimeAudioChunks s) v
    (voiceStartTime s) (silenceTimer s) (timers s) (nextTimerId s).
Definition set_voiceStartTime (v : option Z) (s : State) : State :=
  MkState (isVoiceModeActive s) (analyser s) (continuousStream s) (continuousRecorder s)
    (isProcessingRealtime s) (realtimeAudioChunks s) (voiceActivityDetected s)
    v (silenceTimer s) (timers s) (nextTimerId s).
Definition set_silenceTimer (v : option nat) (s : State) : State :=
  MkState (isVoiceModeActive s) (analyser s) (continuousStream s) (continuousRecorder s)
    (isProcessingRealtime s) (realtimeAudioChunks s) (voiceActivityDetected s)
    (voiceStartTime s) v (timers s) (nextTimerId s).
Definition set_timers (v : list Timer) (s : State) : State :=
  MkState (isVoiceModeActive s) (analyser s) (continuousStream s) (continuousRecorder s)
    (isProcessingRealtime s) (realtimeAudioChunks s) (voiceActivityDetected s)
    (voiceStartTime s) (silenceTimer s) v (nextTimerId s).
Definition set_nextTimerId (v : nat) (s : State) : State :=
  MkState (isVoiceModeActive s) (analyser s) (continuousStream s) (continuousRecorder s)
    (isProcessingRealtime s) (realtimeAudioChunks s) (voiceActivityDetected s)
    (voiceStartTime s) (silenceTimer s) (timers s) v.

(** [setTimeout(cb, delay)] called at time [now]. *)
Definition setTimeout (now delay : Z) (cb : TimerCallback) (s : State) : State * nat :=
  let id := nextTimerId s in
  (set_nextTimerId (S id) (set_timers (timers s ++ [MkTimer id (now + delay) cb]) s), id).

(** [clearTimeout(id)]. *)
Definition clearTimeout (id : nat) (s : State) : State :=
  set_timers (filter (fun t => negb (timerId t =? id)%nat) (timers s)) s.

(** Truthiness of the identifier held in [silenceTimer]. *)
Definition truthyTimer (t : option nat) : bool :=
  match t with
  | Some id => negb (id =? 0)%nat
  | None => false
  end.

(** [if (continuousRecorder && continuousRecorder.state === 'recording')
     continuousRecorder.stop()]. *)
Definition stopIfRecording (s : State) : State * list Effect :=
  match continuousRecorder s with
  | Some true => (set_continuousRecorder (Some false) s, [RecorderStop])
  | _ => (s, [])
  end.

(** The end of an utterance: [voiceActivityDetected = false;
    voiceStartTime = null]. *)
Definition endOfSpeech (s : State) : State :=
  set_voiceStartTime None (set_voiceActivityDetected false s).

(** The branch [average > energyThreshold]. *)
Definition voiceBranch (now : Z) (s : State) : State * list Effect :=
  let '(s1, tr) :=
    if negb (voiceActivityDetected s) then
      let a := set_voiceStartTime (Some now) (set_voiceActivityDetected true s) in
      match continuousRecorder a with
      | Some true =>
          let b := set_continuousRecorder (Some false) a in
          (fst (setTimeout now 100 RestartRecorder b), [RecorderStop])
      | _ => (a, [])
      end
    else (s, []) in
  let s2 :=
    if truthyTimer (silenceTimer s1)
    then
      match silenceTimer s1 with
      | Some id => set_silenceTimer None (clearTimeout id s1)
      | None => s1
      end
    else s1 in
  (s2, tr).

(** The branch [else if (voiceActivityDetected)]. *)
Definition silenceBranch (now : Z) (s : State) : State :=
  if negb (truthyTimer (silenceTimer s))
  then
    let '(s1, id) := setTimeout now silenceDuration (SilenceElapsed now) s in
    set_silenceTimer (Some id) s1
  else s.

(** The last test of the frame:
    [voiceActivityDetected && voiceStartTime
     && (now - voiceStartTime) > maxSpeechDuration]. *)
Definition tooLong (now : Z) (s : State) : bool :=
  voiceActivityDetected s
  && match voiceStartTime s with
     | Some t0 => negb (t0 =? 0) && (maxSpeechDuration <? now - t0)
     | None => false
     end.

(** One run of [detectVoiceActivity] at time [now], the analyser
    reporting the mean energy [average]. *)
Definition detectVoiceActivity (now : Z) (average : Q) (s : State)
  : State * list Effect :=
  if negb (isVoiceModeActive s) || negb (analyser s) then (s, [])
  else
    let '(s1, tr1) :=
      if JS.gt average energyThreshold then voiceBranch now s
      else if voiceActivityDetected s then (silenceBranch now s, [])
      else (s, []) in
    let '(s2, tr2) :=
      if tooLong now s1
      then
        let '(a, tr) := stopIfRecording s1 in
        (endOfSpeech a, tr)
      else (s1, []) in
    (s2, Visualizer :: tr1 ++ tr2 ++ (if isVoiceModeActive s2 then [NextFrame] else [])).

(** [now - voiceStartTime] as the callback of the silence timer computes
    it: [now] is the time of the frame that armed the timer, and [null]
    counts as 0. *)
Definition speechDuration (frame : Z) (s : State) : Z :=
  match voiceStartTime s with
  | Some t0 => frame - t0
  | None => frame
  end.

(** The body of each callback given to [setTimeout].  The restart reads
    [continuousRecorder.mimeType]: on [null] that throws, after the
    chunks were dropped. *)
Definition runCallback (cb : TimerCallback) (s : State) : State * list Effect :=
  match cb with
  | SilenceElapsed frame =>
      let '(s1, tr) :=
        if voiceActivityDetected s && isVoiceModeActive s
        then
          if minimumSpeechDuration <=? speechDuration frame s
          then
            let '(a, tr) := stopIfRecording s in
            (endOfSpeech a, tr)
          else (endOfSpeech s, [])
        else (s, []) in
      (set_silenceTimer None s1, tr)
  | RestartRecorder =>
      if isVoiceModeActive s && continuousStream s
      then
        let s1 := set_realtimeAudioChunks [] s in
        match continuousRecorder s1 with
        | Some _ => (set_continuousRecorder (Some true) s1, [RecorderStart])
        | None => (s1, [])
        end
      else (s, [])
  end.

(** The event loop runs timer [id] at time [now]: nothing happens unless
    the timer is still pending and due. *)
Definition fireTimer (now : Z) (id : nat) (s : State) : State * list Effect :=
  match find (fun t => (timerId t =? id)%nat) (timers s) with
  | Some t =>
      if deadline t <=? now
      then runCallback (callback t) (clearTimeout id s)
      else (s, [])
  | None => (s, [])
  end.

(** Detection frames in order: each with its time and the energy
    measured; the trace of each. *)
Fixpoint frames (fs : list (Z * Q)) (s : State) : State * list (list Effect) :=
  match fs with
  | [] => (s, [])
  | f :: r =>
      let '(s1, tr) := detectVoiceActivity (fst f) (snd f) s in
      let '(s2, trs) := frames r s1 in
      (s2, tr :: trs)
  end.

End VoiceMode.

(** ** The configuration file: [loadYamlToMapSync] and [initConfigSync] *)

Module ConfigFile.

(** A JavaScript [Map] from strings to strings: the entries in insertion
    order, every key once. *)
Definition Map : Type := list (string * string).

(** [map.set(k, v)]: an existing key keeps its place and takes the new
    value. *)
Fixpoint set (k v : string) (m : Map) : Map :=
  match m with
  | [] => [(k, v)]
  | (k', v') :: r =>
      if String.eqb k' k then (k', v) :: r else (k', v') :: set k v r
  end.

(** [map.get(k)]; [None] is [undefined]. *)
Fixpoint get (k : string) (m : Map) : option string :=
  match m with
  | [] => None
  | (k', v') :: r => if String.eqb k' k then Some v' else get k r
  end.

(** [s.indexOf(c)] for a one-byte character; [None] is [-1].  The index
    counts bytes, and so do [substring] and [JS.slice] below: the three
    are only used together, to cut a line at an ASCII character. *)
Fixpoint indexOf (c : ascii) (s : string) : option nat :=
  match s with
  | EmptyString => None
  | String a r =>
      if Ascii.eqb a c then Some O
      else match indexOf c r with
           | Some i => Some (S i)
           | None => None
           end
  end.

(** [s.substring(0, n)]. *)
Fixpoint substring0 (n : nat) (s : string) : string :=
  match n, s with
  | S k, String a r => String a (substring0 k r)
  | _, _ => EmptyString
  end.

(** The body of [for (const line of lines)]. *)
Definition onLine (m : Map) (line : string) : Map :=
  let trimmedLine := JS.trim line in
  if negb (JS.truthy trimmedLine) || JS.startsWith "#" trimmedLine then m
  else
    match indexOf ":"%char trimmedLine with
    | None => m
    | Some colonIndex =>
        let key := JS.trim (substring0 colonIndex trimmedLine) in
        let value := JS.trim (JS.slice (S colonIndex) trimmedLine) in
        set key value m
    end.

(** The loop over the lines of the file. *)
Definition parseLines (lines : list string) : Map := fold_left onLine lines [].

(** What the synchronous [XMLHttpRequest] does: [open] or [send] throws,
    or a response arrives. *)
Inductive Xhr : Type :=
| XhrThrows
| XhrResponse (status : Z) (responseText : string).

(** [loadYamlToMapSync()]: any failure gives the empty map. *)
Definition loadYamlToMapSync (xhr : Xhr) : Map :=
  match xhr with
  | XhrThrows => []
  | XhrResponse status responseText =>
      if status =? 200 then parseLines (JS.splitLines responseText) else []
  end.

(** [CONFIG.API_BASE] as [initConfigSync] sets it. *)
Definition API_BASE (xhr : Xhr) : option string :=
  get "API_BASE" (loadYamlToMapSync xhr).

(** [initConfigSync()] of [static/script.js]. *)
Definition initConfigSync (xhr : Xhr) : Assistant.Config :=
  Assistant.CONFIG (get "apiToken" (loadYamlToMapSync xhr)).

End ConfigFile.

(** ** Vocabulary of the statements *)

(** [subseq l1 l2]: [l1] is [l2] with some entries left out, the others
    in their order. *)
Inductive subseq {A : Type} : list A -> list A -> Prop :=
| subseq_nil : subseq [] []
| subseq_skip : forall x l1 l2, subseq l1 l2 -> subseq l1 (x :: l2)
| subseq_keep : forall x l1 l2, subseq l1 l2 -> subseq (x :: l1) (x :: l2).

(** A loudness sample above, or not above, the detection threshold. *)
Definition loud (cfg : Assistant.Config) (v : Q) : Prop :=
  (Assistant.VOICE_DETECTION_THRESHOLD cfg < v)%Q.

Definition quiet (cfg : Assistant.Config) (v : Q) : Prop :=
  (v <= Assistant.VOICE_DETECTION_THRESHOLD cfg)%Q.

(** Three consecutive samples above the threshold somewhere in the
    sequence. *)
Definition threeLoud (cfg : Assistant.Config) (samples : list (Z * Q)) : Prop :=
  exists pre a b c post,
    samples = pre ++ a :: b :: c :: post
    /\ loud cfg (snd a) /\ loud cfg (snd b) /\ loud cfg (snd c).

(** A scan of the samples with a count [k] of the loud samples that came
    just before: does the count reach three?  Used to relate the run of
    the detection loop to [threeLoud]. *)
Fixpoint confirms (cfg : Assistant.Config) (k : Z) (samples : list (Z * Q)) : bool :=
  match samples with
  | [] => false
  | x :: r =>
      if JS.gt (snd x) (Assistant.VOICE_DETECTION_THRESHOLD cfg)
      then (3 <=? k + 1) || confirms cfg (k + 1) r
      else confirms cfg 0 r
  end.

(** A non-empty loud run at the front that completes the count. *)
Definition loudFront (cfg : Assistant.Config) (k : Z) (l : list (Z * Q)) : Prop :=
  exists rn post,
    l = rn ++ post /\ rn <> [] /\ Forall (fun x => loud cfg (snd x)) rn
    /\ 3 <= k + Z.of_nat (List.length rn).

(** Every pending timer was created before the next identifier: the
    identifiers [setTimeout] hands out are fresh. *)
Definition timersFresh (s : Assistant.State) : Prop :=
  Forall (fun t => (Assistant.timerId t < Assistant.nextTimerId s)%nat)
         (Assistant.timers s).

(** Timer [t] waits among the pending timers of [s] under its own
    identifier; the identifier was handed out before the next one, and it
    is not the one [recordingTimer] holds.  Neither a later [setTimeout]
    nor the [clearTimeout(state.recordingTimer)] of [stopRecording]
    touches such a timer. *)
Definition pending (t : Assistant.Timer) (s : Assistant.State) : Prop :=
  find (fun x => (Assistant.timerId x =? Assistant.timerId t)%nat) (Assistant.timers s)
  = Some t
  /\ (Assistant.timerId t < Assistant.nextTimerId s)%nat
  /\ Assistant.recordingTimer s <> Some (Assistant.timerId t).

(** The event is not the run of timer [id]. *)
Definition notTimer (id : nat) (e : Assistant.Event) : Prop :=
  match e with
  | Assistant.Fire _ i => i <> id
  | Assistant.Tick _ _ => True
  end.

(** [recordingTimer], when set, holds an identifier that [setTimeout]
    handed out earlier. *)
Definition recordingTimerOld (s : Assistant.State) : Prop :=
  forall id, Assistant.recordingTimer s = Some id -> (id < Assistant.nextTimerId s)%nat.

(** [s'] still holds the timer [t] if it was pending in [s], and
    [isListening] is as it was. *)
Definition keeps (t : Assistant.Timer) (s s' : Assistant.State) : Prop :=
  (pending t s -> pending t s')
  /\ Assistant.isListening s' = Assistant.isListening s.

(** A frame of the voice mode whose mean energy is above the threshold. *)
Definition loudFrame (f : Z * Q) : Prop := (VoiceMode.energyThreshold < snd f)%Q.

(** Some frame of the run stopped the recorder. *)
Definition recorderStopped (trs : list (list VoiceMode.Effect)) : Prop :=
  exists tr, In tr trs /\ In VoiceMode.RecorderStop tr.

(** The fields the detection loop reads, apart from the service and the
    interrupt flags. *)
Definition sameLoop (s s' : Assistant.State) : Prop :=
  Assistant.continuousMonitoring s' = Assistant.continuousMonitoring s
  /\ Assistant.isRecording s' = Assistant.isRecording s
  /\ Assistant.consecutiveVoiceFrames s' = Assistant.consecutiveVoiceFrames s
  /\ Assistant.consecutiveSilenceFrames s' = Assistant.consecutiveSilenceFrames s
  /\ Assistant.voiceStartTime s' = Assistant.voiceStartTime s
  /\ Assistant.mediaRecorder s' = Assistant.mediaRecorder s
  /\ Assistant.audioBuffer s' = Assistant.audioBuffer s
  /\ Assistant.recordingTimer s' = Assistant.recordingTimer s.

(** Some effect of the run satisfies [P]. *)
Definition emits (P : Effect -> Prop) (trs : list Trace) : Prop :=
  exists tr e, In tr trs /\ In e tr /\ P e.

(** ** Concrete configurations used by the examples *)



(** The assistant on a desktop browser once [initializeTTS()] has run and
    [initializeAudio()] has created the recorder and the buffer and
    switched continuous monitoring on, as the first run of
    [checkVoiceLevel] finds it ([startVoiceDetection] makes that run at
    once, with both frame counters at zero): nothing is being recorded
    or processed. *)
Definition listeningState (cfg : Assistant.Config) : Assistant.State :=
  Assistant.set_continuousMonitoring true
    (Assistant.set_isListening true
       (Assistant.set_audioBuffer (Some AudioBuffer.default)
          (Assistant.set_mediaRecorder (Some false)
             (Assistant.initializeTTS cfg false Assistant.initialState)))).

(** Threshold 0.2, three frames to confirm, ten silent frames to end:
    the configuration of the end-to-end scenario. *)
Definition scenarioConfig : Assistant.Config :=
  {| Assistant.RECORDING_TIMEOUT := 10000;
     Assistant.SILENCE_THRESHOLD := 1 # 10;
     Assistant.SILENCE_DURATION := 1500;
     Assistant.VOICE_DETECTION_THRESHOLD := 2 # 10;
     Assistant.QUESTION_DELAY := 100;
     Assistant.VOICE_DETECTION_INTERVAL := 10;
     Assistant.VOICE_START_DELAY := 100;
     Assistant.TTS := Assistant.ttsOptions (Some "token") |}.

(** [n] silent samples, one per millisecond from time [t] on. *)
Fixpoint silentMillis (t : Z) (n : nat) : list (Z * Q) :=
  match n with
  | O => []
  | S k => (t, 0%Q) :: silentMillis (t + 1) k
  end.

(** The effect is a call of [stopRecording]. *)
Definition isStop (e : Effect) : bool :=
  match e with
  | E_stopRecording => true
  | _ => false
  end.

(** Samples taken every 10 ms from time [t] on. *)
Fixpoint stamped (t : Z) (l : list Q) : list (Z * Q) :=
  match l with
  | [] => []
  | v :: r => (t, v) :: stamped (t + 10) r
  end.

(** The loudness sequence of the end-to-end scenario. *)
Definition scenarioSamples : list (Z * Q) :=
  stamped 1000
    ([0%Q; 0%Q; 3 # 10; 3 # 10; 3 # 10] ++ repeat 0%Q 16).

(** How many [Audio] elements of the service are sounding. *)
Definition audibleNow (s : Assistant.State) : nat :=
  match Assistant.ttsService s with
  | Some t => TTSService.audible t
  | None => O
  end.

(** Two calls of [speak], the second issued while the first still waits
    for the TTS endpoint; then the first answer arrives, then the
    second.  The result is the final state and the trace of each of the
    four runs. *)
Definition overlappingSpeaks : Assistant.State * list Trace :=
  let cb := Assistant.appCallbacks in
  let s0 := listeningState (Assistant.CONFIG (Some "token")) in
  match Assistant.speak cb (Some "first answer") s0 with
  | (Assistant.Suspended pcA, s1, tr1) =>
      match Assistant.speak cb (Some "second answer") s1 with
      | (Assistant.Suspended pcB, s2, tr2) =>
          let '(_, s3, tr3) :=
            Assistant.speak_resume cb pcA
              (Assistant.FetchSettled (TTSBlob (MkBlob 1024))) s2 in
          let '(_, s4, tr4) :=
            Assistant.speak_resume cb pcB
              (Assistant.FetchSettled (TTSBlob (MkBlob 2048))) s3 in
          (s4, [tr1; tr2; tr3; tr4])
      | (_, s2, tr2) => (s2, [tr1; tr2])
      end
  | (_, s1, tr1) => (s1, [tr1])
  end.

(** A chat answer during which the user starts to speak.  The clip is
    being processed; the stream announces the message and its text; a
    detection tick hears a loud sample, which latches [shouldInterrupt];
    before the next tick the chunk with [workflow_finished] arrives.
    The result tells whether a flag was set when that chunk arrived, where
    the handler is afterwards, the final state and the trace of each
    run. *)
Definition interruptedStream (v : Coordinator.Variant)
  : bool * Coordinator.HandlerStep * Assistant.State * list Trace :=
  let cfg := Assistant.CONFIG (Some "token") in
  let cb := Assistant.appCallbacks in
  let parse := Protocol.parseFlat in
  let first :=
    Protocol.chunkOf
      [Protocol.dataLine [("event", "workflow_started"); ("conversation_id", "c1")];
       Protocol.dataLine [("event", "message"); ("complete_answer", "Hi")]] in
  let last :=
    Protocol.dataLine [("event", "workflow_finished"); ("final_answer", "Hi")] in
  let s0 := Assistant.set_isProcessing true (listeningState cfg) in
  match Coordinator.handleStreamResponse v 1 s0 with
  | (Coordinator.AwaitRead h0, s1, tr1) =>
      match Coordinator.onRead parse v cb (Protocol.ReadChunk first) h0 s1 with
      | (Coordinator.AwaitRead h1, s2, tr2) =>
          let '(s3, tr3) := Assistant.checkVoiceLevel cfg 1000 (1 # 2) s2 in
          let '(st, s4, tr4) :=
            Coordinator.onRead parse v cb (Protocol.ReadChunk last) h1 s3 in
          (Assistant.isInterrupted s3 || Assistant.shouldInterrupt s3, st, s4,
           [tr1; tr2; tr3; tr4])
      | (st, s2, tr2) => (false, st, s2, [tr1; tr2])
      end
  | (st, s1, tr1) => (false, st, s1, [tr1])
  end.










(** A chat page holding a recording of 4 kB. *)
Definition recordedPage : ChatPage.Page :=
  ChatPage.MkPage "" 1 [4096] [] false (Some "").


(** A chunk whose first line is the end marker and whose second line
    carries a message. *)
Definition doneThenMessage : string :=
  Protocol.chunkOf
    ["data: [DONE]";
     Protocol.dataLine [("event", "message"); ("complete_answer", "Hi")]].

(** A chunk whose first line is the end marker and whose second line
    opens an answer. *)
Definition doneThenStarted : string :=
  Protocol.chunkOf
    ["data: [DONE]";
     Protocol.dataLine [("event", "workflow_started"); ("conversation_id", "c1")]].

(** Two calls of [speak] one after the other: the first answer arrives
    and plays, then [speak] is called again, then the second answer
    arrives.  The result is the state after the second call, the final
    state and the trace of each of the four runs. *)
Definition successiveSpeaks : Assistant.State * Assistant.State * list Trace :=
  let cb := Assistant.appCallbacks in
  let s0 := listeningState (Assistant.CONFIG (Some "token")) in
  match Assistant.speak cb (Some "first answer") s0 with
  | (Assistant.Suspended pcA, s1, tr1) =>
      let '(_, s2, tr2) :=
        Assistant.speak_resume cb pcA
          (Assistant.FetchSettled (TTSBlob (MkBlob 1024))) s1 in
      match Assistant.speak cb (Some "second answer") s2 with
      | (Assistant.Suspended pcB, s3, tr3) =>
          let '(_, s4, tr4) :=
            Assistant.speak_resume cb pcB
              (Assistant.FetchSettled (TTSBlob (MkBlob 2048))) s3 in
          (s3, s4, [tr1; tr2; tr3; tr4])
      | (_, s3, tr3) => (s3, s3, [tr1; tr2; tr3])
      end
  | (_, s1, tr1) => (s1, s1, [tr1])
  end.

(** ** Runs and fixtures of the further properties *)

(** One [onaudioprocess] event: the clock as [addToBuffer] reads it, the
    clock as [trimBuffer] reads it, and the samples delivered. *)
Record AudioProcess : Type := MkAudioProcess {
  tAdd : Z;
  tTrim : Z;
  samples : list Q
}.

(** The callbacks in order. *)
Definition feed (events : list AudioProcess) (ab : AudioBuffer.t) : AudioBuffer.t :=
  fold_left
    (fun b e => AudioBuffer.onaudioprocess (tAdd e) (tTrim e) (samples e) b)
    events ab.

(** The clock never runs backwards over the events, from [t0] on. *)
Fixpoint chronological (t0 : Z) (events : list AudioProcess) : Prop :=
  match events with
  | [] => True
  | e :: r => t0 <= tAdd e /\ tAdd e <= tTrim e /\ chronological (tTrim e) r
  end.

(** The last clock reading of the events, [t0] when there is none. *)
Fixpoint lastClock (t0 : Z) (events : list AudioProcess) : Z :=
  match events with
  | [] => t0
  | e :: r => lastClock (tTrim e) r
  end.

(** Every entry was captured within the last [bufferDuration]
    milliseconds before [now]. *)
Definition within (now : Z) (ab : AudioBuffer.t) : Prop :=
  Forall (fun it => now - AudioBuffer.bufferDuration ab < AudioBuffer.timestamp it
                    /\ AudioBuffer.timestamp it <= now)
         (AudioBuffer.buffer ab).

(** The recorder and its time-out as [startRecording] and [stopRecording]
    keep them: timer identifiers are fresh, distinct and never [0]; while
    [isRecording] is set the recorder is active; a pending
    [RecordingTimeout] belongs to the recording in progress, the one
    [recordingTimer] names. *)
Definition consistentView (ts : list Assistant.Timer) (next : nat) (rec : bool)
    (mr : option bool) (rt : option nat) : Prop :=
  (next <> 0)%nat
  /\ Forall (fun t => (Assistant.timerId t <> 0 /\ Assistant.timerId t < next)%nat) ts
  /\ NoDup (map Assistant.timerId ts)
  /\ (rec = true -> mr = Some true)
  /\ (forall t, In t ts -> Assistant.callback t = Assistant.RecordingTimeout ->
        rec = true /\ rt = Some (Assistant.timerId t)).

Definition recorderConsistent (s : Assistant.State) : Prop :=
  consistentView (Assistant.timers s) (Assistant.nextTimerId s) (Assistant.isRecording s)
    (Assistant.mediaRecorder s) (Assistant.recordingTimer s).

(** The callback is the time-out of a recording. *)
Definition isRecordingTimeout (t : Assistant.Timer) : bool :=
  match Assistant.callback t with
  | Assistant.RecordingTimeout => true
  | _ => false
  end.

(** A suspended [speak] fed the inputs it waits for, one after the other;
    the trace of each run. *)
Fixpoint speakRun (cb : Assistant.Callbacks) (st : Assistant.SpeakStep)
    (inputs : list Assistant.SpeakInput) (s : Assistant.State)
  : Assistant.SpeakStep * Assistant.State * list Trace :=
  match st, inputs with
  | Assistant.Suspended pc, i :: r =>
      let '(st1, s1, tr) := Assistant.speak_resume cb pc i s in
      let '(st2, s2, trs) := speakRun cb st1 r s1 in
      (st2, s2, tr :: trs)
  | _, _ => (st, s, [])
  end.

(** How many effects of a trace satisfy [f]. *)
Definition countEffects (f : Effect -> bool) (tr : Trace) : nat :=
  List.length (filter f tr).

Definition isAudioPlay (e : Effect) : bool :=
  match e with E_audioPlay _ => true | _ => false end.

Definition isFetchTTS (e : Effect) : bool :=
  match e with E_fetchTTS _ => true | _ => false end.

Definition isOnError (e : Effect) : bool :=
  match e with E_onError _ => true | _ => false end.

Definition isSleep (e : Effect) : bool :=
  match e with E_sleep _ => true | _ => false end.




(** The service of the state, when it exists, satisfies [P]. *)
Definition service (P : TTSService.t -> Prop) (s : Assistant.State) : Prop :=
  match Assistant.ttsService s with
  | Some t => P t
  | None => True
  end.

(** [isSpeaking] is set exactly while there is a current element. *)
Definition speakingIffCurrent (t : TTSService.t) : Prop :=
  TTSService.isSpeaking t = true <-> TTSService.currentAudio t <> None.

(** The guards of [speak] let a call with [text] through: the service is
    enabled, the text is not blank, a token is configured, and on a mobile
    browser audio is unlocked. *)
Definition speakable (t : TTSService.t) (text : string) : Prop :=
  TTSService.enabled (TTSService.config t) = true
  /\ JS.truthy (JS.trim text) = true
  /\ JS.truthy (TTSService.apiToken (TTSService.config t)) = true
  /\ (TTSService.mobile t = false \/ TTSService.audioUnlocked t = true).

(** The assistant while a first answer is playing on a desktop browser:
    element 0 is current and sounding. *)
Definition playingService : TTSService.t :=
  fst (TTSService.startAudio
         (TTSService.create (Assistant.ttsOptions (Some "token")) false)).

Definition playingState : Assistant.State :=
  Assistant.set_ttsService (Some playingService)
    (listeningState (Assistant.CONFIG (Some "token"))).

(** What the microphone hears while that answer plays: one loud sample,
    nine quiet ones and one more loud sample, 10 ms apart from time 1000
    on. *)
Definition shortNoise : list (Z * Q) :=
  stamped 1000 ([3 # 10] ++ repeat 0%Q 9 ++ [3 # 10])%list.

(** The voice mode of the chat page in the middle of an utterance that
    began at time 1000: the recorder runs, no timer is pending. *)
Definition utteranceInProgress : VoiceMode.State :=
  {| VoiceMode.isVoiceModeActive := true;
     VoiceMode.analyser := true;
     VoiceMode.continuousStream := true;
     VoiceMode.continuousRecorder := Some true;
     VoiceMode.isProcessingRealtime := false;
     VoiceMode.realtimeAudioChunks := [];
     VoiceMode.voiceActivityDetected := true;
     VoiceMode.voiceStartTime := Some 1000;
     VoiceMode.silenceTimer := None;
     VoiceMode.timers := [];
     VoiceMode.nextTimerId := 2 |}.


(** The chunks [ondataavailable] has collected from the data events of a
    recording. *)
Definition collected (sizes : list Z) : list Z :=
  fold_left (fun chunks size => Coordinator.ondataavailable size chunks) sizes [].
(** ** The rolling buffer *)

Lemma filter_subseq {A : Type} (f : A -> bool) (l : list A) : subseq (filter f l) l.
Proof.
  induction l as [|x l IH]; simpl.
  - constructor.
  - destruct (f x); now constructor.
Qed.





Import Assistant.

(** ** Voice activity detection *)

Lemma gt_true a b : JS.gt a b = true <-> (b < a)%Q.
Proof.
  unfold JS.gt. rewrite negb_true_iff.
  split; intros H.
  - apply Qnot_le_lt. intros H1. apply Qle_bool_iff in H1. congruence.
  - destruct (Qle_bool a b) eqn:E; [|reflexivity].
    apply Qle_bool_iff in E. exfalso. eapply Qlt_not_le; eauto.
Qed.

Lemma gt_false a b : JS.gt a b = false <-> (a <= b)%Q.
Proof.
  unfold JS.gt. rewrite negb_false_iff. apply Qle_bool_iff.
Qed.

(** Case analysis on the tests of a function body. *)
Ltac split_ifs :=
  repeat (simpl;
    match goal with
    | |- context [if ?b then _ else _] => destruct b eqn:?
    | |- context [match ?x with Some _ => _ | None => _ end] => destruct x eqn:?
    end); simpl.

(** Membership in an explicit trace. *)
Ltac in_trace :=
  repeat match goal with
  | H : In _ (_ ++ _) |- _ => apply in_app_or in H; destruct H
  | H : In _ (_ :: _) |- _ => destruct H
  | H : In _ [] |- _ => destruct H
  | H : _ \/ _ |- _ => destruct H
  | H : False |- _ => destruct H
  | H : _ = _ |- _ => discriminate H
  end.

Ltac got E := inversion E; subst; clear E; simpl.

Lemma ttsStop_frame s s' tr :
  ttsStop s = (s', tr) ->
  sameLoop s s' /\ isProcessing s' = isProcessing s
  /\ timers s' = timers s /\ nextTimerId s' = nextTimerId s
  /\ ~ In E_startRecording tr /\ ~ In E_stopRecording tr.
Proof.
  unfold ttsStop, TTSService.stop, sameLoop.
  split_ifs; intros E; got E; repeat split; intros H; in_trace.
Qed.

Lemma executeGlobalInterrupt_frame now s s' tr :
  executeGlobalInterrupt now s = (s', tr) ->
  sameLoop s s' /\ isProcessing s' = false
  /\ timers s' = timers s ++ [MkTimer (nextTimerId s) (now + 100) InterruptReset]
  /\ nextTimerId s' = S (nextTimerId s)
  /\ ~ In E_startRecording tr /\ ~ In E_stopRecording tr.
Proof.
  unfold executeGlobalInterrupt, ttsSpeaking, ttsStop, TTSService.stop, setTimeout, sameLoop.
  split_ifs; simpl; intros E; got E; repeat split; intros H; in_trace.
Qed.

Lemma startRecording_spec cfg now s s' tr :
  startRecording cfg now s = (s', tr) ->
  continuousMonitoring s' = continuousMonitoring s
  /\ isProcessing s' = isProcessing s
  /\ consecutiveVoiceFrames s' = consecutiveVoiceFrames s
  /\ consecutiveSilenceFrames s' = consecutiveSilenceFrames s
  /\ In E_startRecording tr /\ ~ In E_stopRecording tr
  /\ (isRecording s = false -> mediaRecorder s = Some false ->
      isRecording s' = true /\ mediaRecorder s' = Some true
      /\ recordingTimer s' = Some (nextTimerId s)
      /\ timers s' = timers s
           ++ [MkTimer (nextTimerId s) (now + RECORDING_TIMEOUT cfg) RecordingTimeout]
      /\ nextTimerId s' = S (nextTimerId s)).
Proof.
  unfold startRecording, setTimeout.
  split_ifs; intros E; got E; repeat split; auto; try congruence;
    try (intros H; in_trace).
Qed.

Lemma stopRecording_spec s s' tr :
  stopRecording s = (s', tr) ->
  continuousMonitoring s' = continuousMonitoring s
  /\ isProcessing s' = isProcessing s
  /\ consecutiveVoiceFrames s' = consecutiveVoiceFrames s
  /\ consecutiveSilenceFrames s' = consecutiveSilenceFrames s
  /\ isRecording s' = false
  /\ In E_stopRecording tr /\ ~ In E_startRecording tr.
Proof.
  unfold stopRecording, clearTimeout.
  split_ifs; intros E; got E; repeat split; auto; try congruence;
    try (intros H; in_trace).
  all: try (apply negb_true_iff; assumption).
Qed.

Arguments startRecording : simpl never.
Arguments stopRecording : simpl never.
Arguments ttsStop : simpl never.
Arguments executeGlobalInterrupt : simpl never.
Arguments ttsSpeaking : simpl never.

(** Name the outcome of each call in the goal and replace the call by
    what is known of it. *)
Ltac call_specs :=
  repeat match goal with
  | |- context [ttsStop ?x] =>
      let E := fresh "Et" in
      destruct (ttsStop x) as [? ?] eqn:E; apply ttsStop_frame in E; simpl in E
  | |- context [startRecording ?c ?n ?x] =>
      let E := fresh "Es" in
      destruct (startRecording c n x) as [? ?] eqn:E;
      apply startRecording_spec in E; simpl in E
  | |- context [stopRecording ?x] =>
      let E := fresh "Ep" in
      destruct (stopRecording x) as [? ?] eqn:E;
      apply stopRecording_spec in E; simpl in E
  | |- context [executeGlobalInterrupt ?n ?x] =>
      let E := fresh "Eg" in
      destruct (executeGlobalInterrupt n x) as [? ?] eqn:E;
      apply executeGlobalInterrupt_frame in E; simpl in E
  end.

(** Boolean tests as propositions. *)
Ltac bools :=
  repeat match goal with
  | H : _ && _ = true |- _ => apply andb_prop in H; destruct H
  | H : _ && _ = false |- _ => apply andb_false_iff in H; destruct H
  | H : _ || _ = false |- _ => apply orb_false_iff in H; destruct H
  | H : negb _ = true |- _ => apply negb_true_iff in H
  | H : negb _ = false |- _ => apply negb_false_iff in H
  | H : (_ <=? _) = true |- _ => apply Z.leb_le in H
  | H : (_ <=? _) = false |- _ => apply Z.leb_gt in H
  | H : (_ <? _) = true |- _ => apply Z.ltb_lt in H
  | H : (_ <? _) = false |- _ => apply Z.ltb_ge in H
  | H : (_ =? _) = true |- _ => apply Z.eqb_eq in H
  | H : (_ =? _) = false |- _ => apply Z.eqb_neq in H
  end.

Ltac destruct_ands :=
  repeat match goal with
  | H : _ /\ _ |- _ => destruct H
  | H : sameLoop _ _ |- _ => unfold sameLoop in H; simpl in H
  end.

Lemma voiceBranch_spec cfg now s s' tr :
  voiceBranch cfg now s = (s', tr) ->
  continuousMonitoring s' = continuousMonitoring s
  /\ consecutiveVoiceFrames s' = consecutiveVoiceFrames s + 1
  /\ consecutiveSilenceFrames s' = 0
  /\ isProcessing s' = isProcessing s
  /\ ~ In E_stopRecording tr
  /\ (In E_startRecording tr <->
      3 <= consecutiveVoiceFrames s + 1 /\ isRecording s = false /\ isProcessing s = false)
  /\ (~ In E_startRecording tr ->
      isRecording s' = isRecording s /\ mediaRecorder s' = mediaRecorder s
      /\ recordingTimer s' = recordingTimer s /\ timers s' = timers s
      /\ nextTimerId s' = nextTimerId s).
Proof.
  unfold voiceBranch, VOICE_CONFIRM_FRAMES.
  split_ifs; call_specs; intros E; got E; destruct_ands.
  all: bools.
  all: simpl in *; repeat split; intros; destruct_ands; rewrite ?in_app_iff in *;
    try tauto; try lia; try congruence.
Qed.

Lemma truthyTime_false t : JS.truthyTime t = false -> t <> Some 0 -> t = None.
Proof.
  destruct t as [z|]; simpl; [|reflexivity].
  intros H1 H2. apply negb_false_iff, Z.eqb_eq in H1. congruence.
Qed.

Lemma silenceBranch_spec cfg s s' tr :
  silenceBranch cfg s = (s', tr) ->
  continuousMonitoring s' = continuousMonitoring s
  /\ consecutiveVoiceFrames s' = 0
  /\ isProcessing s' = isProcessing s
  /\ ~ In E_startRecording tr
  /\ (isRecording s = false ->
      isRecording s' = false /\ ~ In E_stopRecording tr
      /\ consecutiveSilenceFrames s' = consecutiveSilenceFrames s + 1
      /\ JS.truthyTime (voiceStartTime s') = false
      /\ (voiceStartTime s <> Some 0 -> voiceStartTime s' = None))
  /\ (isRecording s = true ->
      if silenceConfirmed cfg (consecutiveSilenceFrames s + 1)
      then In E_stopRecording tr /\ isRecording s' = false
           /\ consecutiveSilenceFrames s' = 0
      else ~ In E_stopRecording tr /\ isRecording s' = true
           /\ consecutiveSilenceFrames s' = consecutiveSilenceFrames s + 1
           /\ mediaRecorder s' = mediaRecorder s
           /\ recordingTimer s' = recordingTimer s /\ timers s' = timers s
           /\ nextTimerId s' = nextTimerId s).
Proof.
  unfold silenceBranch.
  split_ifs; call_specs; intros E; got E; destruct_ands; bools.
  all: simpl in *; repeat split; intros; destruct_ands; rewrite ?in_app_iff in *;
    try tauto; try lia; try congruence;
    try (apply truthyTime_false; assumption).
Qed.

Arguments voiceBranch : simpl never.
Arguments silenceBranch : simpl never.

Ltac branch_specs :=
  repeat match goal with
  | |- context [executeGlobalInterrupt ?n ?x] =>
      let E := fresh "Eg" in
      destruct (executeGlobalInterrupt n x) as [? ?] eqn:E;
      apply executeGlobalInterrupt_frame in E; simpl in E
  | |- context [voiceBranch ?c ?n ?x] =>
      let E := fresh "Ev" in
      destruct (voiceBranch c n x) as [? ?] eqn:E;
      apply voiceBranch_spec in E; simpl in E
  | |- context [silenceBranch ?c ?x] =>
      let E := fresh "Eq" in
      destruct (silenceBranch c x) as [? ?] eqn:E;
      apply silenceBranch_spec in E; simpl in E
  end.

(** Close a goal about the fields after a call from what the calls
    guarantee. *)
Ltac timers_goal :=
  repeat match goal with
  | H : timers _ = _ |- _ => rewrite H
  end;
  first [ exists []; rewrite app_nil_r; reflexivity
        | eexists; reflexivity ].

(** Replace each field of an intermediate state by what it equals. *)
Ltac norm :=
  repeat match goal with
  | H : ?f ?a = ?f ?b |- _ => is_var a; is_var b; rewrite H in *; clear H
  | H : ?f ?a = true |- _ => is_var a; rewrite H in *; clear H
  | H : ?f ?a = false |- _ => is_var a; rewrite H in *; clear H
  end.

Ltac finish :=
  simpl in *; repeat split; intros; destruct_ands; rewrite ?in_app_iff in *;
  try tauto; try lia; try congruence;
  try solve [intuition (try lia; try congruence; try timers_goal)];
  try solve [norm; intuition (try lia; try congruence; try timers_goal)].

(** One detection tick on a loud sample. *)
Lemma tick_loud cfg now v s s' tr :
  continuousMonitoring s = true -> loud cfg v ->
  checkVoiceLevel cfg now v s = (s', tr) ->
  continuousMonitoring s' = true
  /\ consecutiveVoiceFrames s' = consecutiveVoiceFrames s + 1
  /\ consecutiveSilenceFrames s' = 0
  /\ (isProcessing s = false -> isProcessing s' = false)
  /\ ~ In E_stopRecording tr
  /\ (isProcessing s = false ->
      (In E_startRecording tr <->
       3 <= consecutiveVoiceFrames s + 1 /\ isRecording s = false))
  /\ (In E_startRecording tr -> isRecording s = false)
  /\ (~ In E_startRecording tr ->
      isRecording s' = isRecording s /\ mediaRecorder s' = mediaRecorder s
      /\ recordingTimer s' = recordingTimer s
      /\ exists extra, timers s' = timers s ++ extra).
Proof.
  intros Hcm Hv. apply gt_true in Hv.
  unfold checkVoiceLevel. rewrite Hcm, Hv. simpl.
  split_ifs; branch_specs; intros E; got E; destruct_ands; bools.
  all: finish.
Qed.

(** One detection tick on a sample at or below the threshold. *)
Lemma tick_quiet cfg now v s s' tr :
  continuousMonitoring s = true -> quiet cfg v ->
  checkVoiceLevel cfg now v s = (s', tr) ->
  continuousMonitoring s' = true
  /\ consecutiveVoiceFrames s' = 0
  /\ (isProcessing s = false -> isProcessing s' = false)
  /\ ~ In E_startRecording tr
  /\ (isRecording s = false ->
      isRecording s' = false /\ ~ In E_stopRecording tr
      /\ consecutiveSilenceFrames s' = consecutiveSilenceFrames s + 1
      /\ JS.truthyTime (voiceStartTime s') = false
      /\ (voiceStartTime s <> Some 0 -> voiceStartTime s' = None))
  /\ (isRecording s = true ->
      if silenceConfirmed cfg (consecutiveSilenceFrames s + 1)
      then In E_stopRecording tr /\ isRecording s' = false
           /\ consecutiveSilenceFrames s' = 0
      else ~ In E_stopRecording tr /\ isRecording s' = true
           /\ consecutiveSilenceFrames s' = consecutiveSilenceFrames s + 1
           /\ mediaRecorder s' = mediaRecorder s
           /\ recordingTimer s' = recordingTimer s
           /\ exists extra, timers s' = timers s ++ extra).
Proof.
  intros Hcm Hv. apply gt_false in Hv.
  unfold checkVoiceLevel. rewrite Hcm, Hv. simpl.
  split_ifs; branch_specs; intros E; got E; destruct_ands; bools.
  all: simpl in *; repeat split; intros; destruct_ands; rewrite ?in_app_iff in *;
    try tauto; try lia; try congruence.
  all: try solve [norm; intuition (try lia; try congruence)].
  all: norm;
    match goal with
    | H : true = true -> _ |- _ => specialize (H eq_refl)
    end;
    destruct (silenceConfirmed cfg (consecutiveSilenceFrames s + 1));
    destruct_ands; repeat split; rewrite ?in_app_iff; try tauto; try congruence;
    try timers_goal.
Qed.

(** *** From the run of the loop to a scan of the samples *)

Lemma emits_cons P tr trs :
  emits P (tr :: trs) <-> (exists e, In e tr /\ P e) \/ emits P trs.
Proof.
  unfold emits. split.
  - intros (tr0 & e & [H|H] & He & HP); subst; eauto 6.
  - intros [(e & He & HP)|(tr0 & e & H & He & HP)]; [exists tr, e|exists tr0, e];
      simpl; auto.
Qed.

Lemma emits_nil P : ~ emits P [].
Proof. intros (tr & e & [] & _). Qed.

Lemma run_cons cfg e es s :
  run cfg (e :: es) s =
  (fst (run cfg es (fst (step cfg e s))),
   snd (step cfg e s) :: snd (run cfg es (fst (step cfg e s)))).
Proof.
  simpl. destruct (step cfg e s) as [s1 tr]. simpl.
  destruct (run cfg es s1); reflexivity.
Qed.

Lemma loud_or_quiet cfg v : {loud cfg v} + {quiet cfg v}.
Proof.
  unfold loud, quiet. destruct (Qlt_le_dec (VOICE_DETECTION_THRESHOLD cfg) v); auto.
Qed.

(** While nothing is being recorded or processed, the loop calls
    [startRecording] exactly when the scan reaches three. *)
Lemma run_confirms cfg samples :
  forall s,
    continuousMonitoring s = true -> isRecording s = false -> isProcessing s = false ->
    (emits (eq E_startRecording) (snd (run cfg (ticks samples) s)) <->
     confirms cfg (consecutiveVoiceFrames s) samples = true).
Proof.
  induction samples as [|[now v] r IH]; intros s Hcm Hr Hp.
  - simpl. split; [intros H; elim (@emits_nil _ H)|discriminate].
  - unfold ticks. simpl map. rewrite run_cons. simpl snd at 1.
    rewrite emits_cons. simpl step. simpl confirms.
    destruct (checkVoiceLevel cfg now v s) as [s1 tr] eqn:E. simpl fst. simpl snd.
    destruct (loud_or_quiet cfg v) as [Hv|Hv].
    + pose proof (proj2 (@gt_true _ _) Hv) as Hg. rewrite Hg.
      destruct (@tick_loud _ _ _ _ _ _ Hcm Hv E) as (C1 & C2 & _ & C4 & _ & C6 & _ & C7).
      specialize (C4 Hp). specialize (C6 Hp).
      destruct (3 <=? consecutiveVoiceFrames s + 1) eqn:E3.
      * apply Z.leb_le in E3. simpl. split; [reflexivity|]. intros _. left.
        exists E_startRecording. split; [apply C6; auto|reflexivity].
      * apply Z.leb_gt in E3. simpl.
        assert (Hno : ~ In E_startRecording tr) by (rewrite C6; lia).
        destruct (C7 Hno) as (R1 & _).
        rewrite <- C2. rewrite <- (IH s1 C1); [|congruence|assumption].
        fold (ticks r). split; [|tauto].
        intros [(e & He & <-)|H]; [contradiction|assumption].
    + pose proof (proj2 (@gt_false _ _) Hv) as Hg. rewrite Hg.
      destruct (@tick_quiet _ _ _ _ _ _ Hcm Hv E) as (C1 & C2 & C3 & C4 & C5 & _).
      destruct (C5 Hr) as (R1 & _).
      rewrite <- C2. rewrite <- (IH s1 C1 R1 (C3 Hp)).
      fold (ticks r). split; [|tauto].
      intros [(e & He & <-)|H]; [contradiction|assumption].
Qed.

(** *** From the scan to the three consecutive samples *)

Lemma threeLoud_skip cfg x r : threeLoud cfg r -> threeLoud cfg (x :: r).
Proof.
  intros (pre & a & b & c & post & -> & H).
  exists (x :: pre), a, b, c, post. split; [reflexivity|assumption].
Qed.

Lemma loudFront_three cfg l : loudFront cfg 0 l -> threeLoud cfg l.
Proof.
  intros (rn & post & -> & _ & Hall & Hlen).
  destruct rn as [|a [|b [|c rest]]]; simpl in Hlen; try lia.
  inversion Hall as [|? ? Ha Hall1]; subst.
  inversion Hall1 as [|? ? Hb Hall2]; subst.
  inversion Hall2 as [|? ? Hc _]; subst.
  exists [], a, b, c, (rest ++ post). simpl. auto.
Qed.

Ltac front :=
  repeat split; simpl; try discriminate; try lia; auto;
  try (repeat constructor; assumption).

Ltac loud_quiet :=
  unfold loud, quiet in *;
  match goal with
  | H1 : (?t < ?v)%Q, H2 : (?v <= ?t)%Q |- _ => exact (Qlt_not_le _ _ H1 H2)
  end.

Lemma confirms_spec cfg l :
  forall k, 0 <= k ->
    (confirms cfg k l = true <-> loudFront cfg k l \/ threeLoud cfg l).
Proof.
  induction l as [|x r IH]; intros k Hk.
  - simpl. split; [discriminate|].
    intros [(rn & post & H & Hne & _)|(pre & a & b & c & post & H & _)].
    + destruct rn; [congruence|discriminate].
    + destruct pre; discriminate.
  - simpl. destruct (loud_or_quiet cfg (snd x)) as [Hv|Hv].
    + rewrite (proj2 (@gt_true _ _) Hv). rewrite orb_true_iff, Z.leb_le.
      rewrite (IH (k + 1)) by lia. split.
      * intros [H|[(rn & post & -> & Hne & Hall & Hlen)|H]].
        -- left. exists [x], r. front.
        -- left. exists (x :: rn), post. front.
        -- right. now apply threeLoud_skip.
      * intros [(rn & post & H & Hne & Hall & Hlen)|(pre & a & b & c & post & H & Ha & Hb & Hc)].
        -- destruct rn as [|y rn]; [congruence|]. simpl in H. inversion H; subst.
           inversion Hall; subst. simpl in Hlen.
           destruct rn as [|z rn]; [left; simpl in Hlen; lia|].
           right. left. exists (z :: rn), post. simpl List.length in *. front.
        -- destruct pre as [|y pre]; simpl in H; inversion H; subst.
           ++ right. left. exists [b; c], post. front.
           ++ right. right. exists pre, a, b, c, post. auto.
    + rewrite (proj2 (@gt_false _ _) Hv). rewrite (IH 0) by lia. split.
      * intros [H|H]; right; apply threeLoud_skip; [now apply loudFront_three|assumption].
      * intros [(rn & post & H & Hne & Hall & Hlen)|(pre & a & b & c & post & H & Ha & Hb & Hc)].
        -- destruct rn as [|y rn]; [congruence|]. simpl in H. inversion H; subst.
           inversion Hall; subst. exfalso. loud_quiet.
        -- destruct pre as [|y pre]; simpl in H; inversion H; subst.
           ++ exfalso. loud_quiet.
           ++ right. exists pre, a, b, c, post. auto.
Qed.

(** *** What calls [startRecording] *)

(** One detection tick calls [startRecording] exactly when the assistant
    monitors, the sample is loud and at least the third loud one in a
    row, nothing is being recorded, and the assistant is not processing
    or the tick itself executes a latched interrupt first. *)
Lemma tick_starts_iff cfg now v s :
  In E_startRecording (snd (checkVoiceLevel cfg now v s))
  <-> continuousMonitoring s = true /\ loud cfg v
      /\ 2 <= consecutiveVoiceFrames s /\ isRecording s = false
      /\ (isProcessing s = false \/ shouldInterrupt s = true).
Proof.
  unfold checkVoiceLevel, loud. rewrite <- gt_true.
  destruct (continuousMonitoring s) eqn:Ecm; simpl; [|intuition congruence].
  destruct (shouldInterrupt s && (isProcessing s || ttsSpeaking s)) eqn:Ei;
    destruct (JS.gt v (VOICE_DETECTION_THRESHOLD cfg)) eqn:Ev;
    branch_specs; simpl; destruct_ands; bools; rewrite ?in_app_iff.
  all: repeat match goal with
         | H : In E_startRecording _ <-> _ |- _ => rewrite H; clear H
         | H : isProcessing ?a = _ |- _ => is_var a; rewrite H in *; clear H
         | H : isRecording ?a = isRecording _ |- _ => is_var a; rewrite H in *; clear H
         | H : consecutiveVoiceFrames ?a = _ |- _ => is_var a; rewrite H in *; clear H
         | H : shouldInterrupt ?a = _ |- _ => is_var a; rewrite H in *; clear H
         end.
  all: try solve [intuition (try lia; try congruence)].
Qed.

(** A timer calls [startRecording] exactly when it is the pending, due
    timer of an interrupt, the last sample measured was loud and nothing
    is being recorded. *)
Lemma timer_starts_iff cfg now id s :
  In E_startRecording (snd (fireTimer cfg now id s))
  <-> exists t, find (fun t => (timerId t =? id)%nat) (timers s) = Some t
        /\ deadline t <= now /\ callback t = InterruptReset
        /\ loud cfg (lastVolume s) /\ isRecording s = false.
Proof.
  unfold fireTimer, loud.
  destruct (find _ (timers s)) as [t|] eqn:Ef; simpl;
    [|split; [intros []|intros (t & H & _); discriminate]].
  destruct (deadline t <=? now) eqn:Ed; simpl; bools.
  2:{ split; [intros []|intros (t' & H & H1 & _)]. inversion H; subst. lia. }
  unfold runCallback, clearTimeout.
  destruct (callback t) eqn:Ec; simpl.
  - split.
    + destruct (isRecording s); [|intros []].
      call_specs. destruct_ands. simpl. tauto.
    + intros (t' & H & _ & H1 & _). inversion H; subst. congruence.
  - destruct (JS.gt (lastVolume s) (VOICE_DETECTION_THRESHOLD cfg)) eqn:Ev; simpl.
    + destruct (isRecording s) eqn:Er; simpl.
      * split; [intros []|intros (t' & _ & _ & _ & _ & H); discriminate].
      * call_specs. destruct_ands. simpl. split; [|tauto].
        intros _. exists t. repeat split; auto. now apply gt_true.
    + split; [intros []|intros (t' & _ & _ & _ & H & _)].
      apply gt_true in H. congruence.
  - split.
    + destruct (isListening s); simpl; intros H; in_trace.
    + intros (t' & H & _ & H1 & _). inversion H; subst. congruence.
  - split.
    + destruct (negb (isInterrupted s) && negb (shouldInterrupt s)); simpl; intros H; in_trace.
    + intros (t' & H & _ & H1 & _). inversion H; subst. congruence.
Qed.

(** C2, as the code has it.  Over a run of detection ticks between which
    no timer runs, from a state that monitors and neither records nor
    processes, with a voice count of zero, [startRecording] is called if
    and only if three consecutive samples are above the threshold; and,
    before a recording has started, a tick on a sample at or below the
    threshold sets the voice-frame count to zero and leaves
    [voiceStartTime] unset ([null], unless it already held the falsy
    time stamp 0).  In any state, a tick calls [startRecording] exactly
    when the assistant monitors, the sample is loud and at least the
    third loud one in a row, nothing is being recorded, and the assistant
    is not processing or the tick executes a latched interrupt.  The
    detection loop is not the only caller: the timer that
    [executeGlobalInterrupt] arms calls [startRecording] exactly when it
    is due, the last sample measured was loud and nothing is being
    recorded, whatever the voice count. *)
Theorem C2_utterance_start_iff_three_loud :
  forall (cfg : Config) (samples : list (Z * Q)) (s : State),
    continuousMonitoring s = true ->
    isRecording s = false ->
    isProcessing s = false ->
    consecutiveVoiceFrames s = 0 ->
    (emits (eq E_startRecording) (snd (run cfg (ticks samples) s))
     <-> threeLoud cfg samples)
    /\ (forall (t : State) (now : Z) (v : Q),
          continuousMonitoring t = true -> isRecording t = false -> quiet cfg v ->
          let t' := fst (checkVoiceLevel cfg now v t) in
          consecutiveVoiceFrames t' = 0
          /\ JS.truthyTime (voiceStartTime t') = false
          /\ (voiceStartTime t <> Some 0 -> voiceStartTime t' = None))
    /\ (forall (t : State) (now : Z) (v : Q),
          In E_startRecording (snd (checkVoiceLevel cfg now v t))
          <-> continuousMonitoring t = true /\ loud cfg v
              /\ 2 <= consecutiveVoiceFrames t /\ isRecording t = false
              /\ (isProcessing t = false \/ shouldInterrupt t = true))
    /\ (forall (t : State) (now : Z) (id : nat),
          In E_startRecording (snd (fireTimer cfg now id t))
          <-> exists x, find (fun y => (timerId y =? id)%nat) (timers t) = Some x
                /\ deadline x <= now /\ callback x = InterruptReset
                /\ loud cfg (lastVolume t) /\ isRecording t = false).
Proof.
  intros cfg samples s Hcm Hr Hp Hk. split; [|split; [|split]].
  - rewrite (@run_confirms cfg samples s Hcm Hr Hp), Hk.
    rewrite confirms_spec by lia. split; [|tauto].
    intros [H|H]; [now apply loudFront_three|assumption].
  - intros t now v Tcm Tr Hv.
    destruct (checkVoiceLevel cfg now v t) as [t' tr] eqn:E. simpl.
    destruct (@tick_quiet _ _ _ _ _ _ Tcm Hv E) as (_ & C2 & _ & _ & C5 & _).
    destruct (C5 Tr) as (_ & _ & _ & R4 & R5). auto.
  - intros t now v. apply tick_starts_iff.
  - intros t now id. apply timer_starts_iff.
Qed.

(** C2 at the samples of the end-to-end scenario. *)
Lemma C2_scenario_witness :
  (continuousMonitoring (listeningState scenarioConfig) = true
   /\ isRecording (listeningState scenarioConfig) = false
   /\ isProcessing (listeningState scenarioConfig) = false
   /\ consecutiveVoiceFrames (listeningState scenarioConfig) = 0)
  /\ (emits (eq E_startRecording)
        (snd (run scenarioConfig (ticks scenarioSamples) (listeningState scenarioConfig)))
      <-> threeLoud scenarioConfig scenarioSamples).
Proof.
  split; [repeat split|].
  exact (proj1 (@C2_utterance_start_iff_three_loud scenarioConfig scenarioSamples
                  (listeningState scenarioConfig) eq_refl eq_refl eq_refl eq_refl)).
Defined.

(** C2 as stated fails.  An answer is playing; the microphone hears one
    loud sample, nine quiet ones and one more loud sample.  The first
    tick latches the interrupt, the second executes it and arms its
    timer for 100 ms later; when the timer runs, just after the last
    sample, it calls [startRecording], although no three consecutive
    samples were loud and the detection ticks alone call nothing. *)
Lemma C2_one_loud_sample_after_interrupt :
  (continuousMonitoring playingState = true
   /\ isRecording playingState = false
   /\ isProcessing playingState = false
   /\ consecutiveVoiceFrames playingState = 0)
  /\ ~ threeLoud (CONFIG_guarded (Some "token")) shortNoise
  /\ ~ emits (eq E_startRecording) (snd (run (CONFIG_guarded (Some "token")) (ticks shortNoise) playingState))
  /\ emits (eq E_startRecording)
       (snd (run (CONFIG_guarded (Some "token")) (ticks shortNoise ++ [Fire 1110 (nextTimerId playingState)])
               playingState)).
Proof.
  assert (Hc : confirms (CONFIG_guarded (Some "token")) 0 shortNoise = false) by reflexivity.
  assert (H3 : ~ threeLoud (CONFIG_guarded (Some "token")) shortNoise).
  { intros H.
    assert (Ht : confirms (CONFIG_guarded (Some "token")) 0 shortNoise = true)
      by (apply confirms_spec; [lia|right; exact H]).
    congruence. }
  split; [repeat split|]. split; [exact H3|]. split.
  - rewrite (@run_confirms (CONFIG_guarded (Some "token")) shortNoise playingState eq_refl eq_refl eq_refl).
    change (consecutiveVoiceFrames playingState) with 0. rewrite Hc. discriminate.
  - unfold emits.
    exists (snd (fireTimer (CONFIG_guarded (Some "token")) 1110 (nextTimerId playingState)
                   (fst (run (CONFIG_guarded (Some "token")) (ticks shortNoise) playingState)))), E_startRecording.
    split; [|split; [|reflexivity]].
    + vm_compute. do 11 right. left. reflexivity.
    + vm_compute. left. reflexivity.
Qed.

(** *** The end of an utterance *)

Lemma silenceConfirmed_spec cfg c :
  VOICE_DETECTION_INTERVAL cfg <> 0 ->
  silenceConfirmed cfg c = (SILENCE_CONFIRM_FRAMES cfg <=? c).
Proof.
  intros H. unfold silenceConfirmed.
  destruct (VOICE_DETECTION_INTERVAL cfg =? 0) eqn:E; [|reflexivity].
  apply Z.eqb_eq in E. contradiction.
Qed.

(** [ceilDiv a b] is the least integer [n] with [a <= n * b]. *)
Lemma ceilDiv_spec a b :
  0 < b -> (ceilDiv a b - 1) * b < a <= ceilDiv a b * b.
Proof.
  intros Hb. unfold ceilDiv.
  pose proof (Z.mul_div_le (- a) b Hb).
  pose proof (Z.mul_succ_div_gt (- a) b Hb).
  nia.
Qed.

(** Silent ticks during a recording, as long as the count stays below
    the number of frames that confirms silence: nothing stops. *)
Lemma run_quiet_below cfg samples :
  forall s,
    continuousMonitoring s = true -> isRecording s = true ->
    VOICE_DETECTION_INTERVAL cfg <> 0 ->
    Forall (fun x => quiet cfg (snd x)) samples ->
    consecutiveSilenceFrames s + Z.of_nat (List.length samples)
      < SILENCE_CONFIRM_FRAMES cfg ->
    ~ emits (eq E_stopRecording) (snd (run cfg (ticks samples) s))
    /\ continuousMonitoring (fst (run cfg (ticks samples) s)) = true
    /\ isRecording (fst (run cfg (ticks samples) s)) = true
    /\ consecutiveSilenceFrames (fst (run cfg (ticks samples) s))
       = consecutiveSilenceFrames s + Z.of_nat (List.length samples).
Proof.
  induction samples as [|[now v] r IH]; intros s Hcm Hr Hi Hall Hlen.
  - simpl. repeat split; auto; [apply emits_nil|lia].
  - inversion Hall as [|? ? Hv Hall']; subst. simpl in Hv.
    unfold ticks. simpl map. rewrite run_cons. simpl step. fold (ticks r).
    destruct (checkVoiceLevel cfg now v s) as [s1 tr] eqn:E. simpl fst. simpl snd.
    destruct (@tick_quiet _ _ _ _ _ _ Hcm Hv E) as (C1 & _ & _ & _ & _ & C6).
    specialize (C6 Hr). rewrite silenceConfirmed_spec in C6 by assumption.
    simpl List.length in Hlen. rewrite Nat2Z.inj_succ in Hlen.
    destruct (SILENCE_CONFIRM_FRAMES cfg <=? consecutiveSilenceFrames s + 1) eqn:E1;
      [apply Z.leb_le in E1; lia|].
    destruct C6 as (R1 & R2 & R3 & _).
    destruct (IH s1 C1 R2 Hi Hall') as (I1 & I2 & I3 & I4); [lia|].
    rewrite emits_cons. repeat split; auto.
    + intros [(e & He & <-)|H]; [contradiction|auto].
    + rewrite I4, R3. simpl List.length. lia.
Qed.

(** C5, as the code has it.  During a recording, silent ticks that keep
    the silence count below [SILENCE_CONFIRM_FRAMES] stop nothing; the
    silent tick at which the count reaches [SILENCE_CONFIRM_FRAMES]
    calls [stopRecording] and ends the recording; a loud tick sets the
    count back to zero.  [SILENCE_CONFIRM_FRAMES] is
    [ceil(QUESTION_DELAY / VOICE_DETECTION_INTERVAL)]: 1000 ticks of 1 ms
    in [static/script.js], 200 ticks of 10 ms in the other copy. *)
Theorem C5_utterance_end_at_confirm_tick :
  forall (cfg : Config) (samples : list (Z * Q)) (now : Z) (v : Q) (s : State),
    continuousMonitoring s = true ->
    isRecording s = true ->
    0 < VOICE_DETECTION_INTERVAL cfg ->
    Forall (fun x => quiet cfg (snd x)) samples ->
    quiet cfg v ->
    consecutiveSilenceFrames s + Z.of_nat (List.length samples) + 1
      = SILENCE_CONFIRM_FRAMES cfg ->
    let before := run cfg (ticks samples) s in
    let last := checkVoiceLevel cfg now v (fst before) in
    (~ emits (eq E_stopRecording) (snd before)
     /\ isRecording (fst before) = true)
    /\ (In E_stopRecording (snd last) /\ isRecording (fst last) = false)
    /\ (forall (t : State) (now' : Z) (v' : Q),
          continuousMonitoring t = true -> loud cfg v' ->
          consecutiveSilenceFrames (fst (checkVoiceLevel cfg now' v' t)) = 0
          /\ ~ In E_stopRecording (snd (checkVoiceLevel cfg now' v' t)))
    /\ ((SILENCE_CONFIRM_FRAMES cfg - 1) * VOICE_DETECTION_INTERVAL cfg
          < QUESTION_DELAY cfg
          <= SILENCE_CONFIRM_FRAMES cfg * VOICE_DETECTION_INTERVAL cfg)
    /\ (forall tok,
          SILENCE_CONFIRM_FRAMES (CONFIG tok) = 1000
          /\ VOICE_DETECTION_INTERVAL (CONFIG tok) = 1
          /\ SILENCE_CONFIRM_FRAMES (CONFIG_guarded tok) = 200
          /\ VOICE_DETECTION_INTERVAL (CONFIG_guarded tok) = 10).
Proof.
  intros cfg samples now v s Hcm Hr Hi Hall Hv Hlen before last.
  assert (Hi' : VOICE_DETECTION_INTERVAL cfg <> 0) by lia.
  destruct (@run_quiet_below cfg samples s Hcm Hr Hi' Hall) as (B1 & B2 & B3 & B4);
    [lia|].
  split; [split; assumption|].
  split.
  - subst last. fold before in B1, B2, B3, B4.
    destruct (checkVoiceLevel cfg now v (fst before)) as [s1 tr] eqn:E. simpl.
    destruct (@tick_quiet _ _ _ _ _ _ B2 Hv E) as (_ & _ & _ & _ & _ & C6).
    specialize (C6 B3). rewrite silenceConfirmed_spec in C6 by assumption.
    destruct (SILENCE_CONFIRM_FRAMES cfg <=? consecutiveSilenceFrames (fst before) + 1)
      eqn:E1; [tauto|].
    apply Z.leb_gt in E1. lia.
  - split.
    + intros t now' v' Tcm Hv'.
      destruct (checkVoiceLevel cfg now' v' t) as [t' tr] eqn:E. simpl.
      destruct (@tick_loud _ _ _ _ _ _ Tcm Hv' E) as (_ & _ & C3 & _ & C5 & _). auto.
    + split; [apply ceilDiv_spec; assumption|].
      intros tok. repeat split.
Qed.

(** C5 at a recording one silent tick away from confirmation. *)
Lemma C5_scenario_witness :
  let s := set_consecutiveSilenceFrames 8
             (set_isRecording true (listeningState scenarioConfig)) in
  (continuousMonitoring s = true /\ isRecording s = true
   /\ 0 < VOICE_DETECTION_INTERVAL scenarioConfig
   /\ Forall (fun x => quiet scenarioConfig (snd x)) [(1000, 0%Q)]
   /\ quiet scenarioConfig 0
   /\ consecutiveSilenceFrames s + Z.of_nat (List.length [(1000, 0%Q)]) + 1
      = SILENCE_CONFIRM_FRAMES scenarioConfig)
  /\ In E_stopRecording
       (snd (checkVoiceLevel scenarioConfig 1010 0
               (fst (run scenarioConfig (ticks [(1000, 0%Q)]) s)))).
Proof.
  assert (Hq : quiet scenarioConfig 0) by (unfold quiet; simpl; discriminate).
  assert (Hall : Forall (fun x => quiet scenarioConfig (snd x)) [(1000, 0%Q)])
    by (repeat constructor; exact Hq).
  split; [repeat split; auto|].
  exact (proj1 (proj1 (proj2 (@C5_utterance_end_at_confirm_tick
           scenarioConfig [(1000, 0%Q)] 1010 0
           (set_consecutiveSilenceFrames 8
              (set_isRecording true (listeningState scenarioConfig)))
           eq_refl eq_refl eq_refl Hall Hq eq_refl)))).
Defined.

(** C5 as stated fails on its default: with the configuration of
    [static/script.js] silence is confirmed after 1000 ticks of 1 ms,
    which is 1000 ms and not 2000 ms.  A recording that hears nothing
    from time 1 on is stopped by the tick at time 1000 and by no tick
    before. *)
Lemma C5_default_is_1000ms :
  SILENCE_CONFIRM_FRAMES (CONFIG None) * VOICE_DETECTION_INTERVAL (CONFIG None) = 1000
  /\ SILENCE_CONFIRM_FRAMES (CONFIG None) * VOICE_DETECTION_INTERVAL (CONFIG None) <> 2000
  /\ map (existsb isStop)
         (snd (run (CONFIG None) (ticks (silentMillis 1 1000))
                 (set_isRecording true
                    (set_mediaRecorder (Some true) (listeningState (CONFIG None))))))
     = repeat false 999 ++ [true].
Proof.
  split; [reflexivity|]. split; [discriminate|]. vm_compute. reflexivity.
Qed.

(** *** The recording timer *)

Lemma find_app {A : Type} (f : A -> bool) (l1 l2 : list A) x :
  find f l1 = Some x -> find f (l1 ++ l2) = Some x.
Proof.
  induction l1 as [|a l1 IH]; simpl; [discriminate|].
  destruct (f a); auto.
Qed.

Lemma find_fresh (l : list Timer) id d cb :
  Forall (fun t => (timerId t < id)%nat) l ->
  find (fun t => (timerId t =? id)%nat) (l ++ [MkTimer id d cb])
  = Some (MkTimer id d cb).
Proof.
  induction 1 as [|a l Ha _ IH]; simpl.
  - rewrite Nat.eqb_refl. reflexivity.
  - destruct (timerId a =? id)%nat eqn:E; [apply Nat.eqb_eq in E; lia|assumption].
Qed.

(** Loud ticks during a recording stop nothing and leave the pending
    timers in place. *)
Lemma run_loud_recording cfg samples :
  forall s,
    continuousMonitoring s = true -> isRecording s = true ->
    Forall (fun x => loud cfg (snd x)) samples ->
    ~ emits (eq E_stopRecording) (snd (run cfg (ticks samples) s))
    /\ continuousMonitoring (fst (run cfg (ticks samples) s)) = true
    /\ isRecording (fst (run cfg (ticks samples) s)) = true
    /\ exists extra, timers (fst (run cfg (ticks samples) s)) = timers s ++ extra.
Proof.
  induction samples as [|[now v] r IH]; intros s Hcm Hr Hall.
  - simpl. repeat split; auto; [apply emits_nil|].
    exists []. now rewrite app_nil_r.
  - inversion Hall as [|? ? Hv Hall']; subst. simpl in Hv.
    unfold ticks. simpl map. rewrite run_cons. simpl step. fold (ticks r).
    destruct (checkVoiceLevel cfg now v s) as [s1 tr] eqn:E. simpl fst. simpl snd.
    destruct (@tick_loud _ _ _ _ _ _ Hcm Hv E) as (C1 & _ & _ & _ & C5 & _ & C7 & C8).
    assert (Hno : ~ In E_startRecording tr) by (intros H; apply C7 in H; congruence).
    destruct (C8 Hno) as (R1 & _ & _ & (ex1 & R4)).
    destruct (IH s1 C1) as (I1 & I2 & I3 & (ex2 & I4)); [congruence|assumption|].
    rewrite emits_cons. repeat split; auto.
    + intros [(e & He & <-)|H]; [contradiction|auto].
    + exists (ex1 ++ ex2). rewrite I4, R4, app_assoc. reflexivity.
Qed.

(** *** The voice mode of the chat page *)

(** The last test of a frame, when it holds: the recorder is stopped if
    it records and the utterance is over, whatever the energy of the
    frame and whether or not the silence timer is pending. *)
Lemma frame_too_long now average s t0 :
  VoiceMode.isVoiceModeActive s = true ->
  VoiceMode.analyser s = true ->
  VoiceMode.voiceActivityDetected s = true ->
  VoiceMode.voiceStartTime s = Some t0 ->
  t0 <> 0 ->
  VoiceMode.maxSpeechDuration < now - t0 ->
  VoiceMode.voiceActivityDetected (fst (VoiceMode.detectVoiceActivity now average s)) = false
  /\ VoiceMode.voiceStartTime (fst (VoiceMode.detectVoiceActivity now average s)) = None
  /\ (VoiceMode.continuousRecorder s = Some true ->
      In VoiceMode.RecorderStop (snd (VoiceMode.detectVoiceActivity now average s))
      /\ VoiceMode.continuousRecorder (fst (VoiceMode.detectVoiceActivity now average s))
         = Some false).
Proof.
  intros Ha Hn Hv Ht H0 Hlong.
  assert (E0 : (t0 =? 0) = false) by (apply Z.eqb_neq; exact H0).
  assert (E1 : (VoiceMode.maxSpeechDuration <? now - t0) = true)
    by (apply Z.ltb_lt; exact Hlong).
  unfold VoiceMode.detectVoiceActivity, VoiceMode.voiceBranch, VoiceMode.silenceBranch,
    VoiceMode.tooLong, VoiceMode.stopIfRecording, VoiceMode.endOfSpeech,
    VoiceMode.setTimeout, VoiceMode.clearTimeout.
  rewrite Ha, Hn, Hv. simpl.
  destruct (JS.gt average VoiceMode.energyThreshold); simpl;
    destruct (VoiceMode.truthyTimer (VoiceMode.silenceTimer s)) eqn:Et; simpl;
    try (destruct (VoiceMode.silenceTimer s) as [id|] eqn:Es; simpl);
    rewrite ?Hv, ?Ht, ?E0, ?E1; simpl;
    destruct (VoiceMode.continuousRecorder s) as [[|]|] eqn:Er; simpl;
    repeat split; try reflexivity; try discriminate; intros; try discriminate; auto.
Qed.

(** A loud frame within the limit, during an utterance: the utterance
    goes on and the recorder is left alone. *)
Lemma frame_loud_within now average s t0 :
  VoiceMode.voiceActivityDetected s = true ->
  VoiceMode.voiceStartTime s = Some t0 ->
  (VoiceMode.energyThreshold < average)%Q ->
  now - t0 <= VoiceMode.maxSpeechDuration ->
  VoiceMode.voiceActivityDetected (fst (VoiceMode.detectVoiceActivity now average s)) = true
  /\ VoiceMode.voiceStartTime (fst (VoiceMode.detectVoiceActivity now average s)) = Some t0
  /\ VoiceMode.continuousRecorder (fst (VoiceMode.detectVoiceActivity now average s))
     = VoiceMode.continuousRecorder s
  /\ ~ In VoiceMode.RecorderStop (snd (VoiceMode.detectVoiceActivity now average s)).
Proof.
  intros Hv Ht Hl Hle.
  apply gt_true in Hl.
  assert (E1 : (VoiceMode.maxSpeechDuration <? now - t0) = false)
    by (apply Z.ltb_ge; exact Hle).
  unfold VoiceMode.detectVoiceActivity, VoiceMode.voiceBranch,
    VoiceMode.tooLong, VoiceMode.clearTimeout.
  destruct (negb (VoiceMode.isVoiceModeActive s) || negb (VoiceMode.analyser s));
    simpl; [repeat split; auto|].
  rewrite Hl, Hv. simpl.
  destruct (VoiceMode.truthyTimer (VoiceMode.silenceTimer s)) eqn:Et; simpl;
    try (destruct (VoiceMode.silenceTimer s) as [id|] eqn:Es; simpl);
    rewrite ?Hv, ?Ht, ?E1, ?andb_false_r; simpl;
    repeat split; try reflexivity; auto;
    destruct (VoiceMode.isVoiceModeActive s); simpl; intros H; in_trace.
Qed.

Lemma frames_loud_within t0 fs :
  forall s,
    VoiceMode.voiceActivityDetected s = true ->
    VoiceMode.voiceStartTime s = Some t0 ->
    Forall (fun f => loudFrame f /\ fst f - t0 <= VoiceMode.maxSpeechDuration) fs ->
    VoiceMode.voiceActivityDetected (fst (VoiceMode.frames fs s)) = true
    /\ VoiceMode.voiceStartTime (fst (VoiceMode.frames fs s)) = Some t0
    /\ VoiceMode.continuousRecorder (fst (VoiceMode.frames fs s))
       = VoiceMode.continuousRecorder s
    /\ ~ recorderStopped (snd (VoiceMode.frames fs s)).
Proof.
  induction fs as [|[now avg] r IH]; intros s Hv Ht Hall.
  - simpl. repeat split; auto. intros (tr & [] & _).
  - inversion Hall as [|? ? [Hl Hle] Hr]; subst. simpl in Hl, Hle.
    destruct (@frame_loud_within now avg s t0 Hv Ht Hl Hle) as (A1 & A2 & A3 & A4).
    simpl. destruct (VoiceMode.detectVoiceActivity now avg s) as [s1 tr]. simpl in *.
    destruct (IH s1 A1 A2 Hr) as (B1 & B2 & B3 & B4).
    destruct (VoiceMode.frames r s1) as [s2 trs]. simpl in *.
    repeat split; auto; [congruence|].
    intros (x & [Hx|Hx] & Hin); [subst; contradiction|].
    apply B4. exists x. auto.
Qed.

(** The first loud frame of an utterance notes the time. *)
Lemma frame_starts_utterance now average s :
  VoiceMode.isVoiceModeActive s = true ->
  VoiceMode.analyser s = true ->
  VoiceMode.voiceActivityDetected s = false ->
  (VoiceMode.energyThreshold < average)%Q ->
  VoiceMode.voiceActivityDetected (fst (VoiceMode.detectVoiceActivity now average s)) = true
  /\ VoiceMode.voiceStartTime (fst (VoiceMode.detectVoiceActivity now average s)) = Some now.
Proof.
  intros Ha Hn Hv Hl. apply gt_true in Hl.
  assert (E : (VoiceMode.maxSpeechDuration <? now - now) = false)
    by (apply Z.ltb_ge; unfold VoiceMode.maxSpeechDuration; lia).
  unfold VoiceMode.detectVoiceActivity, VoiceMode.voiceBranch, VoiceMode.tooLong,
    VoiceMode.setTimeout, VoiceMode.clearTimeout.
  rewrite Ha, Hn, Hl, Hv. simpl.
  destruct (VoiceMode.continuousRecorder s) as [[|]|]; simpl;
    destruct (VoiceMode.truthyTimer (VoiceMode.silenceTimer s)); simpl;
    try (destruct (VoiceMode.silenceTimer s); simpl);
    rewrite ?E, ?andb_false_r; simpl; split; reflexivity.
Qed.

Lemma frame_mode now average s :
  VoiceMode.isVoiceModeActive (fst (VoiceMode.detectVoiceActivity now average s))
  = VoiceMode.isVoiceModeActive s
  /\ VoiceMode.analyser (fst (VoiceMode.detectVoiceActivity now average s))
     = VoiceMode.analyser s.
Proof.
  unfold VoiceMode.detectVoiceActivity, VoiceMode.voiceBranch, VoiceMode.silenceBranch,
    VoiceMode.tooLong, VoiceMode.stopIfRecording, VoiceMode.endOfSpeech,
    VoiceMode.setTimeout, VoiceMode.clearTimeout.
  repeat match goal with
         | |- context [if ?b then _ else _] => destruct b; simpl
         | |- context [match ?x with Some _ => _ | None => _ end] => destruct x; simpl
         end; split; reflexivity.
Qed.

Lemma frames_mode fs :
  forall s,
    VoiceMode.isVoiceModeActive (fst (VoiceMode.frames fs s)) = VoiceMode.isVoiceModeActive s
    /\ VoiceMode.analyser (fst (VoiceMode.frames fs s)) = VoiceMode.analyser s.
Proof.
  induction fs as [|[now avg] r IH]; intros s; [split; reflexivity|].
  simpl. destruct (frame_mode now avg s) as [A1 A2].
  destruct (VoiceMode.detectVoiceActivity now avg s) as [s1 tr]. simpl in *.
  destruct (IH s1) as [B1 B2].
  destruct (VoiceMode.frames r s1) as [s2 trs]. simpl in *.
  split; congruence.
Qed.

(** C3, as the code has it.  The two scripts limit the length of an
    utterance differently.

    In the assistant script [startRecording] arms a timer for
    [RECORDING_TIMEOUT] ms after the call (not after [voiceStartTime]);
    [RECORDING_TIMEOUT] is 10000 in both copies.  While the loudness
    stays above the threshold the recording goes on until that timer is
    due; run before its deadline the timer does nothing; run at or after
    it, on any state that still records, it calls [stopRecording] and the
    recording ends, whatever the silence count.

    In the voice mode of the chat page [maxSpeechDuration] is 30000.  The
    first loud frame of an utterance notes [voiceStartTime]; loud frames
    up to 30000 ms later leave the recorder alone; the first frame more
    than 30000 ms later ends the utterance and stops the recorder,
    whatever its energy and whether or not the silence timer is
    pending. *)
Theorem C3_recording_timer_stops_recording :
  forall (cfg : Config) (t0 now : Z) (samples : list (Z * Q)) (s : State),
    continuousMonitoring s = true ->
    isRecording s = false ->
    mediaRecorder s = Some false ->
    timersFresh s ->
    Forall (fun x => loud cfg (snd x)) samples ->
    let started := fst (startRecording cfg t0 s) in
    let during := run cfg (ticks samples) started in
    let timer := nextTimerId s in
    (isRecording started = true /\ recordingTimer started = Some timer)
    /\ (~ emits (eq E_stopRecording) (snd during) /\ isRecording (fst during) = true)
    /\ (now < t0 + RECORDING_TIMEOUT cfg ->
        fireTimer cfg now timer (fst during) = (fst during, []))
    /\ (t0 + RECORDING_TIMEOUT cfg <= now ->
        In E_stopRecording (snd (fireTimer cfg now timer (fst during)))
        /\ isRecording (fst (fireTimer cfg now timer (fst during))) = false)
    /\ (forall tok,
          RECORDING_TIMEOUT (CONFIG tok) = 10000
          /\ RECORDING_TIMEOUT (CONFIG_guarded tok) = 10000)
    /\ (forall (u : State) (id : nat) (due at_ : Z),
          isRecording u = true ->
          find (fun x => (timerId x =? id)%nat) (timers u)
          = Some (MkTimer id due RecordingTimeout) ->
          due <= at_ ->
          In E_stopRecording (snd (fireTimer cfg at_ id u))
          /\ isRecording (fst (fireTimer cfg at_ id u)) = false)
    /\ VoiceMode.maxSpeechDuration = 30000
    /\ (forall (v : VoiceMode.State) (at_ : Z) (average : Q),
          VoiceMode.isVoiceModeActive v = true ->
          VoiceMode.analyser v = true ->
          VoiceMode.voiceActivityDetected v = false ->
          (VoiceMode.energyThreshold < average)%Q ->
          VoiceMode.voiceActivityDetected (fst (VoiceMode.detectVoiceActivity at_ average v))
          = true
          /\ VoiceMode.voiceStartTime (fst (VoiceMode.detectVoiceActivity at_ average v))
             = Some at_)
    /\ (forall (v : VoiceMode.State) (start at_ : Z) (fs : list (Z * Q)) (average : Q),
          VoiceMode.isVoiceModeActive v = true ->
          VoiceMode.analyser v = true ->
          VoiceMode.voiceActivityDetected v = true ->
          VoiceMode.voiceStartTime v = Some start ->
          start <> 0 ->
          VoiceMode.continuousRecorder v = Some true ->
          Forall (fun f => loudFrame f /\ fst f - start <= VoiceMode.maxSpeechDuration) fs ->
          VoiceMode.maxSpeechDuration < at_ - start ->
          let before := VoiceMode.frames fs v in
          let last := VoiceMode.detectVoiceActivity at_ average (fst before) in
          (~ recorderStopped (snd before)
           /\ VoiceMode.voiceActivityDetected (fst before) = true
           /\ VoiceMode.continuousRecorder (fst before) = Some true)
          /\ In VoiceMode.RecorderStop (snd last)
          /\ VoiceMode.continuousRecorder (fst last) = Some false
          /\ VoiceMode.voiceActivityDetected (fst last) = false
          /\ VoiceMode.voiceStartTime (fst last) = None).
Proof.
  intros cfg t0 now samples s Hcm Hr Hm Hf Hall started during timer.
  destruct (startRecording cfg t0 s) as [s1 tr1] eqn:E1.
  destruct (startRecording_spec _ _ _ E1) as (S1 & _ & _ & _ & _ & _ & S7).
  destruct (S7 Hr Hm) as (T1 & T2 & T3 & T4 & T5).
  simpl in started. subst started.
  assert (Scm : continuousMonitoring s1 = true) by congruence.
  destruct (@run_loud_recording cfg samples s1 Scm T1 Hall) as (D1 & D2 & D3 & (ex & D4)).
  fold during in D1, D2, D3, D4.
  assert (Hfind : find (fun t => (timerId t =? timer)%nat) (timers (fst during))
                  = Some (MkTimer timer (t0 + RECORDING_TIMEOUT cfg) RecordingTimeout)).
  { rewrite D4, T4. apply find_app. apply find_fresh. exact Hf. }
  assert (Hfire : forall (u : State) (id : nat) (due at_ : Z),
            isRecording u = true ->
            find (fun x => (timerId x =? id)%nat) (timers u)
            = Some (MkTimer id due RecordingTimeout) ->
            due <= at_ ->
            In E_stopRecording (snd (fireTimer cfg at_ id u))
            /\ isRecording (fst (fireTimer cfg at_ id u)) = false).
  { intros u id due at_ Hu Hfu Hle. unfold fireTimer. rewrite Hfu. simpl.
    apply Z.leb_le in Hle. rewrite Hle. simpl. rewrite Hu.
    destruct (stopRecording (clearTimeout id u)) as [s3 tr3] eqn:E3.
    destruct (stopRecording_spec _ E3) as (_ & _ & _ & _ & P5 & P6 & _).
    simpl. auto. }
  split; [split; assumption|].
  split; [split; assumption|].
  split; [|split; [|split; [|split; [|split; [|split]]]]].
  - intros Hlt. unfold fireTimer. rewrite Hfind. simpl.
    destruct (t0 + RECORDING_TIMEOUT cfg <=? now) eqn:E; [apply Z.leb_le in E; lia|].
    reflexivity.
  - intros Hle. exact (Hfire (fst during) timer _ now D3 Hfind Hle).
  - intros tok. split; reflexivity.
  - exact Hfire.
  - reflexivity.
  - intros v at_ average Ha Hn Hv Hl.
    exact (@frame_starts_utterance at_ average v Ha Hn Hv Hl).
  - intros v start at_ fs average Ha Hn Hv Ht H0 Hrec Hfs Hlong before last.
    destruct (@frames_loud_within start fs v Hv Ht Hfs) as (B1 & B2 & B3 & B4).
    destruct (frames_mode fs v) as [M1 M2].
    fold before in B1, B2, B3, B4, M1, M2.
    assert (Ha' : VoiceMode.isVoiceModeActive (fst before) = true) by congruence.
    assert (Hn' : VoiceMode.analyser (fst before) = true) by congruence.
    assert (Hrec' : VoiceMode.continuousRecorder (fst before) = Some true) by congruence.
    destruct (@frame_too_long at_ average (fst before) start Ha' Hn' B1 B2 H0 Hlong)
      as (L1 & L2 & L3).
    fold last in L1, L2, L3. destruct (L3 Hrec') as [L4 L5].
    repeat split; assumption.
Qed.

(** C3 at the listening assistant of [static/script.js]: a recording
    started at time 0 under sustained loudness is stopped by the timer at
    time 10000; and at the voice mode of the chat page: an utterance
    that began at time 1000 and is still loud at 16000 and at 31000 is
    ended by the frame at 31001. *)
Lemma C3_script_witness :
  let cfg := CONFIG (Some "token") in
  let s := listeningState cfg in
  let loudSamples := [(1, 1 # 2); (2, 1 # 2); (3, 1 # 2)] in
  (continuousMonitoring s = true /\ isRecording s = false
   /\ mediaRecorder s = Some false /\ timersFresh s
   /\ Forall (fun x => loud cfg (snd x)) loudSamples)
  /\ isRecording
       (fst (fireTimer cfg 10000 (nextTimerId s)
               (fst (run cfg (ticks loudSamples) (fst (startRecording cfg 0 s))))))
     = false
  /\ In VoiceMode.RecorderStop
        (snd (VoiceMode.detectVoiceActivity 31001 50
                (fst (VoiceMode.frames [(16000, 50%Q); (31000, 50%Q)] utteranceInProgress)))).
Proof.
  assert (Hl : loud (CONFIG (Some "token")) (1 # 2)) by reflexivity.
  assert (Hall : Forall (fun x => loud (CONFIG (Some "token")) (snd x))
                   [(1, 1 # 2); (2, 1 # 2); (3, 1 # 2)])
    by (repeat constructor; exact Hl).
  assert (Hf : timersFresh (listeningState (CONFIG (Some "token"))))
    by constructor.
  assert (Hfs : Forall (fun f => loudFrame f /\ fst f - 1000 <= VoiceMode.maxSpeechDuration)
                  [(16000, 50%Q); (31000, 50%Q)]).
  { repeat constructor; try reflexivity; unfold VoiceMode.maxSpeechDuration; simpl; lia. }
  assert (H1000 : 1000 <> 0) by discriminate.
  assert (Hlong : VoiceMode.maxSpeechDuration < 31001 - 1000) by reflexivity.
  assert (Hle : 0 + RECORDING_TIMEOUT (CONFIG (Some "token")) <= 10000) by (simpl; lia).
  pose proof (@C3_recording_timer_stops_recording
            (CONFIG (Some "token")) 0 10000 [(1, 1 # 2); (2, 1 # 2); (3, 1 # 2)]
            (listeningState (CONFIG (Some "token")))
            eq_refl eq_refl eq_refl Hf Hall) as H.
  split; [repeat split; auto|].
  split.
  - exact (proj2 (proj1 (proj2 (proj2 (proj2 H))) Hle)).
  - exact (proj1 (proj2
             (proj2 (proj2 (proj2 (proj2 (proj2 (proj2 (proj2 (proj2 H)))))))
                utteranceInProgress 1000 31001 [(16000, 50%Q); (31000, 50%Q)] 50%Q
                eq_refl eq_refl eq_refl eq_refl H1000 eq_refl Hfs Hlong))).
Defined.

(** C3 as stated fails on the assistant script, the code it cites: the
    limit there is 10000 ms, not 30000 ms.  A recording started at time 0
    and kept loud is already stopped when the timer runs at 10000. *)
Lemma C3_timeout_is_10000ms :
  RECORDING_TIMEOUT (CONFIG None) = 10000
  /\ RECORDING_TIMEOUT (CONFIG None) <> 30000
  /\ isRecording
       (fst (fireTimer (CONFIG None) 10000 1
               (fst (run (CONFIG None) (ticks [(1, 1 # 2); (5000, 1 # 2); (9999, 1 # 2)])
                      (fst (startRecording (CONFIG None) 0
                              (listeningState (CONFIG None))))))))
     = false.
Proof. repeat split; try discriminate. Qed.

(** *** Pending timers *)

Lemma find_filter_other (l : list Timer) id id' t :
  find (fun x => (timerId x =? id)%nat) l = Some t ->
  id' <> id ->
  find (fun x => (timerId x =? id)%nat)
       (filter (fun x => negb (timerId x =? id')%nat) l) = Some t.
Proof.
  intros H Hne. induction l as [|a l IH]; simpl in *; [discriminate|].
  destruct (timerId a =? id)%nat eqn:E.
  - inversion H; subst. apply Nat.eqb_eq in E.
    destruct (timerId t =? id')%nat eqn:E'; [apply Nat.eqb_eq in E'; congruence|].
    simpl. rewrite (proj2 (Nat.eqb_eq _ _) E). reflexivity.
  - destruct (negb (timerId a =? id')%nat); simpl; rewrite ?E; auto.
Qed.

(** What a call may do to the timers without touching a pending one:
    append, or clear the timer [recordingTimer] names. *)
Lemma pending_append t s s' :
  pending t s ->
  (exists extra, timers s' = timers s ++ extra) ->
  (nextTimerId s <= nextTimerId s')%nat ->
  (recordingTimer s' = recordingTimer s
   \/ exists id, recordingTimer s' = Some id /\ (nextTimerId s <= id)%nat) ->
  pending t s'.
Proof.
  intros (P1 & P2 & P3) (extra & Ht) Hn Hr. unfold pending.
  rewrite Ht. split; [apply find_app; exact P1|]. split; [lia|].
  destruct Hr as [Hr|(id & Hr & Hid)]; rewrite Hr; [exact P3|].
  intros H. inversion H. lia.
Qed.

Lemma pending_clear t s s' id :
  pending t s ->
  id <> timerId t ->
  timers s' = filter (fun x => negb (timerId x =? id)%nat) (timers s) ->
  nextTimerId s' = nextTimerId s ->
  (recordingTimer s' = recordingTimer s \/ recordingTimer s' = None) ->
  pending t s'.
Proof.
  intros (P1 & P2 & P3) Hne Ht Hn Hr. unfold pending.
  rewrite Ht, Hn. split; [apply find_filter_other; assumption|]. split; [exact P2|].
  destruct Hr as [Hr|Hr]; rewrite Hr; [exact P3|discriminate].
Qed.

Lemma keeps_refl t s : keeps t s s.
Proof. split; auto. Qed.

Lemma keeps_trans t s1 s2 s3 : keeps t s1 s2 -> keeps t s2 s3 -> keeps t s1 s3.
Proof. intros [A1 A2] [B1 B2]. split; [auto|congruence]. Qed.

Ltac same_timers :=
  split; [|reflexivity];
  intros P; eapply pending_append; [exact P|..]; simpl;
  [exists []; rewrite app_nil_r; reflexivity|lia|left; reflexivity].

Lemma ttsStop_keeps t s : keeps t s (fst (ttsStop s)).
Proof.
  unfold ttsStop, TTSService.stop. split_ifs; same_timers.
Qed.

Lemma startRecording_keeps cfg now t s : keeps t s (fst (startRecording cfg now s)).
Proof.
  unfold startRecording, setTimeout.
  split_ifs; try same_timers.
  all: split; [|reflexivity].
  all: intros P; eapply pending_append; [exact P|..]; simpl;
    [eexists; reflexivity|lia|right; eexists; split; [reflexivity|lia]].
Qed.

Lemma stopRecording_keeps t s : keeps t s (fst (stopRecording s)).
Proof.
  unfold stopRecording, clearTimeout.
  split_ifs; try same_timers.
  all: split; [|reflexivity].
  all: intros P;
    match goal with
    | H : recordingTimer _ = Some ?n |- _ =>
        eapply pending_clear with (id := n); [exact P|..]; simpl in *;
        [destruct P as (_ & _ & P3); congruence
        |reflexivity|reflexivity|right; reflexivity]
    end.
Qed.

Lemma executeGlobalInterrupt_keeps now t s : keeps t s (fst (executeGlobalInterrupt now s)).
Proof.
  unfold executeGlobalInterrupt, setTimeout, ttsSpeaking, ttsStop, TTSService.stop.
  split_ifs.
  all: split; [|reflexivity].
  all: intros P; eapply pending_append; [exact P|..]; simpl;
    [eexists; reflexivity|lia|left; reflexivity].
Qed.

(** Name the outcome of each call in the goal, with what it keeps. *)
Ltac keep_calls t :=
  repeat match goal with
  | |- context [ttsStop ?x] =>
      let K := fresh "K" in
      pose proof (ttsStop_keeps t x) as K;
      destruct (ttsStop x) as [? ?]; destruct K
  | |- context [startRecording ?c ?n ?x] =>
      let K := fresh "K" in
      pose proof (startRecording_keeps c n t x) as K;
      destruct (startRecording c n x) as [? ?]; destruct K
  | |- context [stopRecording ?x] =>
      let K := fresh "K" in
      pose proof (stopRecording_keeps t x) as K;
      destruct (stopRecording x) as [? ?]; destruct K
  | |- context [executeGlobalInterrupt ?n ?x] =>
      let K := fresh "K" in
      pose proof (executeGlobalInterrupt_keeps n t x) as K;
      destruct (executeGlobalInterrupt n x) as [? ?]; destruct K
  end.

(** Follow a pending timer through the calls named by [keep_calls]. *)
Ltac follow :=
  split;
  [ let P := fresh "P" in
    intros P;
    repeat match goal with
    | K : pending _ _ -> pending _ _ |- _ => apply K in P; clear K
    end;
    exact P
  | repeat match goal with
    | K : isListening ?a = _ |- _ => is_var a; refine (eq_trans K _); clear K
    end;
    reflexivity ].

Lemma voiceBranch_keeps cfg now t s : keeps t s (fst (voiceBranch cfg now s)).
Proof.
  unfold voiceBranch.
  repeat match goal with
         | |- context [if ?b then _ else _] => destruct b
         end;
    keep_calls t; simpl in *; follow.
Qed.

Lemma silenceBranch_keeps cfg t s : keeps t s (fst (silenceBranch cfg s)).
Proof.
  unfold silenceBranch.
  repeat match goal with
         | |- context [if ?b then _ else _] => destruct b
         end;
    keep_calls t; simpl in *; follow.
Qed.

Ltac keep_branches t :=
  repeat match goal with
  | |- context [executeGlobalInterrupt ?n ?x] =>
      let K := fresh "K" in
      pose proof (executeGlobalInterrupt_keeps n t x) as K;
      destruct (executeGlobalInterrupt n x) as [? ?]; destruct K
  | |- context [voiceBranch ?c ?n ?x] =>
      let K := fresh "K" in
      pose proof (voiceBranch_keeps c n t x) as K;
      destruct (voiceBranch c n x) as [? ?]; destruct K
  | |- context [silenceBranch ?c ?x] =>
      let K := fresh "K" in
      pose proof (silenceBranch_keeps c t x) as K;
      destruct (silenceBranch c x) as [? ?]; destruct K
  end.

Lemma checkVoiceLevel_keeps cfg now v t s : keeps t s (fst (checkVoiceLevel cfg now v s)).
Proof.
  unfold checkVoiceLevel.
  repeat match goal with
         | |- context [if ?b then _ else _] => destruct b
         end;
    keep_branches t; simpl in *; follow.
Qed.

Lemma fireTimer_keeps cfg now id t s :
  id <> timerId t -> keeps t s (fst (fireTimer cfg now id s)).
Proof.
  intros Hne. unfold fireTimer.
  destruct (find _ (timers s)) as [x|]; [|apply keeps_refl].
  destruct (deadline x <=? now); [|apply keeps_refl].
  assert (K0 : keeps t s (clearTimeout id s)).
  { split; [|reflexivity]. intros P.
    eapply pending_clear with (id := id); [exact P|..]; simpl;
      [exact Hne|reflexivity|reflexivity|left; reflexivity]. }
  destruct K0 as [K0 K1].
  unfold runCallback.
  destruct (callback x);
    repeat match goal with
           | |- context [if ?b then _ else _] => destruct b
           end;
    keep_calls t; simpl in *; follow.
Qed.

Lemma step_keeps cfg e t s :
  notTimer (timerId t) e -> keeps t s (fst (step cfg e s)).
Proof.
  destruct e as [now v|now id]; simpl; intros H.
  - apply checkVoiceLevel_keeps.
  - apply fireTimer_keeps. exact H.
Qed.

(** A pending timer stays pending, and [isListening] as it is, over
    every run of detection ticks and of other timers. *)
Lemma run_keeps cfg t es :
  forall s, Forall (notTimer (timerId t)) es -> keeps t s (fst (run cfg es s)).
Proof.
  induction es as [|e r IH]; intros s H; [apply keeps_refl|].
  inversion H as [|? ? He Hr]; subst.
  rewrite run_cons. simpl fst.
  pose proof (@step_keeps cfg e t s He) as K.
  destruct (step cfg e s) as [s1 tr]. simpl in K.
  eapply keeps_trans; [exact K|]. apply IH. exact Hr.
Qed.

(** ** The speech player *)

Lemma trimStartBytes_whitespace l :
  Forall (fun c => JS.ws1 c = true) l -> JS.trimStartBytes l = [].
Proof.
  induction 1 as [|c l Hc _ IH]; simpl; [reflexivity|].
  rewrite Hc. exact IH.
Qed.

(** A string of spaces, tabs and line breaks trims to the empty string. *)
Lemma trim_whitespace s :
  Forall (fun c => JS.ws1 c = true) (list_ascii_of_string s) -> JS.trim s = "".
Proof.
  intros H. unfold JS.trim. rewrite (trimStartBytes_whitespace H). reflexivity.
Qed.

Lemma blank_spec text :
  JS.blank text = true <->
  text = None \/ exists str, text = Some str /\ JS.trim str = "".
Proof.
  destruct text as [str|]; simpl.
  - split.
    + intros H. right. exists str. split; [reflexivity|].
      apply orb_prop in H. destruct H as [H|H]; apply negb_true_iff in H.
      * destruct str; [reflexivity|discriminate].
      * destruct (JS.trim str); [reflexivity|discriminate].
    + intros [H|(str' & H & Ht)]; [discriminate|].
      inversion H; subst. rewrite Ht. simpl. apply orb_true_r.
  - split; auto.
Qed.

(** C10.  [speak] called with [null], with the empty string or with a
    string that trims to the empty string returns at once: the promise is
    resolved, no request is sent, no playback is started or stopped, no
    callback runs (the outcome is the same whatever the callbacks are),
    and the whole state, [isSpeaking] included, is unchanged. *)
Theorem C10_speak_blank_is_noop :
  forall (cb : Callbacks) (text : option string) (s : State) (t : TTSService.t),
    ttsService s = Some t ->
    (text = None \/ exists str, text = Some str /\ JS.trim str = "") ->
    speak cb text s = (Finished Resolved, s, []).
Proof.
  intros cb text s t Ht Hb. apply blank_spec in Hb.
  unfold speak. rewrite Ht.
  destruct (negb (TTSService.enabled (TTSService.config t))); [reflexivity|].
  destruct text as [str|]; [|reflexivity].
  rewrite Hb. reflexivity.
Qed.

(** C10 at a text of two spaces. *)
Lemma C10_two_spaces_witness :
  (ttsService (listeningState (CONFIG (Some "token")))
   = Some (TTSService.create (TTS (CONFIG (Some "token"))) false)
   /\ (Some "  " = None \/ exists str, Some "  " = Some str /\ JS.trim str = ""))
  /\ speak appCallbacks (Some "  ") (listeningState (CONFIG (Some "token")))
     = (Finished Resolved, listeningState (CONFIG (Some "token")), []).
Proof.
  assert (H : Some "  " = None \/ exists str, Some "  " = Some str /\ JS.trim str = "")
    by (right; exists "  "; split; reflexivity).
  split; [split; [reflexivity|exact H]|].
  exact (@C10_speak_blank_is_noop appCallbacks (Some "  ")
           (listeningState (CONFIG (Some "token"))) _ eq_refl H).
Defined.

(** C4 fails on the code.  A second [speak] issued while the first is
    still waiting for its audio stops nothing, since nothing plays yet;
    when the two answers arrive, both [Audio] elements are started and
    neither is paused: two playbacks sound at the same time. *)
Lemma C4_two_playbacks_at_once :
  audibleNow (fst overlappingSpeaks) = 2%nat
  /\ ~ emits (fun e => exists a, e = E_audioPause a) (snd overlappingSpeaks)
  /\ emits (eq (E_audioPlay 0)) (snd overlappingSpeaks)
  /\ emits (eq (E_audioPlay 1)) (snd overlappingSpeaks).
Proof.
  assert (Htrs : snd overlappingSpeaks =
                 [[E_onStart "first answer"; E_updateStatus speaking;
                   E_fetchTTS "first answer"];
                  [E_onStart "second answer"; E_updateStatus speaking;
                   E_fetchTTS "second answer"];
                  [E_saveAudioFile; E_audioPlay 0];
                  [E_saveAudioFile; E_audioPlay 1]])
    by (vm_compute; reflexivity).
  rewrite Htrs.
  split; [vm_compute; reflexivity|]. split.
  - intros (tr & e & Htr & He & (a & Ha)). subst e.
    simpl in Htr. repeat (destruct Htr as [Htr|Htr]; [subst tr; simpl in He; in_trace|]).
    destruct Htr.
  - split.
    + exists [E_saveAudioFile; E_audioPlay 0], (E_audioPlay 0).
      simpl. tauto.
    + exists [E_saveAudioFile; E_audioPlay 1], (E_audioPlay 1).
      simpl. tauto.
Qed.

(** ** The final answer of the chat stream *)

Import Protocol Coordinator.

(** In the copy that checks the flags, a line processed while an
    interrupt is latched starts nothing and leaves the flags as they
    are. *)
Lemma guarded_onLine parse cb line h s :
  isInterrupted s || shouldInterrupt s = true ->
  forall o h' s' tr,
    onLine parse Guarded cb line h s = (o, h', s', tr) ->
    (o = Next \/ o = Break)
    /\ isInterrupted s' = isInterrupted s
    /\ shouldInterrupt s' = shouldInterrupt s
    /\ Forall (eq E_warn) tr.
Proof.
  intros Hi o h' s' tr.
  unfold onLine, onWorkflowFinished, addMessage, updateMessageContent.
  rewrite Hi.
  split_ifs; intros E; got E; repeat split; auto.
Qed.

Lemma guarded_processLines parse cb lines :
  forall h s,
    isInterrupted s || shouldInterrupt s = true ->
    forall e s' tr,
      processLines parse Guarded cb lines h s = (e, s', tr) ->
      (exists h', e = LinesDone h')
      /\ isInterrupted s' = isInterrupted s
      /\ shouldInterrupt s' = shouldInterrupt s
      /\ Forall (eq E_warn) tr.
Proof.
  induction lines as [|line rest IH]; intros h s Hi e s' tr; simpl.
  - intros E; got E. repeat split; eauto.
  - destruct (onLine parse Guarded cb line h s) as [[[o h1] s1] tr1] eqn:E1.
    destruct (guarded_onLine _ _ _ _ _ Hi E1) as (Ho & F1 & F2 & F3).
    destruct Ho as [-> | ->].
    + destruct (processLines parse Guarded cb rest h1 s1) as [[e2 s2] tr2] eqn:E2.
      intros E; got E.
      assert (Hi1 : isInterrupted s1 || shouldInterrupt s1 = true)
        by (rewrite F1, F2; exact Hi).
      destruct (IH h1 s1 Hi1 _ _ _ E2) as (He & G1 & G2 & G3).
      repeat split; auto; try congruence.
      apply Forall_app; auto.
    + intros E; got E. repeat split; eauto.
Qed.

(** With a flag set, [processAudio]'s [finally] block clears
    [isProcessing] and shows the listening status. *)
Lemma finally_interrupted now s :
  isInterrupted s || shouldInterrupt s = true ->
  isProcessing (fst (processAudio_finally now s)) = false
  /\ In (E_updateStatus listening) (snd (processAudio_finally now s)).
Proof.
  intros Hi. unfold processAudio_finally. simpl. rewrite Hi.
  destruct (executeGlobalInterrupt now (set_isProcessing false s)) as [s1 tr] eqn:E.
  simpl. split.
  - apply executeGlobalInterrupt_frame in E. tauto.
  - revert E. unfold executeGlobalInterrupt, setTimeout.
    split_ifs; call_specs; intros E; got E; rewrite ?in_app_iff; simpl; auto 10.
Qed.

(** The handler keeps its reader. *)
Lemma onWorkflowFinished_handler v cb d h s :
  snd (fst (fst (onWorkflowFinished v cb d h s))) = h.
Proof.
  unfold onWorkflowFinished.
  repeat match goal with
  | |- context [speak ?a ?b ?c] => destruct (speak a b c) as [[[pc|[|er]] sx] trx]
  | |- context [ttsEnable ?a] => destruct (ttsEnable a)
  | |- context [if ?b then _ else _] => destruct b
  | |- context [match ?x with Some _ => _ | None => _ end] => destruct x
  | |- context [match ?x with Forced => _ | Guarded => _ end] => destruct x
  end; reflexivity.
Qed.

Lemma onLine_reader parse v cb line h s :
  reader (snd (fst (fst (onLine parse v cb line h s)))) = reader h.
Proof.
  unfold onLine, addMessage.
  repeat match goal with
  | |- context [onWorkflowFinished ?v ?cb ?d ?h ?s] =>
      rewrite (onWorkflowFinished_handler v cb d h s)
  | |- context [if ?b then _ else _] => destruct b
  | |- context [match ?x with Some _ => _ | None => _ end] => destruct x
  end; reflexivity.
Qed.

Lemma processLines_reader parse v cb lines :
  forall h s,
    match fst (fst (processLines parse v cb lines h s)) with
    | LinesDone h' => reader h' = reader h
    | LinesAwait h' _ _ => reader h' = reader h
    end.
Proof.
  induction lines as [|line rest IH]; intros h s; simpl; [reflexivity|].
  pose proof (onLine_reader parse v cb line h s) as H1.
  destruct (onLine parse v cb line h s) as [[[o h1] s1] tr1]. simpl in H1.
  destruct o; simpl; auto.
  specialize (IH h1 s1).
  destruct (processLines parse v cb rest h1 s1) as [[e s2] tr2]. simpl in *.
  destruct e; congruence.
Qed.

Lemma guarded_onRead parse cb res h s :
  isInterrupted s || shouldInterrupt s = true ->
  forall st s' tr,
    onRead parse Guarded cb res h s = (st, s', tr) ->
    st = HandlerDone
    /\ isInterrupted s' || shouldInterrupt s' = true
    /\ forall e, In e tr -> e = E_warn \/ e = E_releaseLock (reader h).
Proof.
  intros Hi st s' tr. unfold onRead.
  destruct (existsb _ _).
  { unfold finish. intros E; got E. repeat split; auto. intros e [<-|[]]; auto. }
  destruct res as [|chunk|err].
  - unfold finish. intros E; got E. repeat split; auto. intros e [<-|[]]; auto.
  - destruct (processLines parse Guarded cb (JS.splitLines chunk) h s)
      as [[e s1] tr1] eqn:E1.
    destruct (guarded_processLines _ _ _ _ _ Hi E1) as ((h' & ->) & F1 & F2 & F3).
    unfold afterLines, loopTop. rewrite F1, F2, Hi.
    pose proof (processLines_reader parse Guarded cb (JS.splitLines chunk) h s) as Hr.
    rewrite E1 in Hr. simpl in Hr.
    unfold finish. destruct (messageElement h'); intros E; got E.
    all: split; [reflexivity|]; split; [rewrite ?F1, ?F2; exact Hi|].
    all: intros e He; apply in_app_or in He; destruct He as [He|[<-|[]]];
      [left; rewrite Forall_forall in F3; symmetry; exact (F3 e He)
      |right; congruence].
  - unfold finish. destruct (messageElement h); [destruct (negb (isInterrupted s))|];
      intros E; got E; repeat split; auto; intros e [<-|[]]; auto.
Qed.

(** C1, as the code has it.  In the copy of the script that checks the
    interrupt flags: a read that completes while [isInterrupted] or
    [shouldInterrupt] is set ends the handling of the stream, whatever it
    delivers, without any call of [speak] and without any TTS request,
    and [processAudio]'s [finally] block then clears [isProcessing] and
    shows the listening status; with both flags clear,
    [workflow_finished] calls [speak] on the final answer when a message
    element exists, the answer is not blank and the TTS service exists.
    In [static/script.js] the flags are not consulted: under the same
    three conditions [workflow_finished] always calls [speak] on the
    final answer. *)
Theorem C1_final_answer_playback :
  forall (JSON_parse : string -> option StreamData) (cb : Callbacks),
    (forall (res : ReadResult) (h : Handler) (s : State) (now : Z),
        isInterrupted s || shouldInterrupt s = true ->
        let r := onRead JSON_parse Guarded cb res h s in
        fst (fst r) = HandlerDone
        /\ (forall t, ~ In (E_speak t) (snd r))
        /\ (forall t, ~ In (E_fetchTTS t) (snd r))
        /\ isProcessing (fst (processAudio_finally now (snd (fst r)))) = false
        /\ In (E_updateStatus listening) (snd (processAudio_finally now (snd (fst r)))))
    /\ (forall (d : StreamData) (h : Handler) (s : State) (m : nat),
          messageElement h = Some m ->
          hasTTS s = true ->
          JS.truthy (JS.trim (JS.orElse (final_answer d) (completeAnswer h))) = true ->
          (isInterrupted s = false -> shouldInterrupt s = false ->
           In (E_speak (JS.orElse (final_answer d) (completeAnswer h)))
              (snd (onWorkflowFinished Guarded cb d h s)))
          /\ In (E_speak (JS.orElse (final_answer d) (completeAnswer h)))
                (snd (onWorkflowFinished Forced cb d h s))).
Proof.
  intros parse cb. split.
  - intros res h s now Hi r. subst r.
    destruct (onRead parse Guarded cb res h s) as [[st s'] tr] eqn:E. simpl.
    destruct (guarded_onRead _ _ _ _ _ Hi E) as (-> & Hi' & Htr).
    split; [reflexivity|].
    split; [intros t Ht; destruct (Htr _ Ht); discriminate|].
    split; [intros t Ht; destruct (Htr _ Ht); discriminate|].
    apply finally_interrupted. exact Hi'.
  - intros d h s m Hm Ht Hfa. split.
    + intros H1 H2. unfold onWorkflowFinished, updateMessageContent, hasTTS in *.
      rewrite Hm, H1, H2. simpl. rewrite Hfa, Ht, H1, H2. simpl.
      destruct (speak cb _ _) as [[[pc|[|er]] sx] trx]; simpl; auto.
    + unfold onWorkflowFinished, updateMessageContent, hasTTS in *.
      rewrite Hm. simpl. rewrite Hfa, Ht. simpl.
      destruct (ttsEnable _) as [s2 tr0].
      destruct (speak cb _ _) as [[[pc|[|er]] sx] trx]; simpl;
        apply in_or_app; right; simpl; auto.
Qed.

(** C1 at the last chunk of a stream, arriving with [shouldInterrupt]
    set. *)
Lemma C1_guarded_witness :
  let s := set_shouldInterrupt true (listeningState (CONFIG (Some "token"))) in
  let res := ReadChunk (dataLine [("event", "workflow_finished"); ("final_answer", "Hi")]) in
  isInterrupted s || shouldInterrupt s = true
  /\ fst (fst (onRead parseFlat Guarded appCallbacks res (MkHandler 1 "Hi" (Some 0%nat)) s))
     = HandlerDone.
Proof.
  split; [reflexivity|].
  exact (proj1 (proj1 (@C1_final_answer_playback parseFlat appCallbacks)
           (ReadChunk (dataLine [("event", "workflow_finished"); ("final_answer", "Hi")]))
           (MkHandler 1 "Hi" (Some 0%nat))
           (set_shouldInterrupt true (listeningState (CONFIG (Some "token"))))
           0 eq_refl)).
Defined.

(** C1 as stated fails on [static/script.js]: [shouldInterrupt] is
    latched by a detection tick while the stream is being received, the
    chunk with [workflow_finished] arrives next, and the handler calls
    [speak] and sends the TTS request all the same. *)
Lemma C1_forced_playback_despite_interrupt :
  fst (fst (fst (interruptedStream Forced))) = true
  /\ emits (eq (E_speak "Hi")) (snd (interruptedStream Forced))
  /\ emits (eq (E_fetchTTS "Hi")) (snd (interruptedStream Forced)).
Proof.
  assert (Ht : snd (interruptedStream Forced) =
               [[]; []; [];
                [E_speak "Hi"; E_onStart "Hi"; E_updateStatus speaking; E_fetchTTS "Hi"]])
    by (vm_compute; reflexivity).
  rewrite Ht. split; [vm_compute; reflexivity|].
  split.
  - exists [E_speak "Hi"; E_onStart "Hi"; E_updateStatus speaking; E_fetchTTS "Hi"],
      (E_speak "Hi"). simpl. tauto.
  - exists [E_speak "Hi"; E_onStart "Hi"; E_updateStatus speaking; E_fetchTTS "Hi"],
      (E_fetchTTS "Hi"). simpl. tauto.
Qed.

(** ** Empty transcripts *)

(** What [executeGlobalInterrupt] leaves alone besides the fields of the
    detection loop, and all it can emit. *)
Lemma executeGlobalInterrupt_quiet now s s' tr :
  executeGlobalInterrupt now s = (s', tr) ->
  conversation s' = conversation s
  /\ isListening s' = isListening s
  /\ forall e, In e tr ->
       (exists r, e = E_cancelStream r) \/ (exists a, e = E_audioPause a)
       \/ e = E_updateStatus listening.
Proof.
  unfold executeGlobalInterrupt, ttsSpeaking, ttsStop, TTSService.stop, setTimeout.
  split_ifs; intros E; got E; repeat split; intros e He; in_trace; subst; eauto.
Qed.

Lemma finally_keeps now t s : keeps t s (fst (processAudio_finally now s)).
Proof.
  unfold processAudio_finally, setTimeout.
  repeat match goal with
         | |- context [if ?b then _ else _] => destruct b
         end;
    keep_calls t; simpl in *; try follow.
  all: split; [|reflexivity]; intros P;
    eapply pending_append; [exact P|..]; simpl;
      [eexists; reflexivity|lia|left; reflexivity].
Qed.

(** After a blank transcript the timer of [processAudio] is pending, and
    so is the one of its [finally] block when the assistant monitors and
    no interrupt is latched. *)
Lemma blank_transcript_timers now status statusText body j s :
  JS.trim (JS.orElse (text j) "") = "" ->
  timersFresh s -> recordingTimerOld s ->
  let s2 := snd (fst (processAudio_onSTT now (Http true status statusText body) (JsonValue j) s)) in
  pending (MkTimer (nextTimerId s) (now + 2000) StatusAfterEmpty) s2
  /\ isListening s2 = isListening s
  /\ (continuousMonitoring s = true -> isInterrupted s || shouldInterrupt s = false ->
      pending (MkTimer (S (nextTimerId s)) (now + 1000) StatusAfterProcessing) s2).
Proof.
  intros Hb Hf Ho.
  unfold processAudio_onSTT, callSTTAPI_result. simpl. rewrite Hb. simpl.
  set (s1 := fst (setTimeout now 2000 StatusAfterEmpty s)).
  assert (P0 : pending (MkTimer (nextTimerId s) (now + 2000) StatusAfterEmpty) s1).
  { unfold pending. simpl. split; [apply find_fresh; exact Hf|]. split; [lia|].
    intros H. apply Ho in H. lia. }
  change (set_nextTimerId (S (nextTimerId s))
            (set_timers (timers s ++ [MkTimer (nextTimerId s) (now + 2000) StatusAfterEmpty]) s))
    with s1.
  destruct (@finally_keeps now (MkTimer (nextTimerId s) (now + 2000) StatusAfterEmpty) s1)
    as [K1 K2].
  destruct (processAudio_finally now s1) as [s2 tr] eqn:E. simpl in *.
  split; [auto|]. split; [exact K2|].
  intros Hcm Hi. revert E. unfold processAudio_finally. simpl. rewrite Hi, Hcm.
  unfold setTimeout. simpl. intros E. inversion E; subst. clear E.
  unfold pending. simpl. split.
  - apply find_fresh.
    unfold timersFresh in Hf. apply Forall_app. split.
    + eapply Forall_impl; [|exact Hf]. simpl. intros; lia.
    + constructor; [simpl; lia|constructor].
  - split; [lia|]. intros H. apply Ho in H. lia.
Qed.

(** Running a pending timer: nothing before its deadline, its callback
    from then on. *)
Lemma fire_pending cfg later t s :
  pending t s ->
  (later < deadline t -> fireTimer cfg later (timerId t) s = (s, []))
  /\ (deadline t <= later ->
      fireTimer cfg later (timerId t) s
      = runCallback cfg later (callback t) (clearTimeout (timerId t) s)).
Proof.
  intros (P & _). unfold fireTimer. rewrite P. split; intros H.
  - destruct (deadline t <=? later) eqn:E; [apply Z.leb_le in E; lia|reflexivity].
  - apply Z.leb_le in H. rewrite H. reflexivity.
Qed.

(** C9.  When the STT endpoint answers with a text that is missing,
    empty or made of white space only, [processAudio] finishes without a
    chat request, without an error message and without adding a message
    to the conversation; [isProcessing] is cleared, the assistant keeps
    monitoring, and the status goes to ready.  Two timers are left
    pending.  The one armed for 2000 ms later survives every run of
    detection ticks and of other timers; run before its deadline it does
    nothing, run at or after it, it puts the status back to listening,
    provided the assistant was listening ([isListening]).  The one the
    [finally] block arms for 1000 ms later, when the assistant monitors
    and no interrupt is latched, puts the status to listening as well
    unless an interrupt flag is set when it runs. *)
Theorem C9_blank_transcript_returns_to_listening :
  forall (now status : Z) (statusText body : string) (j : STTJson) (s : State),
    JS.trim (JS.orElse (text j) "") = "" ->
    let r := processAudio_onSTT now (Http true status statusText body) (JsonValue j) s in
    fst (fst r) = ProcessDone
    /\ (forall q c, ~ In (E_fetchChat q c) (snd r))
    /\ (forall m, ~ In (E_showError m) (snd r))
    /\ conversation (snd (fst r)) = conversation s
    /\ isProcessing (snd (fst r)) = false
    /\ isRecording (snd (fst r)) = isRecording s
    /\ continuousMonitoring (snd (fst r)) = continuousMonitoring s
    /\ isListening (snd (fst r)) = isListening s
    /\ In (E_updateStatus ready) (snd r)
    /\ In (MkTimer (nextTimerId s) (now + 2000) StatusAfterEmpty)
          (timers (snd (fst r)))
    /\ (timersFresh s -> recordingTimerOld s ->
        forall (cfg : Config) (es : list Event) (later : Z),
          Forall (notTimer (nextTimerId s)) es ->
          let s' := fst (run cfg es (snd (fst r))) in
          (later < now + 2000 -> fireTimer cfg later (nextTimerId s) s' = (s', []))
          /\ (now + 2000 <= later ->
              snd (fireTimer cfg later (nextTimerId s) s')
              = if isListening s then [E_updateStatus listening] else []))
    /\ (timersFresh s -> recordingTimerOld s ->
        continuousMonitoring s = true -> isInterrupted s || shouldInterrupt s = false ->
        forall (cfg : Config) (es : list Event) (later : Z),
          Forall (notTimer (S (nextTimerId s))) es ->
          let s' := fst (run cfg es (snd (fst r))) in
          (later < now + 1000 -> fireTimer cfg later (S (nextTimerId s)) s' = (s', []))
          /\ (now + 1000 <= later ->
              snd (fireTimer cfg later (S (nextTimerId s)) s')
              = if negb (isInterrupted s') && negb (shouldInterrupt s')
                then [E_updateStatus listening] else [])).
Proof.
  intros now status statusText body j s Hb r.
  assert (Htimers : timersFresh s -> recordingTimerOld s ->
            pending (MkTimer (nextTimerId s) (now + 2000) StatusAfterEmpty) (snd (fst r))
            /\ isListening (snd (fst r)) = isListening s
            /\ (continuousMonitoring s = true -> isInterrupted s || shouldInterrupt s = false ->
                pending (MkTimer (S (nextTimerId s)) (now + 1000) StatusAfterProcessing)
                        (snd (fst r))))
    by (intros Hf Ho; exact (@blank_transcript_timers now status statusText body j s Hb Hf Ho)).
  assert (Hfirst :
    fst (fst r) = ProcessDone
    /\ (forall q c, ~ In (E_fetchChat q c) (snd r))
    /\ (forall m, ~ In (E_showError m) (snd r))
    /\ conversation (snd (fst r)) = conversation s
    /\ isProcessing (snd (fst r)) = false
    /\ isRecording (snd (fst r)) = isRecording s
    /\ continuousMonitoring (snd (fst r)) = continuousMonitoring s
    /\ isListening (snd (fst r)) = isListening s
    /\ In (E_updateStatus ready) (snd r)
    /\ In (MkTimer (nextTimerId s) (now + 2000) StatusAfterEmpty)
          (timers (snd (fst r)))).
  { subst r.
    unfold processAudio_onSTT, callSTTAPI_result. simpl. rewrite Hb. simpl.
    unfold processAudio_finally, setTimeout. simpl.
    destruct (isInterrupted s || shouldInterrupt s).
    - match goal with |- context [executeGlobalInterrupt now ?x] =>
        destruct (executeGlobalInterrupt now x) as [s1 tr1] eqn:E end.
      pose proof E as F. apply executeGlobalInterrupt_frame in F.
      apply executeGlobalInterrupt_quiet in E. destruct E as (Q1 & Q2 & Q3).
      unfold sameLoop in F. simpl in *. destruct_ands.
      repeat split; auto.
      + intros q c [Hin|Hin]; [discriminate|]. apply Q3 in Hin.
        destruct Hin as [(x & Hin)|[(x & Hin)|Hin]]; discriminate.
      + intros m [Hin|Hin]; [discriminate|]. apply Q3 in Hin.
        destruct Hin as [(x & Hin)|[(x & Hin)|Hin]]; discriminate.
      + match goal with Ht : timers s1 = _ |- _ => rewrite Ht end.
        rewrite !in_app_iff. simpl. auto.
    - destruct (continuousMonitoring s) eqn:Ecm; simpl; rewrite ?Ecm;
        repeat split; auto; try (intros ? ? [Hin|[]]; discriminate);
        try (intros ? [Hin|[]]; discriminate); rewrite ?in_app_iff; simpl; auto. }
  clearbody r.
  destruct Hfirst as (A1 & A2 & A3 & A4 & A5 & A6 & A7 & A8 & A9 & A10).
  repeat (split; [assumption|]).
  split.
  - intros Hf Ho cfg es later Hes s'.
    destruct (Htimers Hf Ho) as (P0 & L0 & _).
    destruct (@run_keeps cfg (MkTimer (nextTimerId s) (now + 2000) StatusAfterEmpty)
                es (snd (fst r)) Hes) as [K1 K2].
    fold s' in K1, K2.
    destruct (@fire_pending cfg later _ s' (K1 P0)) as [F1 F2]. simpl in F1, F2.
    split; [exact F1|].
    intros Hle. rewrite (F2 Hle). simpl.
    replace (isListening s') with (isListening s) by congruence.
    destruct (isListening s); reflexivity.
  - intros Hf Ho Hcm Hi cfg es later Hes s'.
    destruct (Htimers Hf Ho) as (_ & _ & P1). specialize (P1 Hcm Hi).
    destruct (@run_keeps cfg (MkTimer (S (nextTimerId s)) (now + 1000) StatusAfterProcessing)
                es (snd (fst r)) Hes) as [K1 K2].
    fold s' in K1, K2.
    destruct (@fire_pending cfg later _ s' (K1 P1)) as [F1 F2]. simpl in F1, F2.
    split; [exact F1|].
    intros Hle. rewrite (F2 Hle). simpl.
    destruct (negb (isInterrupted s') && negb (shouldInterrupt s')); reflexivity.
Qed.

(** C9 at the answer [{success: true, text: "  "}], received at time 0
    by the listening assistant: the timer, run at 2000 after two quiet
    ticks, puts the status back to listening. *)
Lemma C9_two_spaces_witness :
  JS.trim (JS.orElse (text (MkSTT true (Some "  ") None)) "") = ""
  /\ fst (fst (processAudio_onSTT 0 (Http true 200 "OK" "") (JsonValue (MkSTT true (Some "  ") None))
                 (set_isProcessing true (listeningState (CONFIG (Some "token"))))))
     = ProcessDone
  /\ snd (fireTimer (CONFIG (Some "token")) 2000 1
            (fst (run (CONFIG (Some "token")) [Tick 500 0%Q; Tick 1500 0%Q]
                    (snd (fst (processAudio_onSTT 0 (Http true 200 "OK" "")
                                 (JsonValue (MkSTT true (Some "  ") None))
                                 (set_isProcessing true
                                    (listeningState (CONFIG (Some "token"))))))))))
     = [E_updateStatus listening].
Proof.
  pose proof (@C9_blank_transcript_returns_to_listening 0 200 "OK" ""
                (MkSTT true (Some "  ") None)
                (set_isProcessing true (listeningState (CONFIG (Some "token")))) eq_refl)
    as H.
  split; [reflexivity|]. split; [exact (proj1 H)|].
  assert (Hf : timersFresh (set_isProcessing true (listeningState (CONFIG (Some "token")))))
    by constructor.
  assert (Ho : recordingTimerOld
                 (set_isProcessing true (listeningState (CONFIG (Some "token")))))
    by (intros id Hid; discriminate Hid).
  assert (Hes : Forall (notTimer 1) [Tick 500 0%Q; Tick 1500 0%Q])
    by (repeat constructor).
  assert (Hle : 0 + 2000 <= 2000) by lia.
  exact (proj2 (proj1 (proj2 (proj2 (proj2 (proj2 (proj2 (proj2 (proj2 (proj2 (proj2
           (proj2 H))))))))))
           Hf Ho (CONFIG (Some "token")) [Tick 500 0%Q; Tick 1500 0%Q] 2000 Hes) Hle).
Defined.

(** ** Transcription requests *)











(** ** The end marker of the chat stream *)

(** C8, as the code has it.  On the chat page a [data: ] line whose
    payload is blank or is [[DONE]] is skipped: it is not handed to
    [JSON.parse], it changes nothing and shows nothing, and the lines
    after it are processed as if it were not there.  In the assistant
    script such a line goes to [JSON.parse], whose exception is caught
    with a warning; the lines after it are processed as well. *)
Theorem C8_done_line_is_skipped :
  forall (JSON_parse : string -> option StreamData) (line : string)
         (rest : list string),
    JS.startsWith "data: " line = true ->
    (JS.trim (JS.slice 6 line) = "" \/ JS.trim (JS.slice 6 line) = "[DONE]") ->
    (forall (l : ChatPage.Local) (p : ChatPage.Page),
        ChatPage.onLine JSON_parse line l p = (false, l, p, [])
        /\ ChatPage.processLines JSON_parse (line :: rest) l p
           = ChatPage.processLines JSON_parse rest l p)
    /\ (JSON_parse (JS.slice 6 line) = None ->
        forall (v : Variant) (cb : Callbacks) (h : Handler) (s : State),
          onLine JSON_parse v cb line h s = (Next, h, s, [E_warn])
          /\ processLines JSON_parse v cb (line :: rest) h s
             = (fst (processLines JSON_parse v cb rest h s),
                E_warn :: snd (processLines JSON_parse v cb rest h s))).
Proof.
  intros parse line rest Hd Hp. split.
  - intros l p.
    assert (H : ChatPage.onLine parse line l p = (false, l, p, [])).
    { unfold ChatPage.onLine. rewrite Hd. destruct Hp as [-> | ->]; reflexivity. }
    split; [exact H|].
    simpl. rewrite H.
    destruct (ChatPage.processLines parse rest l p) as [[l2 p2] tr2]. reflexivity.
  - intros Hn v cb h s.
    assert (H : onLine parse v cb line h s = (Next, h, s, [E_warn])).
    { unfold onLine. rewrite Hd, Hn. reflexivity. }
    split; [exact H|].
    simpl. rewrite H.
    destruct (processLines parse v cb rest h s) as [[e2 s2] tr2]. reflexivity.
Qed.

(** C8 at the line [data: [DONE]]. *)
Lemma C8_done_witness :
  (JS.startsWith "data: " "data: [DONE]" = true
   /\ (JS.trim (JS.slice 6 "data: [DONE]") = ""
       \/ JS.trim (JS.slice 6 "data: [DONE]") = "[DONE]")
   /\ parseFlat (JS.slice 6 "data: [DONE]") = None)
  /\ ChatPage.onLine parseFlat "data: [DONE]" (ChatPage.MkLocal None "") recordedPage
     = (false, ChatPage.MkLocal None "", recordedPage, [])
  /\ onLine parseFlat Forced appCallbacks "data: [DONE]" (MkHandler 1 "" None)
       (listeningState (CONFIG (Some "token")))
     = (Next, MkHandler 1 "" None, listeningState (CONFIG (Some "token")), [E_warn]).
Proof.
  assert (Hp : JS.trim (JS.slice 6 "data: [DONE]") = ""
               \/ JS.trim (JS.slice 6 "data: [DONE]") = "[DONE]")
    by (right; reflexivity).
  split; [repeat split; auto|].
  split.
  - exact (proj1 (proj1 (@C8_done_line_is_skipped parseFlat "data: [DONE]" []
                           eq_refl Hp) (ChatPage.MkLocal None "") recordedPage)).
  - exact (proj1 (proj2 (@C8_done_line_is_skipped parseFlat "data: [DONE]" []
                           eq_refl Hp) eq_refl Forced appCallbacks (MkHandler 1 "" None)
                           (listeningState (CONFIG (Some "token"))))).
Defined.

(** C8 as stated fails: the line after [data: [DONE]] is parsed and
    acted upon.  On the chat page the message it carries is displayed; in
    the assistant script the answer it opens gets its message element
    and its conversation id. *)
Lemma C8_lines_after_done_are_parsed :
  ChatPage.messages
    (snd (fst (ChatPage.handleStreamResponse parseFlat
                 [ReadChunk doneThenMessage; ReadDone]
                 (ChatPage.MkLocal None "") recordedPage)))
  = [(false, "Hi")]
  /\ ChatPage.messages recordedPage = []
  /\ conversationId
       (snd (fst (onRead parseFlat Forced appCallbacks (ReadChunk doneThenStarted)
                    (MkHandler 1 "" None) (listeningState (CONFIG (Some "token"))))))
     = "c1"
  /\ conversationId (listeningState (CONFIG (Some "token"))) = "".
Proof. repeat split; vm_compute; reflexivity. Qed.

(** ** End-to-end scenarios *)

(** The loudness sequence [0,0,0.3,0.3,0.3,0,...,0] with threshold 0.2,
    three frames to confirm and ten silent frames to end: the only call
    of [startRecording] is at sample 4 and the only call of
    [stopRecording] at sample 14. *)
Lemma scenario_one_start_one_end :
  snd (run scenarioConfig (ticks scenarioSamples) (listeningState scenarioConfig))
  = [[]; []; []; [];
     [E_startRecording; E_recorderStart; E_updateStatus recording];
     []; []; []; []; []; []; []; []; [];
     [E_stopRecording; E_recorderStop; E_updateStatus processing];
     []; []; []; []; []; []].
Proof. vm_compute. reflexivity. Qed.

(** [stop()] on an idle service changes nothing and touches no element,
    and after any [stop()] a second one is such a call. *)
Lemma stop_idle_is_noop :
  forall t : TTSService.t,
    (TTSService.currentAudio t = None -> TTSService.isSpeaking t = false ->
     TTSService.audioQueue t = [] -> TTSService.stop t = (t, []))
    /\ TTSService.stop (fst (TTSService.stop t)) = (fst (TTSService.stop t), []).
Proof.
  intros t. split.
  - intros H1 H2 H3. unfold TTSService.stop. rewrite H1. destruct t; simpl in *.
    subst. reflexivity.
  - unfold TTSService.stop. destruct t as [c [a|] sp q pr un au mo]; simpl; reflexivity.
Qed.

(** The idle case at a service that was never used. *)
Lemma stop_idle_witness :
  let t := TTSService.create (TTS (CONFIG (Some "token"))) false in
  (TTSService.currentAudio t = None /\ TTSService.isSpeaking t = false
   /\ TTSService.audioQueue t = [])
  /\ TTSService.stop t = (t, []).
Proof.
  split; [repeat split|].
  exact (proj1 (@stop_idle_is_noop (TTSService.create (TTS (CONFIG (Some "token"))) false))
           eq_refl eq_refl eq_refl).
Defined.

(** The copy of the script that checks the flags, on the stream during
    which the user starts to speak: the handler ends without calling
    [speak], and the message on display is marked as interrupted. *)
Lemma guarded_stream_skips_playback :
  fst (fst (fst (interruptedStream Coordinator.Guarded))) = true
  /\ snd (fst (fst (interruptedStream Coordinator.Guarded))) = Coordinator.HandlerDone
  /\ snd (interruptedStream Coordinator.Guarded) = [[]; []; []; [E_releaseLock 1]]
  /\ conversation (snd (fst (interruptedStream Coordinator.Guarded)))
     = [MkMessage assistant "Hi [被中断]"].
Proof. repeat split; vm_compute; reflexivity. Qed.

(** A second [speak] issued while the first answer is playing pauses
    the first element before it asks for the new audio, so one element
    sounds at the end; the object URL of the paused element is never
    revoked. *)
Lemma successive_speaks_pause_the_first :
  snd successiveSpeaks
  = [[E_onStart "first answer"; E_updateStatus speaking; E_fetchTTS "first answer"];
     [E_saveAudioFile; E_audioPlay 0];
     [E_onStart "second answer"; E_updateStatus speaking; E_audioPause 0;
      E_fetchTTS "second answer"];
     [E_saveAudioFile; E_audioPlay 1]]
  /\ audibleNow (fst (fst successiveSpeaks)) = 0%nat
  /\ audibleNow (snd (fst successiveSpeaks)) = 1%nat
  /\ match ttsService (snd (fst successiveSpeaks)) with
     | Some t => map TTSService.urlRevoked (TTSService.audios t) = [false; false]
     | None => False
     end.
Proof. repeat split; vm_compute; reflexivity. Qed.

(** ** Further properties of the rolling buffer *)

Lemma ordered_snoc (l : list AudioBuffer.item) (x : AudioBuffer.item) :
  AudioBuffer.ordered l ->
  Forall (fun it => AudioBuffer.timestamp it <= AudioBuffer.timestamp x) l ->
  AudioBuffer.ordered (l ++ [x]).
Proof.
  unfold AudioBuffer.ordered.
  induction l as [|a l IH]; simpl; intros Ho Hf.
  - constructor; constructor.
  - inversion Ho; subst. inversion Hf; subst.
    constructor; [apply IH; assumption|].
    apply Forall_app. split; [assumption|]. constructor; [assumption|constructor].
Qed.

Lemma ordered_filter (f : AudioBuffer.item -> bool) (l : list AudioBuffer.item) :
  AudioBuffer.ordered l -> AudioBuffer.ordered (filter f l).
Proof.
  unfold AudioBuffer.ordered.
  induction l as [|a l IH]; simpl; intros Ho; [constructor|].
  inversion Ho; subst.
  destruct (f a); [|apply IH; assumption].
  constructor; [apply IH; assumption|].
  rewrite Forall_forall in *. intros x Hx. apply filter_In in Hx. apply H2, Hx.
Qed.

(** One callback while nothing is recorded: order and window are kept. *)
Lemma onaudioprocess_window t0 e ab :
  AudioBuffer.isRecording ab = false ->
  AudioBuffer.ordered (AudioBuffer.buffer ab) ->
  Forall (fun it => AudioBuffer.timestamp it <= t0) (AudioBuffer.buffer ab) ->
  t0 <= tAdd e -> tAdd e <= tTrim e ->
  let ab' := AudioBuffer.onaudioprocess (tAdd e) (tTrim e) (samples e) ab in
  AudioBuffer.isRecording ab' = false
  /\ AudioBuffer.bufferDuration ab' = AudioBuffer.bufferDuration ab
  /\ AudioBuffer.ordered (AudioBuffer.buffer ab')
  /\ within (tTrim e) ab'
  /\ (tTrim e - AudioBuffer.bufferDuration ab < tAdd e ->
      In (AudioBuffer.Item (samples e) (tAdd e)) (AudioBuffer.buffer ab')).
Proof.
  intros Hr Ho Hle H0 H1. unfold AudioBuffer.onaudioprocess. rewrite Hr. simpl.
  split; [assumption|]. split; [reflexivity|].
  split.
  - apply ordered_filter, ordered_snoc; [assumption|].
    simpl. eapply Forall_impl; [|exact Hle]. simpl. intros; lia.
  - split.
    + unfold within. simpl. rewrite Forall_forall. intros it Hit.
      apply filter_In in Hit. destruct Hit as [Hin Hlt].
      apply Z.ltb_lt in Hlt. split; [assumption|].
      apply in_app_or in Hin. destruct Hin as [Hin|[Hin|[]]].
      * rewrite Forall_forall in Hle. specialize (Hle _ Hin). lia.
      * subst it. simpl. lia.
    + intros Hw. apply filter_In. split; [apply in_or_app; right; left; reflexivity|].
      simpl. apply Z.ltb_lt. assumption.
Qed.

Lemma within_upper now ab :
  within now ab -> Forall (fun it => AudioBuffer.timestamp it <= now) (AudioBuffer.buffer ab).
Proof.
  unfold within. intros H. eapply Forall_impl; [|exact H]. simpl. tauto.
Qed.

(** While the recorder is idle, the buffer is a sliding window: fed by
    any sequence of [onaudioprocess] callbacks with a clock that never
    runs backwards, it stays in capture order and holds nothing captured
    [bufferDuration] milliseconds or more before the last clock
    reading. *)
Theorem buffer_is_a_sliding_window :
  forall (events : list AudioProcess) (t0 : Z) (ab : AudioBuffer.t),
    AudioBuffer.isRecording ab = false ->
    AudioBuffer.ordered (AudioBuffer.buffer ab) ->
    within t0 ab ->
    chronological t0 events ->
    AudioBuffer.isRecording (feed events ab) = false
    /\ AudioBuffer.bufferDuration (feed events ab) = AudioBuffer.bufferDuration ab
    /\ AudioBuffer.ordered (AudioBuffer.buffer (feed events ab))
    /\ within (lastClock t0 events) (feed events ab).
Proof.
  induction events as [|e r IH]; intros t0 ab Hr Ho Hw Hc.
  - simpl. auto.
  - simpl in Hc. destruct Hc as (H0 & H1 & Hc).
    destruct (@onaudioprocess_window t0 e ab Hr Ho (within_upper Hw) H0 H1)
      as (Hr' & Hd' & Ho' & Hw' & _).
    unfold feed in *. simpl.
    destruct (IH (tTrim e) _ Hr' Ho' Hw' Hc) as (A & B & C & D).
    repeat split; try assumption. congruence.
Qed.

(** A fresh buffer of 3000 ms fed at 1000 ms, 2500 ms and 4200 ms. *)
Lemma buffer_window_witness :
  let events := [MkAudioProcess 1000 1000 []; MkAudioProcess 2500 2501 [];
                 MkAudioProcess 4200 4200 []] in
  AudioBuffer.isRecording (feed events AudioBuffer.default) = false
  /\ AudioBuffer.bufferDuration (feed events AudioBuffer.default) = 3000
  /\ AudioBuffer.ordered (AudioBuffer.buffer (feed events AudioBuffer.default))
  /\ within 4200 (feed events AudioBuffer.default).
Proof.
  apply (@buffer_is_a_sliding_window
           [MkAudioProcess 1000 1000 []; MkAudioProcess 2500 2501 [];
            MkAudioProcess 4200 4200 []] 0 AudioBuffer.default).
  - reflexivity.
  - constructor.
  - constructor.
  - simpl. lia.
Defined.

(** The chunk just delivered is in the buffer whenever the two clock
    readings of its callback are less than [bufferDuration] apart. *)
Lemma newest_chunk_is_buffered e ab :
  AudioBuffer.isRecording ab = false ->
  tTrim e - AudioBuffer.bufferDuration ab < tAdd e ->
  In (AudioBuffer.Item (samples e) (tAdd e))
     (AudioBuffer.buffer (AudioBuffer.onaudioprocess (tAdd e) (tTrim e) (samples e) ab)).
Proof.
  intros Hr Hw. unfold AudioBuffer.onaudioprocess. rewrite Hr. simpl.
  apply filter_In. split; [apply in_or_app; right; left; reflexivity|].
  simpl. apply Z.ltb_lt. assumption.
Qed.

Lemma feed_recording events ab :
  AudioBuffer.isRecording ab = true -> feed events ab = ab.
Proof.
  unfold feed. induction events as [|e r IH]; intros Hr; simpl; [reflexivity|].
  unfold AudioBuffer.onaudioprocess at 2. rewrite Hr. simpl. apply IH, Hr.
Qed.

(** Recording freezes the buffer.  Between [startRecording] and
    [stopRecording] no [onaudioprocess] callback changes it, so
    [stopRecording] returns the buffer exactly as it stood when the
    recording began, whatever [fromTimestamp] was; the entries
    [startRecording] returned are among them, in order; with a
    [fromTimestamp] of [null] or [0] it returns none. *)
Theorem recording_freezes_the_buffer :
  forall (from : option Z) (events : list AudioProcess) (ab : AudioBuffer.t),
    feed events (fst (AudioBuffer.startRecording from ab))
    = fst (AudioBuffer.startRecording from ab)
    /\ snd (AudioBuffer.stopRecording
              (feed events (fst (AudioBuffer.startRecording from ab))))
       = AudioBuffer.buffer ab
    /\ AudioBuffer.isRecording
         (fst (AudioBuffer.stopRecording
                 (feed events (fst (AudioBuffer.startRecording from ab))))) = false
    /\ subseq (snd (AudioBuffer.startRecording from ab)) (AudioBuffer.buffer ab)
    /\ (JS.truthyTime from = false -> snd (AudioBuffer.startRecording from ab) = []).
Proof.
  intros from events ab.
  assert (Hrec : AudioBuffer.isRecording (fst (AudioBuffer.startRecording from ab)) = true).
  { unfold AudioBuffer.startRecording. destruct from as [ts|]; [|reflexivity].
    destruct (JS.truthyTime (Some ts)); reflexivity. }
  assert (Hbuf : AudioBuffer.buffer (fst (AudioBuffer.startRecording from ab))
                 = AudioBuffer.buffer ab).
  { unfold AudioBuffer.startRecording. destruct from as [ts|]; [|reflexivity].
    destruct (JS.truthyTime (Some ts)); reflexivity. }
  rewrite (@feed_recording events _ Hrec).
  split; [reflexivity|]. split; [exact Hbuf|]. split; [reflexivity|].
  split.
  - unfold AudioBuffer.startRecording. destruct from as [ts|].
    + destruct (JS.truthyTime (Some ts)); simpl.
      * apply filter_subseq.
      * clear. induction (AudioBuffer.buffer ab); constructor; assumption.
    + simpl. clear. induction (AudioBuffer.buffer ab); constructor; assumption.
  - intros Hf. unfold AudioBuffer.startRecording. destruct from as [ts|]; [|reflexivity].
    rewrite Hf. reflexivity.
Qed.

(** ** The recording time-out *)

Lemma NoDup_snoc {A : Type} (l : list A) (x : A) :
  NoDup l -> ~ In x l -> NoDup (l ++ [x]).
Proof.
  induction l as [|a l IH]; simpl; intros Hn Hx.
  - constructor; [intros []|constructor].
  - inversion Hn; subst. constructor.
    + intros Hin. apply in_app_or in Hin. destruct Hin as [Hin|[Hin|[]]]; [auto|].
      subst. apply Hx. left. reflexivity.
    + apply IH; [assumption|]. intros Hin. apply Hx. right. assumption.
Qed.

Lemma NoDup_map_filter {A B : Type} (g : A -> B) (f : A -> bool) (l : list A) :
  NoDup (map g l) -> NoDup (map g (filter f l)).
Proof.
  induction l as [|a l IH]; simpl; intros Hn; [constructor|].
  inversion Hn; subst. destruct (f a); simpl; [|auto].
  constructor; [|auto]. intros Hin. apply H1.
  apply in_map_iff in Hin. destruct Hin as (y & Hy & Hin).
  apply filter_In in Hin. apply in_map_iff. exists y. tauto.
Qed.

Lemma fresh_not_in ts next :
  Forall (fun t => (timerId t <> 0 /\ timerId t < next)%nat) ts ->
  ~ In next (map timerId ts).
Proof.
  intros Hf Hin. apply in_map_iff in Hin. destruct Hin as (t & Ht & Hin).
  rewrite Forall_forall in Hf. specialize (Hf _ Hin). lia.
Qed.

Lemma fresh_succ ts next :
  Forall (fun t => (timerId t <> 0 /\ timerId t < next)%nat) ts ->
  Forall (fun t => (timerId t <> 0 /\ timerId t < S next)%nat) ts.
Proof.
  intros Hf. eapply Forall_impl; [|exact Hf]. simpl. intros t [A B]. lia.
Qed.

(** A timer with another callback is added. *)
Lemma view_add ts next rec mr rt d cb :
  consistentView ts next rec mr rt ->
  cb <> RecordingTimeout ->
  consistentView (ts ++ [MkTimer next d cb]) (S next) rec mr rt.
Proof.
  unfold consistentView. intros (H0 & Hf & Hn & Hr & Hp) Hcb.
  split; [discriminate|].
  split.
  { apply Forall_app. split; [apply fresh_succ, Hf|].
    constructor; [|constructor]. simpl. lia. }
  split.
  { rewrite map_app. simpl. apply NoDup_snoc; [assumption|apply fresh_not_in, Hf]. }
  split; [assumption|].
  intros t Hin Hc. apply in_app_or in Hin. destruct Hin as [Hin|[Hin|[]]].
  - apply Hp; assumption.
  - subst t. simpl in Hc. contradiction.
Qed.

(** A recording starts. *)
Lemma view_start ts next mr rt d :
  consistentView ts next false mr rt ->
  consistentView (ts ++ [MkTimer next d RecordingTimeout]) (S next) true
    (Some true) (Some next).
Proof.
  unfold consistentView. intros (H0 & Hf & Hn & Hr & Hp).
  split; [discriminate|].
  split.
  { apply Forall_app. split; [apply fresh_succ, Hf|].
    constructor; [|constructor]. simpl. lia. }
  split.
  { rewrite map_app. simpl. apply NoDup_snoc; [assumption|apply fresh_not_in, Hf]. }
  split; [reflexivity|].
  intros t Hin Hc. apply in_app_or in Hin. destruct Hin as [Hin|[Hin|[]]].
  - destruct (Hp _ Hin Hc) as [A _]. discriminate A.
  - subst t. simpl. auto.
Qed.

(** Timers are removed. *)
Lemma view_filter f ts next rec mr rt :
  consistentView ts next rec mr rt ->
  consistentView (filter f ts) next rec mr rt.
Proof.
  unfold consistentView. intros (H0 & Hf & Hn & Hr & Hp).
  split; [assumption|].
  split.
  { rewrite Forall_forall in *. intros t Ht. apply filter_In in Ht. apply Hf, Ht. }
  split; [apply NoDup_map_filter, Hn|].
  split; [assumption|].
  intros t Hin Hc. apply filter_In in Hin. apply Hp; tauto.
Qed.

(** Nothing is being recorded: the recorder and [recordingTimer] may be
    anything. *)
Lemma view_idle ts next rec mr rt mr' rt' :
  consistentView ts next rec mr rt ->
  rec = false ->
  consistentView ts next false mr' rt'.
Proof.
  unfold consistentView. intros (H0 & Hf & Hn & Hr & Hp) Hrec. subst rec.
  repeat split; try assumption; try discriminate.
  - destruct (Hp _ H H1) as [A _]. discriminate A.
  - destruct (Hp _ H H1) as [A _]. discriminate A.
Qed.

(** A recording stops with its time-out cleared. *)
Lemma view_stop ts next mr id mr' rt' :
  consistentView ts next true mr (Some id) ->
  consistentView (filter (fun t => negb (timerId t =? id)%nat) ts) next false mr' rt'.
Proof.
  unfold consistentView. intros (H0 & Hf & Hn & Hr & Hp).
  split; [assumption|].
  split.
  { rewrite Forall_forall in *. intros t Ht. apply filter_In in Ht. apply Hf, Ht. }
  split; [apply NoDup_map_filter, Hn|].
  split; [discriminate|].
  intros t Hin Hc. apply filter_In in Hin. destruct Hin as [Hin Hne].
  destruct (Hp _ Hin Hc) as [_ A]. inversion A; subst.
  rewrite Nat.eqb_refl in Hne. discriminate Hne.
Qed.

(** No time-out is pending although a recording is in progress: it has
    fired. *)
Lemma view_stop_fired ts next mr rt mr' rt' :
  consistentView ts next true mr rt ->
  (forall t, In t ts -> callback t <> RecordingTimeout) ->
  consistentView ts next false mr' rt'.
Proof.
  unfold consistentView. intros (H0 & Hf & Hn & Hr & Hp) Hno.
  repeat split; try assumption; try discriminate.
  - elim (Hno _ H H1).
  - elim (Hno _ H H1).
Qed.

Lemma startRecording_consistent cfg now s :
  recorderConsistent s -> recorderConsistent (fst (startRecording cfg now s)).
Proof.
  unfold recorderConsistent, startRecording, setTimeout. intros H.
  destruct (isRecording s) eqn:Hr; [simpl; rewrite Hr; exact H|].
  destruct (mediaRecorder s) as [[|]|] eqn:Hm.
  - destruct (audioBuffer s) as [ab|]; [destruct (JS.truthyTime (voiceStartTime s))|];
      simpl; (eapply view_idle; [exact H|reflexivity]).
  - destruct (audioBuffer s) as [ab|]; [destruct (JS.truthyTime (voiceStartTime s))|];
      simpl; (eapply view_start; exact H).
  - simpl. rewrite Hr, Hm. exact H.
Qed.

Lemma stopRecording_consistent s :
  recorderConsistent s -> recorderConsistent (fst (stopRecording s)).
Proof.
  unfold recorderConsistent, stopRecording, clearTimeout. intros H.
  destruct (isRecording s) eqn:Hr; [|simpl; rewrite Hr; exact H].
  assert (Hm : mediaRecorder s = Some true) by (apply H; reflexivity).
  simpl.
  destruct (audioBuffer s) as [ab|]; simpl; rewrite Hm; simpl.
  all: destruct (recordingTimer s) as [id|] eqn:Ht; simpl.
  all: try (destruct (id =? 0)%nat eqn:Hz; simpl).
  all: try (eapply view_stop; exact H).
  all: eapply view_stop_fired; [exact H|].
  all: intros t Hin Hc; destruct H as (_ & Hf & _ & _ & Hp);
    destruct (Hp _ Hin Hc) as [_ A]; try discriminate A.
  all: inversion A; subst; rewrite Forall_forall in Hf; specialize (Hf _ Hin);
    apply Nat.eqb_eq in Hz; lia.
Qed.

Lemma ttsStop_consistent s :
  recorderConsistent s -> recorderConsistent (fst (ttsStop s)).
Proof.
  unfold recorderConsistent, ttsStop. intros H.
  destruct (ttsService s) as [t|]; [|exact H].
  destruct (TTSService.stop t). exact H.
Qed.

Lemma executeGlobalInterrupt_consistent now s :
  recorderConsistent s -> recorderConsistent (fst (executeGlobalInterrupt now s)).
Proof.
  intros H. unfold executeGlobalInterrupt, setTimeout.
  set (s1 := set_shouldInterrupt false (set_isInterrupted true s)).
  assert (H1 : recorderConsistent s1) by exact H.
  destruct (currentStreamReader s1) as [r|].
  - set (s2 := set_currentStreamReader None _).
    assert (H2 : recorderConsistent s2) by exact H1.
    destruct (ttsSpeaking s2).
    + pose proof (ttsStop_consistent H2) as H3.
      destruct (ttsStop s2) as [s3 tr]. simpl in *.
      unfold recorderConsistent. simpl. apply view_add; [exact H3|discriminate].
    + unfold recorderConsistent. simpl. apply view_add; [exact H2|discriminate].
  - destruct (ttsSpeaking s1).
    + pose proof (ttsStop_consistent H1) as H3.
      destruct (ttsStop s1) as [s3 tr]. simpl in *.
      unfold recorderConsistent. simpl. apply view_add; [exact H3|discriminate].
    + unfold recorderConsistent. simpl. apply view_add; [exact H1|discriminate].
Qed.

Lemma clearTimeout_consistent id s :
  recorderConsistent s -> recorderConsistent (clearTimeout id s).
Proof.
  unfold recorderConsistent, clearTimeout. simpl. apply view_filter.
Qed.

Lemma fireTimer_consistent cfg now id s :
  recorderConsistent s -> recorderConsistent (fst (fireTimer cfg now id s)).
Proof.
  intros H. unfold fireTimer.
  destruct (find _ (timers s)) as [t|]; [|exact H].
  destruct (deadline t <=? now); [|exact H].
  pose proof (@clearTimeout_consistent id s H) as H1.
  unfold runCallback. destruct (callback t).
  - destruct (isRecording (clearTimeout id s)); [|exact H1].
    apply stopRecording_consistent, H1.
  - set (s1 := set_isInterrupted false (clearTimeout id s)).
    assert (H2 : recorderConsistent s1) by exact H1.
    destruct (_ && _); [|exact H2]. apply startRecording_consistent, H2.
  - destruct (isListening (clearTimeout id s)); exact H1.
  - destruct (_ && _); exact H1.
Qed.

Lemma voiceBranch_consistent cfg now s :
  recorderConsistent s -> recorderConsistent (fst (voiceBranch cfg now s)).
Proof.
  intros H. unfold voiceBranch.
  set (s1 := set_consecutiveSilenceFrames 0 _).
  assert (H1 : recorderConsistent s1) by exact H.
  set (s2 := if consecutiveVoiceFrames s1 =? 1 then _ else s1).
  assert (H2 : recorderConsistent s2).
  { subst s2. destruct (consecutiveVoiceFrames s1 =? 1); [|exact H1].
    destruct (JS.truthyTime (voiceStartTime s1)); destruct (_ || _); exact H1. }
  clearbody s2. clear H1 s1.
  destruct (_ && _); [|exact H2].
  destruct (ttsSpeaking s2).
  - pose proof (ttsStop_consistent H2) as H3.
    destruct (ttsStop s2) as [a tr1]. simpl in H3.
    pose proof (@startRecording_consistent cfg now a H3) as H4.
    destruct (startRecording cfg now a) as [b tr2]. exact H4.
  - pose proof (@startRecording_consistent cfg now s2 H2) as H4.
    destruct (startRecording cfg now s2) as [b tr2]. exact H4.
Qed.

Lemma silenceBranch_consistent cfg s :
  recorderConsistent s -> recorderConsistent (fst (silenceBranch cfg s)).
Proof.
  intros H. unfold silenceBranch.
  set (s1 := set_consecutiveVoiceFrames 0 _).
  assert (H1 : recorderConsistent s1) by exact H.
  set (s2 := if _ && _ then _ else s1).
  assert (H2 : recorderConsistent s2).
  { subst s2. destruct (_ && _); exact H1. }
  clearbody s2. clear H1 s1.
  destruct (_ && _); [|exact H2].
  pose proof (stopRecording_consistent H2) as H3.
  destruct (stopRecording s2) as [a tr]. exact H3.
Qed.

Lemma checkVoiceLevel_consistent cfg now v s :
  recorderConsistent s -> recorderConsistent (fst (checkVoiceLevel cfg now v s)).
Proof.
  intros H. unfold checkVoiceLevel.
  destruct (negb (continuousMonitoring s)); [exact H|].
  assert (H1 : recorderConsistent
                 (fst (if shouldInterrupt s && (isProcessing s || ttsSpeaking s)
                       then executeGlobalInterrupt now s else (s, [])))).
  { destruct (_ && _); [apply executeGlobalInterrupt_consistent, H|exact H]. }
  destruct (if shouldInterrupt s && _ then _ else _) as [s1 tr1]. simpl in H1.
  destruct (JS.gt v (VOICE_DETECTION_THRESHOLD cfg)).
  - pose proof (@voiceBranch_consistent cfg now s1 H1) as H2.
    destruct (voiceBranch cfg now s1) as [s2 tr2]. exact H2.
  - pose proof (@silenceBranch_consistent cfg s1 H1) as H2.
    destruct (silenceBranch cfg s1) as [s2 tr2]. exact H2.
Qed.

Lemma step_consistent cfg e s :
  recorderConsistent s -> recorderConsistent (fst (step cfg e s)).
Proof.
  destruct e; simpl; [apply checkVoiceLevel_consistent|apply fireTimer_consistent].
Qed.

Lemma run_consistent cfg es :
  forall s, recorderConsistent s -> recorderConsistent (fst (run cfg es s)).
Proof.
  induction es as [|e r IH]; intros s H; [exact H|].
  rewrite run_cons. simpl. apply IH, step_consistent, H.
Qed.

Lemma filter_timeouts_le_one ts next rec mr rt :
  consistentView ts next rec mr rt ->
  (List.length (filter isRecordingTimeout ts) <= 1)%nat
  /\ (rec = false -> filter isRecordingTimeout ts = []).
Proof.
  intros (H0 & Hf & Hn & Hr & Hp).
  assert (Hall : forall t, In t (filter isRecordingTimeout ts) ->
                   rec = true /\ rt = Some (timerId t)).
  { intros t Ht. apply filter_In in Ht. destruct Ht as [Hin Hc].
    apply Hp; [assumption|]. unfold isRecordingTimeout in Hc.
    destruct (callback t); try discriminate; reflexivity. }
  assert (Hnd : NoDup (map timerId (filter isRecordingTimeout ts)))
    by (apply NoDup_map_filter, Hn).
  split.
  - destruct (filter isRecordingTimeout ts) as [|a [|b l]]; simpl; try lia.
    exfalso. destruct (Hall a) as [_ A]; [simpl; auto|].
    destruct (Hall b) as [_ B]; [simpl; auto|].
    rewrite A in B. inversion B as [Hab].
    simpl in Hnd. inversion Hnd as [|x l0 Hx Hl]; subst. apply Hx. left. symmetry. exact Hab.
  - intros Hrec. destruct (filter isRecordingTimeout ts) as [|a l]; [reflexivity|].
    destruct (Hall a) as [A _]; [simpl; auto|]. congruence.
Qed.

(** At most one recording time-out is pending, and none while nothing is
    being recorded.  From a state in which the recorder and its time-out
    agree ([recorderConsistent]), whatever detection ticks and timer
    callbacks run, in any order and at any times, they agree again
    afterwards: so the time-out of a recording that has ended is never
    left behind to cut a later recording short. *)
Theorem one_recording_timeout_at_most :
  forall (cfg : Config) (es : list Event) (s : State),
    recorderConsistent s ->
    recorderConsistent (fst (run cfg es s))
    /\ (List.length (filter isRecordingTimeout (timers (fst (run cfg es s)))) <= 1)%nat
    /\ (isRecording (fst (run cfg es s)) = false ->
        filter isRecordingTimeout (timers (fst (run cfg es s))) = []).
Proof.
  intros cfg es s H.
  pose proof (@run_consistent cfg es s H) as H1.
  split; [exact H1|]. eapply filter_timeouts_le_one. exact H1.
Qed.

(** The assistant right after initialisation, through a first utterance
    that is ended by its time-out. *)
Lemma one_recording_timeout_witness :
  let cfg := CONFIG (Some "token") in
  let es := ticks (stamped 1000 [1 # 2; 1 # 2; 1 # 2]) ++ [Fire 11020 1%nat] in
  recorderConsistent (fst (run cfg es (listeningState cfg)))
  /\ (List.length (filter isRecordingTimeout (timers (fst (run cfg es (listeningState cfg)))))
      <= 1)%nat
  /\ (isRecording (fst (run cfg es (listeningState cfg))) = false ->
      filter isRecordingTimeout (timers (fst (run cfg es (listeningState cfg)))) = []).
Proof.
  apply (@one_recording_timeout_at_most (CONFIG (Some "token"))
           (ticks (stamped 1000 [1 # 2; 1 # 2; 1 # 2]) ++ [Fire 11020 1%nat])
           (listeningState (CONFIG (Some "token")))).
  unfold recorderConsistent, consistentView. simpl.
  split; [discriminate|]. split; [apply Forall_nil|]. split; [apply NoDup_nil|].
  split; [discriminate|]. intros t [].
Defined.

(** ** The TTS service: switches, queue and retries *)

Lemma trim_truthy s : JS.truthy (JS.trim s) = true -> JS.truthy s = true.
Proof.
  destruct s; [|reflexivity]. intros H. vm_compute in H. discriminate H.
Qed.

Lemma speak_runs cb text s t :
  ttsService s = Some t -> speakable t text ->
  speak cb (Some text) s = speak_body cb text s.
Proof.
  intros Hs (He & Hb & Hk & Hm). unfold speak. rewrite Hs, He. simpl.
  rewrite (trim_truthy _ Hb), Hb, Hk. simpl.
  destruct Hm as [Hm|Hm]; rewrite Hm; simpl; rewrite ?andb_false_r; reflexivity.
Qed.

Lemma speak_finished_same cb text s r s' tr :
  speak cb text s = (Finished r, s', tr) -> s' = s /\ tr = [].
Proof.
  unfold speak, speak_body.
  destruct (ttsService s) as [t|]; [|intros E; inversion E; auto].
  destruct (negb _); [intros E; inversion E; auto|].
  destruct text as [txt|]; [|intros E; inversion E; auto].
  destruct (JS.blank _); [intros E; inversion E; auto|].
  destruct (negb _); [intros E; inversion E; auto|].
  destruct (_ && _); [intros E; inversion E|].
  destruct (callOnStart _ _ _) as [s2 tr1]. destruct (ttsStop s2) as [s3 tr2].
  intros E; inversion E.
Qed.

Lemma nth_error_updAudio_same f l a :
  nth_error (TTSService.updAudio a f l) a = option_map f (nth_error l a).
Proof.
  revert a. induction l as [|x l IH]; intros [|a]; simpl; auto.
Qed.

Lemma nth_error_updAudio_other f l a b :
  b <> a -> nth_error (TTSService.updAudio a f l) b = nth_error l b.
Proof.
  revert a b. induction l as [|x l IH]; intros [|a] [|b] H; simpl; auto; congruence.
Qed.

(** [speak] always silences the element that is current before it asks
    for the new audio.  For a call that passes the guards, on a service
    whose current element is [a], with the callbacks the assistant
    registers: [a.pause()] comes before the TTS request, [a] is paused
    afterwards and no other element is touched, its object URL is not
    revoked, and the service has neither a current element nor a queue
    left.  This holds whatever the interrupt flags are: when they are
    set, [onStart] stops the playback itself, and the request is sent all
    the same. *)
Theorem speak_silences_the_current_element :
  forall (text : string) (s : State) (t : TTSService.t) (a : nat),
    ttsService s = Some t ->
    speakable t text ->
    TTSService.currentAudio t = Some a ->
    exists s' t' tr1 tr2,
      speak appCallbacks (Some text) s
      = (Suspended (AwaitFetch text), s', tr1 ++ E_audioPause a :: tr2 ++ [E_fetchTTS text])
      /\ ttsService s' = Some t'
      /\ TTSService.paused a t' = true
      /\ (forall b, b <> a ->
            nth_error (TTSService.audios t') b = nth_error (TTSService.audios t) b)
      /\ option_map TTSService.urlRevoked (nth_error (TTSService.audios t') a)
         = option_map TTSService.urlRevoked (nth_error (TTSService.audios t) a)
      /\ TTSService.currentAudio t' = None
      /\ TTSService.isSpeaking t' = false
      /\ TTSService.audioQueue t' = []
      /\ TTSService.isProcessing t' = true
      /\ (forall x, ~ In (E_revokeObjectURL x) (tr1 ++ E_audioPause a :: tr2)).
Proof.
  intros text s t a Hs Hok Ha.
  rewrite (speak_runs appCallbacks s Hs Hok).
  unfold speak_body, updTTS, callOnStart, appCallbacks, appOnStart, ttsStop,
    TTSService.stop, clearFlags. simpl. rewrite Hs. simpl.
  assert (Hp : forall l, match nth_error (TTSService.updAudio a TTSService.pauseAudio l) a with
                         | Some x => negb (TTSService.playing x)
                         | None => true
                         end = true).
  { intros l. rewrite nth_error_updAudio_same. destruct (nth_error l a); reflexivity. }
  assert (Hu : forall l, option_map TTSService.urlRevoked
                           (nth_error (TTSService.updAudio a TTSService.pauseAudio l) a)
                         = option_map TTSService.urlRevoked (nth_error l a)).
  { intros l. rewrite nth_error_updAudio_same. destruct (nth_error l a); reflexivity. }
  destruct (isInterrupted s || shouldInterrupt s) eqn:Hi; simpl; rewrite Ha; simpl.
  - eexists _, _, [E_onStart text], []. simpl.
    split; [reflexivity|]. split; [reflexivity|]. unfold TTSService.paused. simpl.
    split; [apply Hp|]. split; [intros b Hb; apply nth_error_updAudio_other, Hb|].
    split; [apply Hu|]. repeat split.
    intros x [H|[H|[]]]; discriminate H.
  - eexists _, _, [E_onStart text; E_updateStatus speaking], []. simpl.
    split; [reflexivity|]. split; [reflexivity|]. unfold TTSService.paused. simpl.
    split; [apply Hp|]. split; [intros b Hb; apply nth_error_updAudio_other, Hb|].
    split; [apply Hu|]. repeat split.
    intros x [H|[H|[H|[]]]]; discriminate H.
Qed.

(** A second answer is spoken while element 0 plays the first. *)
Lemma speak_silences_witness :
  exists s' t' tr1 tr2,
    speak appCallbacks (Some "next") playingState
    = (Suspended (AwaitFetch "next"), s', tr1 ++ E_audioPause 0 :: tr2 ++ [E_fetchTTS "next"])
    /\ ttsService s' = Some t'
    /\ TTSService.paused 0 t' = true
    /\ (forall b, b <> 0%nat ->
          nth_error (TTSService.audios t') b = nth_error (TTSService.audios playingService) b)
    /\ option_map TTSService.urlRevoked (nth_error (TTSService.audios t') 0)
       = option_map TTSService.urlRevoked (nth_error (TTSService.audios playingService) 0)
    /\ TTSService.currentAudio t' = None
    /\ TTSService.isSpeaking t' = false
    /\ TTSService.audioQueue t' = []
    /\ TTSService.isProcessing t' = true
    /\ (forall x, ~ In (E_revokeObjectURL x) (tr1 ++ E_audioPause 0 :: tr2)).
Proof.
  apply (@speak_silences_the_current_element "next" playingState playingService 0%nat).
  - reflexivity.
  - unfold speakable. simpl. auto.
  - reflexivity.
Defined.

(** *** Retries of the playback *)

Lemma updAudio_last f l x :
  TTSService.updAudio (List.length l) f (l ++ [x]) = l ++ [f x].
Proof.
  induction l as [|y l IH]; simpl; [reflexivity|]. f_equal. exact IH.
Qed.









Lemma countEffects_app f a b :
  countEffects f (a ++ b) = (countEffects f a + countEffects f b)%nat.
Proof.
  unfold countEffects. rewrite filter_app, length_app. reflexivity.
Qed.



(** A TTS answer of zero bytes is never played: no [Audio] element is
    created for it; the retry loop still pauses 500 ms and 1000 ms before
    [speak] rejects with the error of the empty blob, [onError] being
    invoked once; with [saveAudioFiles] on, the empty file is offered for
    download first. *)
Theorem empty_audio_is_never_played :
  forall (text : string) (s : State) (t : TTSService.t),
    ttsService s = Some t ->
    exists s' t' trs,
      speakRun appCallbacks (Suspended (AwaitFetch text))
        [FetchSettled (TTSBlob (MkBlob 0)); RetryDue; RetryDue] s
      = (Finished (Rejected (Error "音频数据无效或为空")), s', trs)
      /\ countEffects isAudioPlay (List.concat trs) = 0%nat
      /\ filter isSleep (List.concat trs) = [E_sleep 500; E_sleep 1000]
      /\ countEffects isOnError (List.concat trs) = 1%nat
      /\ (TTSService.saveAudioFiles (TTSService.config t) = true ->
          In E_saveAudioFile (List.concat trs))
      /\ ttsService s' = Some t'
      /\ TTSService.audios t' = TTSService.audios t
      /\ TTSService.isProcessing t' = false.
Proof.
  intros text s t Hs.
  unfold speakRun, speak_resume, speak_onFetch, speak_onRetry, playAttempt, playFailed,
    speak_fail, callOnError, appCallbacks, appOnError, clearFlags, updTTS, playRetries.
  simpl. repeat first [rewrite Hs | rewrite andb_false_r | progress simpl].
  eexists _, _, _. split; [reflexivity|]. simpl.
  unfold countEffects.
  destruct (TTSService.saveAudioFiles (TTSService.config t)),
    (continuousMonitoring s); simpl; repeat split; auto; try (intros; discriminate).
Qed.

(** The assistant's service receives an empty answer. *)
Lemma empty_audio_witness :
  exists s' t' trs,
    speakRun appCallbacks (Suspended (AwaitFetch "Hi"))
      [FetchSettled (TTSBlob (MkBlob 0)); RetryDue; RetryDue]
      (listeningState (CONFIG (Some "token")))
    = (Finished (Rejected (Error "音频数据无效或为空")), s', trs)
    /\ countEffects isAudioPlay (List.concat trs) = 0%nat
    /\ filter isSleep (List.concat trs) = [E_sleep 500; E_sleep 1000]
    /\ countEffects isOnError (List.concat trs) = 1%nat
    /\ (TTSService.saveAudioFiles
          (TTSService.config (TTSService.create (ttsOptions (Some "token")) false)) = true ->
        In E_saveAudioFile (List.concat trs))
    /\ ttsService s' = Some t'
    /\ TTSService.audios t'
       = TTSService.audios (TTSService.create (ttsOptions (Some "token")) false)
    /\ TTSService.isProcessing t' = false.
Proof.
  apply (@empty_audio_is_never_played "Hi" (listeningState (CONFIG (Some "token")))
           (TTSService.create (ttsOptions (Some "token")) false)).
  reflexivity.
Defined.

Lemma nth_error_snoc {A : Type} (l : list A) (x : A) (n : nat) :
  n = List.length l -> nth_error (l ++ [x]) n = Some x.
Proof.
  intros ->. rewrite nth_error_app2, Nat.sub_diag by lia. reflexivity.
Qed.

(** An answer spoken to its end leaves the service idle.  A call of
    [speak] that passes the guards, its audio fetched and played to the
    end: one TTS request and one [play()] are issued, [speak] resolves,
    and afterwards [isProcessing], [isSpeaking], [currentAudio] and the
    queue are clear, the element created has ended with its object URL
    revoked, both interrupt flags are clear and the status shown last is
    that of listening (or ready when monitoring is off).  The interrupt
    flags at the time of the call make no difference: [onStart] then
    stops the previous playback, and the new answer is fetched and played
    all the same. *)
Theorem spoken_answer_leaves_service_idle :
  forall (text : string) (b : Blob) (s : State) (t : TTSService.t),
    ttsService s = Some t ->
    speakable t text ->
    blobSize b <> 0 ->
    exists pc s1 tr1 s' t' trs,
      speak appCallbacks (Some text) s = (Suspended pc, s1, tr1)
      /\ speakRun appCallbacks (Suspended pc)
           [FetchSettled (TTSBlob b); PlaySettled Ended] s1
         = (Finished Resolved, s', trs)
      /\ countEffects isFetchTTS (tr1 ++ List.concat trs) = 1%nat
      /\ countEffects isAudioPlay (tr1 ++ List.concat trs) = 1%nat
      /\ last (tr1 ++ List.concat trs) E_warn
         = E_updateStatus (if continuousMonitoring s then listening else ready)
      /\ ttsService s' = Some t'
      /\ TTSService.isProcessing t' = false
      /\ TTSService.isSpeaking t' = false
      /\ TTSService.currentAudio t' = None
      /\ TTSService.audioQueue t' = []
      /\ nth_error (TTSService.audios t') (List.length (TTSService.audios t))
         = Some (TTSService.MkAudio false true)
      /\ isInterrupted s' = false
      /\ shouldInterrupt s' = false.
Proof.
  intros text b s t Hs Hok Hb. apply Z.eqb_neq in Hb.
  rewrite (speak_runs appCallbacks s Hs Hok).
  assert (Hlen : forall a f, List.length (TTSService.updAudio a f (TTSService.audios t))
                             = List.length (TTSService.audios t)).
  { intros a f. revert a. induction (TTSService.audios t) as [|x l IH]; intros [|a];
      simpl; auto. }
  destruct (isInterrupted s || shouldInterrupt s) eqn:Hi;
    destruct (TTSService.currentAudio t) as [a|] eqn:Ha.
  all: unfold speak_body, updTTS, callOnStart, appCallbacks, appOnStart, ttsStop,
         TTSService.stop, clearFlags;
       repeat first [rewrite Hs | rewrite Ha | rewrite Hi | progress simpl].
  all: eexists _, _, _, _, _, _; split; [reflexivity|].
  all: unfold speakRun, speak_resume, speak_onFetch, playAttempt, speak_onPlay, callOnEnd,
         appOnEnd, clearFlags, updTTS, TTSService.startAudio, TTSService.settleAudio;
       simpl; rewrite Hb; simpl; rewrite ?updAudio_last; simpl.
  all: split; [reflexivity|].
  all: unfold countEffects; simpl.
  all: destruct (TTSService.saveAudioFiles (TTSService.config t)),
         (continuousMonitoring s); simpl.
  all: repeat split; try reflexivity.
  all: apply nth_error_snoc; rewrite ?Hlen; reflexivity.
Qed.

(** The assistant's first answer on a desktop browser. *)
Lemma spoken_answer_witness :
  exists pc s1 tr1 s' t' trs,
    speak appCallbacks (Some "Hi") (listeningState (CONFIG (Some "token")))
    = (Suspended pc, s1, tr1)
    /\ speakRun appCallbacks (Suspended pc)
         [FetchSettled (TTSBlob (MkBlob 1024)); PlaySettled Ended] s1
       = (Finished Resolved, s', trs)
    /\ countEffects isFetchTTS (tr1 ++ List.concat trs) = 1%nat
    /\ countEffects isAudioPlay (tr1 ++ List.concat trs) = 1%nat
    /\ last (tr1 ++ List.concat trs) E_warn
       = E_updateStatus
           (if continuousMonitoring (listeningState (CONFIG (Some "token")))
            then listening else ready)
    /\ ttsService s' = Some t'
    /\ TTSService.isProcessing t' = false
    /\ TTSService.isSpeaking t' = false
    /\ TTSService.currentAudio t' = None
    /\ TTSService.audioQueue t' = []
    /\ nth_error (TTSService.audios t')
         (List.length
            (TTSService.audios (TTSService.create (ttsOptions (Some "token")) false)))
       = Some (TTSService.MkAudio false true)
    /\ isInterrupted s' = false
    /\ shouldInterrupt s' = false.
Proof.
  apply (@spoken_answer_leaves_service_idle "Hi" (MkBlob 1024)
           (listeningState (CONFIG (Some "token")))
           (TTSService.create (ttsOptions (Some "token")) false)).
  - reflexivity.
  - unfold speakable. simpl. auto.
  - discriminate.
Defined.

(** *** The TTS switch *)

(** [toggleTTS] switching the service off: a playback in progress is
    paused and forgotten; from then on [speak] returns at once for every
    text, without callback, request or change of state, and [enqueue]
    queues nothing; a second [toggleTTS] switches the service on again.
    A call of [speak] that was already waiting for its audio is not
    stopped by the switch: when the audio arrives it is played. *)
Theorem switched_off_service_stays_silent :
  forall (s : State) (t : TTSService.t),
    ttsService s = Some t ->
    TTSService.enabled (TTSService.config t) = true ->
    exists t1,
      ttsService (fst (toggleTTS s)) = Some t1
      /\ TTSService.enabled (TTSService.config t1) = false
      /\ (TTSService.isSpeaking t = true ->
          TTSService.isSpeaking t1 = false /\ TTSService.currentAudio t1 = None
          /\ forall a, TTSService.currentAudio t = Some a ->
                       In (E_audioPause a) (snd (toggleTTS s)))
      /\ (forall cb text,
            speak cb text (fst (toggleTTS s)) = (Finished Resolved, fst (toggleTTS s), []))
      /\ (forall fuel cb text,
            enqueue fuel cb text (fst (toggleTTS s))
            = Some (QueueDone, fst (toggleTTS s), []))
      /\ (forall text b,
            blobSize b <> 0 ->
            exists s2 a,
              speak_resume appCallbacks (AwaitFetch text) (FetchSettled (TTSBlob b))
                (fst (toggleTTS s))
              = (Suspended (AwaitPlay b 0 a), s2,
                 (if TTSService.saveAudioFiles (TTSService.config t)
                  then [E_saveAudioFile] else []) ++ [E_audioPlay a]))
      /\ (exists t2, ttsService (fst (toggleTTS (fst (toggleTTS s)))) = Some t2
                     /\ TTSService.enabled (TTSService.config t2) = true).
Proof.
  intros s t Hs He.
  unfold toggleTTS, TTSService.setEnabled, TTSService.stop. rewrite Hs, He. simpl.
  destruct (TTSService.isSpeaking t) eqn:Hsp; simpl.
  - destruct (TTSService.currentAudio t) as [a|] eqn:Ha; simpl.
    all: eexists; split; [reflexivity|]; simpl; split; [reflexivity|].
    all: split; [intros _; split; [reflexivity|]; split; [simpl; rewrite ?Ha; reflexivity|];
                 intros a0 E; inversion E; subst; simpl; auto|].
    all: split; [intros cb text; unfold speak; simpl; reflexivity|].
    all: split; [intros fuel cb [text|]; unfold enqueue; simpl; reflexivity|].
    all: split; [|eexists; split; reflexivity].
    all: intros text b Hb; apply Z.eqb_neq in Hb;
      unfold speak_resume, speak_onFetch, playAttempt; simpl; rewrite Hb; simpl;
      eexists _, _; reflexivity.
  - eexists; split; [reflexivity|]; simpl; split; [reflexivity|].
    split; [discriminate|].
    split; [intros cb text; unfold speak; simpl; reflexivity|].
    split; [intros fuel cb [text|]; unfold enqueue; simpl; reflexivity|].
    split; [|eexists; split; reflexivity].
    intros text b Hb; apply Z.eqb_neq in Hb;
      unfold speak_resume, speak_onFetch, playAttempt; simpl; rewrite Hb; simpl;
      eexists _, _; reflexivity.
Qed.

(** The switch is used while an answer plays. *)
Lemma switched_off_witness :
  exists t1,
    ttsService (fst (toggleTTS playingState)) = Some t1
    /\ TTSService.enabled (TTSService.config t1) = false
    /\ (TTSService.isSpeaking playingService = true ->
        TTSService.isSpeaking t1 = false /\ TTSService.currentAudio t1 = None
        /\ forall a, TTSService.currentAudio playingService = Some a ->
                     In (E_audioPause a) (snd (toggleTTS playingState)))
    /\ (forall cb text,
          speak cb text (fst (toggleTTS playingState))
          = (Finished Resolved, fst (toggleTTS playingState), []))
    /\ (forall fuel cb text,
          enqueue fuel cb text (fst (toggleTTS playingState))
          = Some (QueueDone, fst (toggleTTS playingState), []))
    /\ (forall text b,
          blobSize b <> 0 ->
          exists s2 a,
            speak_resume appCallbacks (AwaitFetch text) (FetchSettled (TTSBlob b))
              (fst (toggleTTS playingState))
            = (Suspended (AwaitPlay b 0 a), s2,
               (if TTSService.saveAudioFiles (TTSService.config playingService)
                then [E_saveAudioFile] else []) ++ [E_audioPlay a]))
    /\ (exists t2, ttsService (fst (toggleTTS (fst (toggleTTS playingState)))) = Some t2
                   /\ TTSService.enabled (TTSService.config t2) = true).
Proof.
  apply (@switched_off_service_stays_silent playingState playingService); reflexivity.
Defined.

(** In [static/script.js] the final answer overrides the TTS switch.
    With a message element, an answer that is not blank and a service
    that has a token, [workflow_finished] switches the service on before
    it calls [speak], whatever [toggleTTS] had set and whatever the
    interrupt flags are: the TTS request is sent and the service is
    enabled afterwards.  In the copy that checks the flags, a service
    switched off stays off: [speak] is called, returns at once, and no
    request is sent. *)
Theorem final_answer_overrides_the_switch :
  forall (d : StreamData) (h : Handler) (s : State) (t : TTSService.t) (m : nat),
    ttsService s = Some t ->
    messageElement h = Some m ->
    JS.truthy (JS.trim (JS.orElse (final_answer d) (completeAnswer h))) = true ->
    JS.truthy (TTSService.apiToken (TTSService.config t)) = true ->
    TTSService.mobile t = false \/ TTSService.audioUnlocked t = true ->
    (exists s' t' tr,
        onWorkflowFinished Forced appCallbacks d h s
        = (Await (AwaitFetch (JS.orElse (final_answer d) (completeAnswer h))), h, s', tr)
        /\ In (E_fetchTTS (JS.orElse (final_answer d) (completeAnswer h))) tr
        /\ ttsService s' = Some t'
        /\ TTSService.enabled (TTSService.config t') = true)
    /\ (TTSService.enabled (TTSService.config t) = false ->
        isInterrupted s = false -> shouldInterrupt s = false ->
        onWorkflowFinished Guarded appCallbacks d h s
        = (Next, h,
           updateMessageContent m (JS.orElse (final_answer d) (completeAnswer h)) s,
           [E_speak (JS.orElse (final_answer d) (completeAnswer h))])).
Proof.
  intros d h s t m Hs Hm Hfa Hk Hmob.
  set (fa := JS.orElse (final_answer d) (completeAnswer h)) in *.
  split.
  - unfold onWorkflowFinished. fold fa. rewrite Hm, Hfa.
    unfold hasTTS, updateMessageContent, ttsEnable, TTSService.setEnabled. simpl.
    rewrite Hs. simpl.
    match goal with
    | |- context [speak appCallbacks (Some fa) ?x] => set (s2 := x)
    end.
    assert (Hs2 : ttsService s2
                  = Some (TTSService.set_config
                            (TTSService.MkConfig (TTSService.apiToken (TTSService.config t))
                               true (TTSService.saveAudioFiles (TTSService.config t))
                               (TTSService.timeout (TTSService.config t))) t))
      by reflexivity.
    assert (Hok : speakable (TTSService.set_config
                            (TTSService.MkConfig (TTSService.apiToken (TTSService.config t))
                               true (TTSService.saveAudioFiles (TTSService.config t))
                               (TTSService.timeout (TTSService.config t))) t) fa).
    { unfold speakable. simpl. auto. }
    rewrite (speak_runs appCallbacks s2 Hs2 Hok).
    unfold speak_body, updTTS, callOnStart, appCallbacks, appOnStart, ttsStop,
      TTSService.stop, clearFlags.
    rewrite Hs2. simpl.
    destruct (TTSService.currentAudio t); simpl.
    all: eexists _, _, _; split; [reflexivity|]; simpl.
    all: split; [|split; reflexivity].
    all: right; right; right; rewrite ?in_app_iff; simpl; auto.
  - intros He H1 H2. unfold onWorkflowFinished. fold fa. rewrite Hm, H1, H2. simpl.
    rewrite Hfa. unfold hasTTS, updateMessageContent. simpl. rewrite Hs, H1, H2. simpl.
    unfold speak. simpl. rewrite Hs, He. simpl. reflexivity.
Qed.

(** The last line of an answer, the service switched off by [toggleTTS]. *)
Lemma final_answer_switch_witness :
  let s := fst (toggleTTS (listeningState (CONFIG (Some "token")))) in
  let d := MkData (Some "workflow_finished") None None None (Some "Hi") None in
  let h := MkHandler 1 "" (Some 0%nat) in
  exists s' t' tr,
    onWorkflowFinished Forced appCallbacks d h s
    = (Await (AwaitFetch (JS.orElse (final_answer d) (completeAnswer h))), h, s', tr)
    /\ In (E_fetchTTS (JS.orElse (final_answer d) (completeAnswer h))) tr
    /\ ttsService s' = Some t'
    /\ TTSService.enabled (TTSService.config t') = true.
Proof.
  exact (proj1 (@final_answer_overrides_the_switch
                  (MkData (Some "workflow_finished") None None None (Some "Hi") None)
                  (MkHandler 1 "" (Some 0%nat))
                  (fst (toggleTTS (listeningState (CONFIG (Some "token")))))
                  _ 0%nat eq_refl eq_refl eq_refl eq_refl (or_introl eq_refl))).
Defined.

(** *** The playback queue *)

(** [_processQueue] returns: one turn more than the queue is long is
    always enough. *)
Lemma processQueue_returns cb :
  forall (fuel : nat) (s : State),
    (match ttsService s with
     | Some t => (List.length (TTSService.audioQueue t) < fuel)%nat
     | None => (0 < fuel)%nat
     end) ->
    exists r, _processQueue fuel cb s = Some r.
Proof.
  induction fuel as [|f IH]; intros s H.
  - destruct (ttsService s); lia.
  - simpl. destruct (ttsService s) as [t|] eqn:Hs; [|eexists; reflexivity].
    destruct (TTSService.audioQueue t) as [|text rest] eqn:Hq; [eexists; reflexivity|].
    destruct (TTSService.enabled (TTSService.config t)); [|eexists; reflexivity].
    destruct (speak cb (Some text) _) as [[st s2] tr] eqn:E.
    destruct st as [pc|r0]; [eexists; reflexivity|].
    apply speak_finished_same in E. destruct E as [-> ->].
    destruct (IH (set_ttsService (Some (TTSService.set_audioQueue rest t)) s)) as [[[st1 s3] tr1] E1].
    { simpl. simpl in H. lia. }
    rewrite E1. eexists; reflexivity.
Qed.

(** Of the texts waiting in the queue only the first is spoken.  While
    the service is busy [enqueue] appends the text and does nothing else.
    When [_processQueue] takes the next turn it removes the head and
    calls [speak] on it; the [stop()] inside [speak] empties the queue, so
    the texts behind the head are dropped without any request: the only
    TTS request of the turn is that for the head, and the queue is empty
    afterwards. *)
Theorem queue_speaks_head_and_drops_the_rest :
  forall (fuel : nat) (s : State) (t : TTSService.t) (text : string) (rest : list string),
    ttsService s = Some t ->
    speakable t text ->
    TTSService.audioQueue t = text :: rest ->
    (exists s' t' tr,
        _processQueue (S fuel) appCallbacks s = Some (QueueAwait (AwaitFetch text), s', tr)
        /\ filter isFetchTTS tr = [E_fetchTTS text]
        /\ ttsService s' = Some t'
        /\ TTSService.audioQueue t' = [])
    /\ (forall later,
          JS.truthy (JS.trim later) = true ->
          TTSService.isSpeaking t = true \/ TTSService.isProcessing t = true ->
          enqueue fuel appCallbacks (Some later) s
          = Some (QueueDone,
                  set_ttsService
                    (Some (TTSService.set_audioQueue (text :: rest ++ [later]) t)) s,
                  [])).
Proof.
  intros fuel s t text rest Hs Hok Hq. split.
  - simpl. rewrite Hs, Hq. destruct Hok as (He & Hb & Hk & Hm). rewrite He.
    set (s1 := set_ttsService (Some (TTSService.set_audioQueue rest t)) s).
    assert (Hs1 : ttsService s1 = Some (TTSService.set_audioQueue rest t)) by reflexivity.
    assert (Hok1 : speakable (TTSService.set_audioQueue rest t) text)
      by (unfold speakable; simpl; auto).
    rewrite (speak_runs appCallbacks s1 Hs1 Hok1).
    destruct (isInterrupted s || shouldInterrupt s) eqn:Hi;
      destruct (TTSService.currentAudio t) as [a|] eqn:Ha.
    all: unfold speak_body, updTTS, callOnStart, appCallbacks, appOnStart, ttsStop,
           TTSService.stop, clearFlags;
         repeat first [rewrite Hs1 | rewrite Ha | rewrite Hi | progress simpl].
    all: eexists _, _, _; split; [reflexivity|]; simpl; repeat split; reflexivity.
  - intros later Hl Hbusy. unfold enqueue. rewrite Hs.
    destruct Hok as (He & _). rewrite He, Hl, Hq. simpl.
    destruct Hbusy as [H|H]; rewrite H; simpl; rewrite ?andb_false_r; reflexivity.
Qed.

(** Two texts wait behind an answer that is playing. *)
Lemma queue_drops_witness :
  let t := TTSService.set_audioQueue ["second"; "third"] playingService in
  let s := set_ttsService (Some t) playingState in
  exists s' t' tr,
    _processQueue 1 appCallbacks s = Some (QueueAwait (AwaitFetch "second"), s', tr)
    /\ filter isFetchTTS tr = [E_fetchTTS "second"]
    /\ ttsService s' = Some t'
    /\ TTSService.audioQueue t' = [].
Proof.
  exact (proj1 (@queue_speaks_head_and_drops_the_rest 0
                  (set_ttsService
                     (Some (TTSService.set_audioQueue ["second"; "third"] playingService))
                     playingState)
                  (TTSService.set_audioQueue ["second"; "third"] playingService)
                  "second" ["third"] eq_refl
                  (conj eq_refl (conj eq_refl (conj eq_refl (or_introl eq_refl))))
                  eq_refl)).
Defined.

(** Without an API token the queue is discarded in silence: every entry
    is taken out and handed to [speak], which throws before its [try]
    block; [_processQueue] catches the error, so no callback runs, nothing
    is requested, and the loop returns with the queue empty. *)
Theorem queue_without_token_is_discarded :
  forall (cb : Callbacks) (s : State) (t : TTSService.t),
    ttsService s = Some t ->
    TTSService.enabled (TTSService.config t) = true ->
    JS.truthy (TTSService.apiToken (TTSService.config t)) = false ->
    _processQueue (S (List.length (TTSService.audioQueue t))) cb s
    = Some (QueueDone, set_ttsService (Some (TTSService.set_audioQueue [] t)) s, []).
Proof.
  intros cb s t Hs He Hk.
  assert (H : forall q s0,
             ttsService s0 = Some (TTSService.set_audioQueue q t) ->
             set_ttsService (Some (TTSService.set_audioQueue [] t)) s0
             = set_ttsService (Some (TTSService.set_audioQueue [] t)) s ->
             _processQueue (S (List.length q)) cb s0
             = Some (QueueDone, set_ttsService (Some (TTSService.set_audioQueue [] t)) s, [])).
  { induction q as [|text rest IH]; intros s0 Hs0 Heq.
    - simpl. rewrite Hs0. simpl. rewrite <- Heq.
      destruct s0. simpl in *. subst. reflexivity.
    - simpl List.length. remember (S (List.length rest)) as n.
      simpl. rewrite Hs0. simpl. rewrite He.
      unfold speak. simpl. rewrite He, Hk. simpl.
      destruct (negb (JS.truthy text) || negb (JS.truthy (JS.trim text)));
        (rewrite IH; [reflexivity|reflexivity|exact Heq]). }
  apply H.
  - rewrite Hs. destruct t; reflexivity.
  - reflexivity.
Qed.

(** The assistant started without a token in its configuration file,
    two texts in the queue. *)
Lemma queue_without_token_witness :
  let t := TTSService.set_audioQueue ["one"; "two"]
             (TTSService.create (ttsOptions None) false) in
  let s := set_ttsService (Some t) (listeningState (CONFIG None)) in
  _processQueue 3 noCallbacks s
  = Some (QueueDone, set_ttsService (Some (TTSService.set_audioQueue [] t)) s, []).
Proof.
  exact (@queue_without_token_is_discarded noCallbacks
           (set_ttsService
              (Some (TTSService.set_audioQueue ["one"; "two"]
                       (TTSService.create (ttsOptions None) false)))
              (listeningState (CONFIG None)))
           (TTSService.set_audioQueue ["one"; "two"]
              (TTSService.create (ttsOptions None) false))
           eq_refl eq_refl eq_refl).
Defined.

(** *** Pause and resume *)

Lemma updAudio_play_pause l a x :
  nth_error l a = Some x -> TTSService.playing x = true ->
  TTSService.updAudio a TTSService.playAudio
    (TTSService.updAudio a TTSService.pauseAudio l) = l.
Proof.
  revert a. induction l as [|y l IH]; intros [|a] H Hp; simpl in *; try discriminate.
  - inversion H; subst. destruct x as [p u]. simpl in Hp. subst p. reflexivity.
  - f_equal. apply IH; assumption.
Qed.

Lemma audible_after_pause l a x :
  nth_error l a = Some x -> TTSService.playing x = true ->
  S (List.length (filter TTSService.playing (TTSService.updAudio a TTSService.pauseAudio l)))
  = List.length (filter TTSService.playing l).
Proof.
  revert a. induction l as [|y l IH]; intros [|a] H Hp; simpl in *; try discriminate.
  - inversion H; subst. rewrite Hp. reflexivity.
  - destruct (TTSService.playing y); simpl; rewrite (IH _ H Hp); reflexivity.
Qed.

(** [pause()] and [resume()] are inverse to each other on a playing
    service.  With a current element that sounds, [pause()] pauses it,
    so that one element fewer sounds, and leaves [isSpeaking] and
    [currentAudio] as they were: the service still counts as speaking.
    [resume()] then calls [play()] on it and, the browser permitting,
    restores the service exactly; a second [pause()] does nothing; a
    [resume()] the browser refuses leaves the element paused.  After
    [stop()] neither of the two does anything. *)
Theorem pause_resume_round_trip :
  forall (t : TTSService.t) (a : nat) (x : TTSService.Audio) (started : bool),
    TTSService.currentAudio t = Some a ->
    nth_error (TTSService.audios t) a = Some x ->
    TTSService.playing x = true ->
    snd (TTSService.pause t) = [E_audioPause a]
    /\ S (TTSService.audible (fst (TTSService.pause t))) = TTSService.audible t
    /\ TTSService.isSpeaking (fst (TTSService.pause t)) = TTSService.isSpeaking t
    /\ TTSService.currentAudio (fst (TTSService.pause t)) = Some a
    /\ TTSService.resume true (fst (TTSService.pause t)) = (t, [E_audioPlay a])
    /\ TTSService.resume false (fst (TTSService.pause t))
       = (fst (TTSService.pause t), [E_audioPlay a])
    /\ TTSService.pause (fst (TTSService.pause t)) = (fst (TTSService.pause t), [])
    /\ TTSService.resume started t = (t, [])
    /\ TTSService.pause (fst (TTSService.stop t)) = (fst (TTSService.stop t), [])
    /\ TTSService.resume started (fst (TTSService.stop t)) = (fst (TTSService.stop t), []).
Proof.
  intros t a x started Ha Hx Hp.
  assert (Hpa : TTSService.paused a t = false).
  { unfold TTSService.paused. rewrite Hx, Hp. reflexivity. }
  assert (Hpb : forall t1, TTSService.audios t1
                           = TTSService.updAudio a TTSService.pauseAudio (TTSService.audios t) ->
                           TTSService.paused a t1 = true).
  { intros t1 E. unfold TTSService.paused. rewrite E, nth_error_updAudio_same, Hx.
    reflexivity. }
  unfold TTSService.pause, TTSService.resume, TTSService.stop.
  rewrite Ha, Hpa. simpl. rewrite Ha.
  rewrite !Hpb by reflexivity. simpl.
  split; [reflexivity|].
  split; [unfold TTSService.audible; simpl; apply (@audible_after_pause _ _ _ Hx Hp)|].
  split; [reflexivity|]. split; [first [assumption|reflexivity]|].
  split.
  { rewrite (@updAudio_play_pause _ _ _ Hx Hp). destruct t; simpl in *. reflexivity. }
  repeat split; reflexivity.
Qed.

(** The answer that is playing is paused and resumed. *)
Lemma pause_resume_witness :
  snd (TTSService.pause playingService) = [E_audioPause 0]
  /\ S (TTSService.audible (fst (TTSService.pause playingService)))
     = TTSService.audible playingService
  /\ TTSService.isSpeaking (fst (TTSService.pause playingService))
     = TTSService.isSpeaking playingService
  /\ TTSService.currentAudio (fst (TTSService.pause playingService)) = Some 0%nat
  /\ TTSService.resume true (fst (TTSService.pause playingService))
     = (playingService, [E_audioPlay 0])
  /\ TTSService.resume false (fst (TTSService.pause playingService))
     = (fst (TTSService.pause playingService), [E_audioPlay 0])
  /\ TTSService.pause (fst (TTSService.pause playingService))
     = (fst (TTSService.pause playingService), [])
  /\ TTSService.resume true playingService = (playingService, [])
  /\ TTSService.pause (fst (TTSService.stop playingService))
     = (fst (TTSService.stop playingService), [])
  /\ TTSService.resume true (fst (TTSService.stop playingService))
     = (fst (TTSService.stop playingService), []).
Proof.
  apply (@pause_resume_round_trip playingService 0%nat (TTSService.MkAudio true false) true);
    reflexivity.
Defined.

(** *** [isSpeaking] and [currentAudio] *)

Lemma stop_speaking t : speakingIffCurrent (fst (TTSService.stop t)).
Proof.
  unfold speakingIffCurrent, TTSService.stop.
  destruct (TTSService.currentAudio t) eqn:E; simpl; rewrite ?E;
    split; intros H; [discriminate H|elim H; reflexivity|discriminate H|elim H; reflexivity].
Qed.

Lemma ttsStop_speaking s : service speakingIffCurrent (fst (ttsStop s)).
Proof.
  unfold service, ttsStop. destruct (ttsService s) as [t|] eqn:E; simpl; [|rewrite E; exact I].
  pose proof (stop_speaking t) as H. destruct (TTSService.stop t). exact H.
Qed.

Lemma startRecording_tts cfg now s :
  ttsService (fst (startRecording cfg now s)) = ttsService s.
Proof.
  unfold startRecording, setTimeout. split_ifs; reflexivity.
Qed.

Lemma stopRecording_tts s : ttsService (fst (stopRecording s)) = ttsService s.
Proof.
  unfold stopRecording, clearTimeout. split_ifs; reflexivity.
Qed.

Lemma service_same P s s' : ttsService s' = ttsService s -> service P s -> service P s'.
Proof.
  unfold service. intros ->. auto.
Qed.

Lemma executeGlobalInterrupt_speaking now s :
  service speakingIffCurrent s ->
  service speakingIffCurrent (fst (executeGlobalInterrupt now s)).
Proof.
  intros H. unfold executeGlobalInterrupt, setTimeout.
  set (s1 := set_shouldInterrupt false (set_isInterrupted true s)).
  assert (H1 : service speakingIffCurrent s1) by exact H.
  destruct (currentStreamReader s1).
  - set (s2 := set_currentStreamReader None _).
    assert (H2 : service speakingIffCurrent s2) by exact H1.
    destruct (ttsSpeaking s2).
    + pose proof (ttsStop_speaking s2) as H3. destruct (ttsStop s2). exact H3.
    + exact H2.
  - destruct (ttsSpeaking s1).
    + pose proof (ttsStop_speaking s1) as H3. destruct (ttsStop s1). exact H3.
    + exact H1.
Qed.

Lemma fireTimer_speaking cfg now id s :
  service speakingIffCurrent s -> service speakingIffCurrent (fst (fireTimer cfg now id s)).
Proof.
  intros H. unfold fireTimer.
  destruct (find _ (timers s)) as [t|]; [|exact H].
  destruct (deadline t <=? now); [|exact H].
  unfold runCallback. destruct (callback t).
  - destruct (isRecording (clearTimeout id s)); [|exact H].
    eapply service_same; [apply stopRecording_tts|exact H].
  - destruct (_ && _); [|exact H].
    eapply service_same; [apply startRecording_tts|exact H].
  - destruct (isListening (clearTimeout id s)); exact H.
  - destruct (_ && _); exact H.
Qed.

Lemma checkVoiceLevel_speaking cfg now v s :
  service speakingIffCurrent s ->
  service speakingIffCurrent (fst (checkVoiceLevel cfg now v s)).
Proof.
  intros H. unfold checkVoiceLevel.
  destruct (negb (continuousMonitoring s)); [exact H|].
  assert (H1 : service speakingIffCurrent
                 (fst (if shouldInterrupt s && (isProcessing s || ttsSpeaking s)
                       then executeGlobalInterrupt now s else (s, [])))).
  { destruct (_ && _); [apply executeGlobalInterrupt_speaking, H|exact H]. }
  destruct (if shouldInterrupt s && _ then _ else _) as [s1 tr1]. simpl in H1.
  destruct (JS.gt v (VOICE_DETECTION_THRESHOLD cfg)).
  - unfold voiceBranch.
    set (a := set_consecutiveSilenceFrames 0 _).
    assert (Ha : service speakingIffCurrent a) by exact H1.
    set (s2 := if consecutiveVoiceFrames a =? 1 then _ else a).
    assert (H2 : service speakingIffCurrent s2).
    { subst s2. destruct (consecutiveVoiceFrames a =? 1); [|exact Ha].
      destruct (JS.truthyTime (voiceStartTime a)); destruct (_ || _); exact Ha. }
    clearbody s2.
    destruct (_ && _); [|exact H2].
    destruct (ttsSpeaking s2).
    + pose proof (ttsStop_speaking s2) as H3. destruct (ttsStop s2) as [b tr].
      simpl in H3.
      pose proof (startRecording_tts cfg now b) as H4.
      destruct (startRecording cfg now b) as [c tr2]. simpl in *.
      eapply service_same; [exact H4|exact H3].
    + pose proof (startRecording_tts cfg now s2) as H4.
      destruct (startRecording cfg now s2) as [c tr2]. simpl in *.
      eapply service_same; [exact H4|exact H2].
  - unfold silenceBranch.
    set (a := set_consecutiveVoiceFrames 0 _).
    assert (Ha : service speakingIffCurrent a) by exact H1.
    set (s2 := if _ && _ then _ else a).
    assert (H2 : service speakingIffCurrent s2).
    { subst s2. destruct (_ && _); exact Ha. }
    clearbody s2.
    destruct (_ && _); [|exact H2].
    pose proof (stopRecording_tts s2) as H4.
    destruct (stopRecording s2) as [c tr2]. simpl in *.
    eapply service_same; [exact H4|exact H2].
Qed.

Lemma run_speaking cfg es :
  forall s, service speakingIffCurrent s -> service speakingIffCurrent (fst (run cfg es s)).
Proof.
  induction es as [|e r IH]; intros s H; [exact H|].
  rewrite run_cons. simpl. apply IH.
  destruct e; simpl; [apply checkVoiceLevel_speaking|apply fireTimer_speaking]; exact H.
Qed.

Lemma updTTS_speaking f s :
  (forall t, speakingIffCurrent t -> speakingIffCurrent (f t)) ->
  service speakingIffCurrent s -> service speakingIffCurrent (updTTS f s).
Proof.
  unfold service, updTTS. intros Hf H.
  destruct (ttsService s) as [t|] eqn:E; simpl; [auto|rewrite E; exact I].
Qed.

Lemma updTTS_speaking_any f s :
  (forall t, speakingIffCurrent (f t)) ->
  service speakingIffCurrent (updTTS f s).
Proof.
  unfold service, updTTS. intros Hf.
  destruct (ttsService s) as [t|] eqn:E; simpl; [auto|rewrite E; exact I].
Qed.

Lemma appOnStart_speaking text s :
  service speakingIffCurrent s -> service speakingIffCurrent (fst (appOnStart text s)).
Proof.
  intros H. unfold appOnStart. destruct (_ || _); [apply ttsStop_speaking|exact H].
Qed.

Lemma speak_fail_speaking e s :
  service speakingIffCurrent s ->
  service speakingIffCurrent (snd (fst (speak_fail appCallbacks e s))).
Proof.
  intros H. unfold speak_fail, callOnError, appCallbacks, appOnError, clearFlags. simpl.
  apply updTTS_speaking; [|exact H].
  intros t Ht. exact Ht.
Qed.

Lemma playFailed_speaking b k e s :
  service speakingIffCurrent s ->
  service speakingIffCurrent (snd (fst (playFailed appCallbacks b k e s))).
Proof.
  intros H. unfold playFailed.
  assert (H1 : service speakingIffCurrent (updTTS (TTSService.set_audioUnlocked true) s)).
  { apply updTTS_speaking; [|exact H]. intros t Ht. exact Ht. }
  match goal with
  | |- context [if ?c then updTTS (TTSService.set_audioUnlocked true) s else s] =>
      destruct c
  end.
  - destruct (k =? playRetries)%nat; [|exact H1].
    match goal with
    | |- context [speak_fail appCallbacks e ?x] =>
        pose proof (@speak_fail_speaking e x H1) as H2;
        destruct (speak_fail appCallbacks e x) as [[r s2] tr2]
    end.
    exact H2.
  - destruct (k =? playRetries)%nat; [|exact H].
    pose proof (@speak_fail_speaking e s H) as H2.
    destruct (speak_fail appCallbacks e s) as [[r s2] tr2]. exact H2.
Qed.

Lemma playAttempt_speaking b k s :
  service speakingIffCurrent s ->
  service speakingIffCurrent (snd (fst (playAttempt appCallbacks b k s))).
Proof.
  intros H. unfold playAttempt.
  destruct (blobSize b =? 0); [apply playFailed_speaking, H|].
  destruct (ttsService s) as [t|] eqn:E; [|exact H].
  unfold TTSService.startAudio, service. simpl.
  unfold speakingIffCurrent. simpl. split; [discriminate|reflexivity].
Qed.

Lemma settle_speaking a s :
  service speakingIffCurrent (updTTS (TTSService.settleAudio a) s).
Proof.
  apply updTTS_speaking_any. intros t. unfold speakingIffCurrent. simpl.
  split; intros H; [discriminate H|elim H; reflexivity].
Qed.

Lemma speak_speaking text s :
  service speakingIffCurrent s ->
  service speakingIffCurrent (snd (fst (speak appCallbacks text s))).
Proof.
  intros H. unfold speak.
  destruct (ttsService s) as [t|] eqn:E; [|exact H].
  destruct (negb _); [exact H|].
  destruct text as [txt|]; [|exact H].
  destruct (JS.blank _); [exact H|].
  destruct (negb _); [exact H|].
  destruct (_ && _); [exact H|].
  unfold speak_body, callOnStart. simpl.
  destruct (appOnStart txt _) as [s2 tr1].
  pose proof (ttsStop_speaking s2) as H3. destruct (ttsStop s2) as [s3 tr2]. exact H3.
Qed.

Lemma speak_body_speaking text s :
  service speakingIffCurrent (snd (fst (speak_body appCallbacks text s))).
Proof.
  unfold speak_body, callOnStart. simpl.
  destruct (appOnStart text _) as [s2 tr1].
  pose proof (ttsStop_speaking s2) as H3. destruct (ttsStop s2) as [s3 tr2]. exact H3.
Qed.

Lemma speak_resume_speaking pc i s :
  service speakingIffCurrent s ->
  service speakingIffCurrent (snd (fst (speak_resume appCallbacks pc i s))).
Proof.
  intros H. unfold speak_resume.
  destruct pc as [text|text|b k a|b k]; destruct i as [|r|ev|]; try exact H.
  - apply speak_body_speaking.
  - unfold speak_onFetch. destruct r as [b|m| |e].
    + pose proof (@playAttempt_speaking b 0 s H) as H1.
      destruct (playAttempt appCallbacks b 0 s) as [[st s1] tr]. exact H1.
    + apply speak_fail_speaking, H.
    + apply speak_fail_speaking, H.
    + apply speak_fail_speaking, H.
  - unfold speak_onPlay.
    pose proof (settle_speaking a s) as H1.
    set (s1 := updTTS (TTSService.settleAudio a) s) in *. clearbody s1.
    destruct (match ttsService s1 with
              | Some t => (TTSService.mobile t, TTSService.audioUnlocked t)
              | None => (false, false)
              end) as [mobile unlocked].
    destruct ev as [|code br|e0 br].
    + unfold callOnEnd, appCallbacks, appOnEnd, clearFlags. simpl.
      apply updTTS_speaking; [|exact H1]. intros t Ht. exact Ht.
    + unfold callOnError, appCallbacks at 1, appOnError, clearFlags. simpl.
      match goal with
      | |- context [playFailed appCallbacks b k ?e ?x] =>
          pose proof (@playFailed_speaking b k e x H1) as H2;
          destruct (playFailed appCallbacks b k e x) as [[r s3] tr2]
      end.
      exact H2.
    + match goal with
      | |- context [playFailed appCallbacks b k ?e ?x] =>
          pose proof (@playFailed_speaking b k e x H1) as H2;
          destruct (playFailed appCallbacks b k e x) as [[r s3] tr2]
      end.
      exact H2.
  - apply playAttempt_speaking, H.
Qed.

(** [isSpeaking] is set exactly while the service has a current element.
    This holds for the service [initializeTTS] creates, and every step
    of the assistant keeps it: detection ticks and timer callbacks,
    [speak] with the callbacks the assistant registers and every
    resumption of a suspended [speak], [toggleTTS], [stopTTS] and
    [interruptTTS]. *)
Theorem speaking_flag_tracks_current_element :
  forall (s : State),
    service speakingIffCurrent s ->
    (forall cfg es, service speakingIffCurrent (fst (run cfg es s)))
    /\ (forall text, service speakingIffCurrent (snd (fst (speak appCallbacks text s))))
    /\ (forall pc i,
          service speakingIffCurrent (snd (fst (speak_resume appCallbacks pc i s))))
    /\ service speakingIffCurrent (fst (toggleTTS s))
    /\ service speakingIffCurrent (fst (stopTTS s))
    /\ (forall now, service speakingIffCurrent (fst (interruptTTS now s)))
    /\ (forall cfg isMobile, service speakingIffCurrent (initializeTTS cfg isMobile s)).
Proof.
  intros s H.
  split; [intros cfg es; apply run_speaking, H|].
  split; [intros text; apply speak_speaking, H|].
  split; [intros pc i; apply speak_resume_speaking, H|].
  split.
  { unfold toggleTTS. destruct (ttsService s) as [t|] eqn:E; [|exact H].
    unfold TTSService.setEnabled. simpl.
    unfold service in H. rewrite E in H.
    destruct (_ && _).
    - match goal with |- context [TTSService.stop ?x] =>
        pose proof (stop_speaking x) as H1; destruct (TTSService.stop x) end.
      exact H1.
    - exact H. }
  split.
  { unfold stopTTS. destruct (ttsService s) as [t|] eqn:E; [|exact H].
    pose proof (ttsStop_speaking s) as H1. destruct (ttsStop s). exact H1. }
  split.
  { intros now. unfold interruptTTS. destruct (_ || _); [|exact H].
    apply executeGlobalInterrupt_speaking. exact H. }
  intros cfg isMobile. unfold initializeTTS, service, speakingIffCurrent. simpl.
  split; intros H1; [discriminate H1|elim H1; reflexivity].
Qed.

(** The assistant while its first answer plays. *)
Lemma speaking_flag_witness :
  (forall cfg es, service speakingIffCurrent (fst (run cfg es playingState)))
  /\ (forall text,
        service speakingIffCurrent (snd (fst (speak appCallbacks text playingState))))
  /\ (forall pc i,
        service speakingIffCurrent
          (snd (fst (speak_resume appCallbacks pc i playingState))))
  /\ service speakingIffCurrent (fst (toggleTTS playingState))
  /\ service speakingIffCurrent (fst (stopTTS playingState))
  /\ (forall now, service speakingIffCurrent (fst (interruptTTS now playingState)))
  /\ (forall cfg isMobile,
        service speakingIffCurrent (initializeTTS cfg isMobile playingState)).
Proof.
  apply (@speaking_flag_tracks_current_element playingState).
  unfold service, speakingIffCurrent. simpl. split; [discriminate|reflexivity].
Defined.

(** ** The configuration file *)

Section ConfigFileProperties.

Import ConfigFile.

Lemma get_set_same k v m : get k (set k v m) = Some v.
Proof.
  induction m as [|[k' v'] r IH]; simpl.
  - rewrite String.eqb_refl. reflexivity.
  - destruct (String.eqb k' k) eqn:E; simpl; rewrite E; auto.
Qed.

Lemma get_set_other k k' v m : k' <> k -> get k' (set k v m) = get k' m.
Proof.
  intros Hne. induction m as [|[k0 v0] r IH]; simpl.
  - destruct (String.eqb k k') eqn:E; [apply String.eqb_eq in E; congruence|reflexivity].
  - destruct (String.eqb k0 k) eqn:E; simpl.
    + apply String.eqb_eq in E. subst k0.
      destruct (String.eqb k k') eqn:E'; [apply String.eqb_eq in E'; congruence|reflexivity].
    + destruct (String.eqb k0 k'); auto.
Qed.

Lemma indexOf_app c k v :
  indexOf c k = None ->
  indexOf c (k ++ String c v)%string = Some (String.length k).
Proof.
  induction k as [|a k IH]; simpl.
  - intros _. rewrite Ascii.eqb_refl. reflexivity.
  - destruct (Ascii.eqb a c); [discriminate|].
    destruct (indexOf c k); [discriminate|]. intros _. rewrite IH; reflexivity.
Qed.

Lemma substring0_app k r : substring0 (String.length k) (k ++ r)%string = k.
Proof.
  induction k as [|a k IH]; simpl; [destruct r; reflexivity|]. rewrite IH. reflexivity.
Qed.

Lemma slice_app k c v : JS.slice (S (String.length k)) (k ++ String c v)%string = v.
Proof.
  induction k as [|a k IH]; simpl; [reflexivity|]. exact IH.
Qed.

Lemma parseLines_snoc lines line :
  parseLines (lines ++ [line]) = onLine (parseLines lines) line.
Proof.
  unfold parseLines. rewrite fold_left_app. reflexivity.
Qed.

(** A line whose trimmed text is [key ":" value], the key holding no
    colon and the text not starting with [#]: the text before the first
    colon, trimmed, becomes the key and everything after that colon,
    trimmed, the value, further colons included.  Coming last in the
    file, the line decides the value of its key, whatever the lines
    before it said, and changes no other key. *)
Theorem last_line_sets_its_key :
  forall (lines : list string) (line key value : string),
    JS.trim line = (key ++ String ":" value)%string ->
    indexOf ":" key = None ->
    JS.startsWith "#" key = false ->
    get (JS.trim key) (parseLines (lines ++ [line])) = Some (JS.trim value)
    /\ (forall k, k <> JS.trim key ->
          get k (parseLines (lines ++ [line])) = get k (parseLines lines)).
Proof.
  intros lines line key value Ht Hc Hh.
  rewrite parseLines_snoc. unfold onLine. rewrite Ht.
  assert (Hne : JS.truthy (key ++ String ":" value)%string = true)
    by (destruct key; reflexivity).
  assert (Hs : JS.startsWith "#" (key ++ String ":" value)%string = false).
  { destruct key as [|a key]; [reflexivity|]. simpl in *. exact Hh. }
  rewrite Hne, Hs. simpl negb. simpl orb. cbv iota.
  rewrite (@indexOf_app _ _ value Hc), substring0_app, slice_app.
  split; [apply get_set_same|].
  intros k Hk. apply get_set_other. exact Hk.
Qed.

(** A URL as value, after another value for the same key. *)
Lemma last_line_witness :
  get (JS.trim "API_BASE")
      (parseLines (["API_BASE: none"] ++ ["  API_BASE: http://localhost:8000  "]))
  = Some (JS.trim " http://localhost:8000")
  /\ (forall k, k <> JS.trim "API_BASE" ->
        get k (parseLines (["API_BASE: none"] ++ ["  API_BASE: http://localhost:8000  "]))
        = get k (parseLines ["API_BASE: none"])).
Proof.
  apply (@last_line_sets_its_key ["API_BASE: none"] "  API_BASE: http://localhost:8000  "
           "API_BASE" " http://localhost:8000"); reflexivity.
Defined.

Lemma onLine_ignored m line :
  JS.truthy (JS.trim line) = false
  \/ JS.startsWith "#" (JS.trim line) = true
  \/ indexOf ":" (JS.trim line) = None ->
  onLine m line = m.
Proof.
  unfold onLine. intros [H|[H|H]]; rewrite H; simpl; rewrite ?orb_true_r; try reflexivity.
  destruct (_ || _); reflexivity.
Qed.

(** Blank lines, comment lines (the first character that is not white
    space is [#]) and lines without a colon contribute nothing: the map
    is the same with such a line left out, wherever it stands. *)
Theorem comment_lines_are_ignored :
  forall (before after : list string) (line : string),
    JS.truthy (JS.trim line) = false
    \/ JS.startsWith "#" (JS.trim line) = true
    \/ indexOf ":" (JS.trim line) = None ->
    parseLines (before ++ line :: after) = parseLines (before ++ after).
Proof.
  intros before after line H. unfold parseLines.
  rewrite !fold_left_app. simpl. rewrite (@onLine_ignored _ _ H). reflexivity.
Qed.

(** A commented-out token between two entries. *)
Lemma comment_lines_witness :
  parseLines (["API_BASE: x"] ++ "  # apiToken: secret" :: ["voice: anna"])
  = parseLines (["API_BASE: x"] ++ ["voice: anna"]).
Proof.
  apply (@comment_lines_are_ignored ["API_BASE: x"] ["voice: anna"] "  # apiToken: secret").
  right. left. reflexivity.
Defined.

(** Without a usable token in the configuration file the assistant
    cannot speak.  When the file cannot be loaded (the request throws or
    the status is not 200) the map is empty; in that case, and whenever
    the file gives no [apiToken] or an empty one, the service
    [initializeTTS] creates from the configuration rejects every call of
    [speak] on a text that is not blank with the error of the missing
    token, before any callback or request and without changing the
    state. *)
Theorem no_token_no_speech :
  forall (xhr : Xhr) (isMobile : bool) (cb : Callbacks) (text : string) (s : State),
    (match xhr with
     | XhrThrows => True
     | XhrResponse status _ =>
         status <> 200
         \/ get "apiToken" (loadYamlToMapSync xhr) = None
         \/ get "apiToken" (loadYamlToMapSync xhr) = Some ""
     end) ->
    JS.truthy (JS.trim text) = true ->
    (match xhr with
     | XhrThrows => loadYamlToMapSync xhr = []
     | XhrResponse status _ => status <> 200 -> loadYamlToMapSync xhr = []
     end)
    /\ speak cb (Some text) (initializeTTS (initConfigSync xhr) isMobile s)
       = (Finished (Rejected (Error "TTS API Token 未配置")),
          initializeTTS (initConfigSync xhr) isMobile s, []).
Proof.
  intros xhr isMobile cb text s Hx Ht.
  assert (Hk : get "apiToken" (loadYamlToMapSync xhr) = None
               \/ get "apiToken" (loadYamlToMapSync xhr) = Some "").
  { destruct xhr as [|status body]; [left; reflexivity|].
    destruct Hx as [Hx|[Hx|Hx]]; auto.
    left. simpl. apply Z.eqb_neq in Hx. rewrite Hx. reflexivity. }
  split.
  - destruct xhr as [|status body]; [reflexivity|].
    intros Hs. simpl. apply Z.eqb_neq in Hs. rewrite Hs. reflexivity.
  - unfold speak, initializeTTS, initConfigSync, CONFIG, ttsOptions, TTSService.create,
      TTSService.makeConfig. simpl.
    rewrite (trim_truthy _ Ht), Ht. simpl.
    destruct Hk as [Hk|Hk]; rewrite Hk; reflexivity.
Qed.

End ConfigFileProperties.

(** The server answers 404 for the configuration file. *)
Lemma no_token_witness :
  ConfigFile.loadYamlToMapSync (ConfigFile.XhrResponse 404 "Not Found") = []
  /\ speak appCallbacks (Some "Hi")
       (initializeTTS (ConfigFile.initConfigSync (ConfigFile.XhrResponse 404 "Not Found"))
          false initialState)
     = (Finished (Rejected (Error "TTS API Token 未配置")),
        initializeTTS (ConfigFile.initConfigSync (ConfigFile.XhrResponse 404 "Not Found"))
          false initialState, []).
Proof.
  assert (H404 : 404 <> 200) by discriminate.
  pose proof (@no_token_no_speech (ConfigFile.XhrResponse 404 "Not Found") false
                appCallbacks "Hi" initialState (or_introl H404) eq_refl) as H.
  split; [exact (proj1 H H404)|exact (proj2 H)].
Defined.

(** ** The interrupt *)








(** ** Pausing the listening *)

Lemma run_paused cfg samples s :
  continuousMonitoring s = false ->
  run cfg (ticks samples) s = (s, map (fun _ => []) samples).
Proof.
  intros H. induction samples as [|[now v] r IH]; [reflexivity|].
  unfold ticks in *. simpl. unfold checkVoiceLevel. rewrite H. simpl.
  rewrite IH. reflexivity.
Qed.

(** After [stopContinuousMonitoring] the detection loop is inert: no
    tick changes the state or does anything, however loud or quiet the
    samples.  A recording in progress is therefore not ended by
    silence any more; it goes on until its time-out runs, which stops
    it. *)
Theorem paused_listening_is_inert :
  forall (cfg : Config) (samples : list (Z * Q)) (s : State),
    let s1 := fst (stopContinuousMonitoring s) in
    continuousMonitoring s1 = false
    /\ isListening s1 = false
    /\ isRecording s1 = isRecording s
    /\ run cfg (ticks samples) s1 = (s1, map (fun _ => []) samples)
    /\ (forall (now : Z) (t : Timer),
          isRecording s = true ->
          find (fun x => (timerId x =? timerId t)%nat) (timers s) = Some t ->
          callback t = RecordingTimeout ->
          deadline t <= now ->
          In E_stopRecording
             (snd (fireTimer cfg now (timerId t) (fst (run cfg (ticks samples) s1))))
          /\ isRecording
               (fst (fireTimer cfg now (timerId t) (fst (run cfg (ticks samples) s1))))
             = false).
Proof.
  intros cfg samples s s1.
  assert (Hr : run cfg (ticks samples) s1 = (s1, map (fun _ => []) samples))
    by (apply run_paused; reflexivity).
  split; [reflexivity|]. split; [reflexivity|]. split; [reflexivity|].
  split; [exact Hr|].
  intros now t Hrec Hfind Hcb Hd. rewrite Hr. simpl fst.
  unfold fireTimer. subst s1. simpl timers. rewrite Hfind.
  apply Z.leb_le in Hd. rewrite Hd. unfold runCallback. rewrite Hcb. simpl isRecording.
  rewrite Hrec.
  destruct (stopRecording _) as [s3 tr3] eqn:E3.
  destruct (stopRecording_spec _ E3) as (_ & _ & _ & _ & P5 & P6 & _).
  simpl. auto.
Qed.

(** Listening is paused two seconds into a recording; the time-out ends
    the recording at 10000. *)
Lemma paused_listening_witness :
  let cfg := CONFIG (Some "token") in
  let s := fst (startRecording cfg 0 (listeningState cfg)) in
  let s1 := fst (stopContinuousMonitoring s) in
  isRecording s = true
  /\ isRecording
       (fst (fireTimer cfg 10000 1
               (fst (run cfg (ticks (stamped 2000 [0%Q; 0%Q; 1 # 2])) s1))))
     = false.
Proof.
  split; [reflexivity|].
  exact (proj2 (proj2 (proj2 (proj2 (proj2
           (@paused_listening_is_inert (CONFIG (Some "token"))
              (stamped 2000 [0%Q; 0%Q; 1 # 2])
              (fst (startRecording (CONFIG (Some "token")) 0
                      (listeningState (CONFIG (Some "token")))))))))
           10000 (MkTimer 1 10000 RecordingTimeout)
           eq_refl eq_refl eq_refl ltac:(discriminate))).
Defined.

(** ** From the recorder to the transcription request *)

Lemma collected_from start sizes :
  Forall (fun x => 0 <= x) sizes ->
  fold_right Z.add 0
    (fold_left (fun chunks size => ondataavailable size chunks) sizes start)
  = fold_right Z.add 0 start + fold_right Z.add 0 sizes
  /\ (fold_left (fun chunks size => ondataavailable size chunks) sizes start = [] <->
      start = [] /\ Forall (fun x => x = 0) sizes).
Proof.
  intros H. revert start. induction H as [|x l Hx Hl IH]; intros start; simpl.
  - split; [lia|]. split; [intros ->; auto|tauto].
  - destruct (IH (ondataavailable x start)) as [A B]. rewrite A, B.
    unfold ondataavailable. destruct (0 <? x) eqn:E.
    + apply Z.ltb_lt in E. split.
      * assert (Hs : forall a, fold_right Z.add 0 (a ++ [x]) = fold_right Z.add 0 a + x).
        { induction a as [|y a IHa]; simpl; [lia|]. rewrite IHa. lia. }
        rewrite Hs. lia.
      * split.
        { intros [Hn _]. destruct start; discriminate Hn. }
        { intros [_ Hz]. inversion Hz; subst. lia. }
    + apply Z.ltb_ge in E. assert (x = 0) by lia. subst x. split; [lia|].
      split.
      * intros [-> Hz]. split; [reflexivity|]. constructor; [reflexivity|assumption].
      * intros [-> Hz]. inversion Hz; subst. auto.
Qed.

(** The clip sent for transcription is the data of the recording.  The
    data events of a recording having delivered chunks of the given
    sizes, at least one of them not empty, [onstop] hands [processAudio]
    a blob whose size is their sum and empties the chunk array for the
    next recording; unless an interrupt flag is set, [isProcessing] is
    set and the transcription request carries that size.  A recording
    that delivered no data is dropped: no request, no change of state or
    status. *)
Theorem clip_is_the_recorded_data :
  forall (now : Z) (sizes : list Z) (s : State),
    Forall (fun x => 0 <= x) sizes ->
    (Exists (fun x => 0 < x) sizes ->
     fst (onstop now (collected sizes) s) = []
     /\ (isInterrupted s = false -> shouldInterrupt s = false ->
         snd (onstop now (collected sizes) s)
         = (AwaitSTT, set_isProcessing true s,
            [E_updateStatus processing;
             E_fetchTranscribe (fold_right Z.add 0 sizes)])))
    /\ (Forall (fun x => x = 0) sizes ->
        onstop now (collected sizes) s = ([], (ProcessDone, s, []))).
Proof.
  intros now sizes s Hpos. unfold collected.
  destruct (@collected_from [] sizes Hpos) as [Hsum Hnil]. simpl in Hsum.
  split.
  - intros Hex. unfold onstop.
    destruct (fold_left _ sizes []) as [|c cs] eqn:E.
    + exfalso. destruct (proj1 Hnil eq_refl) as [_ Hz].
      apply Exists_exists in Hex. destruct Hex as (x & Hin & Hx).
      rewrite Forall_forall in Hz. specialize (Hz _ Hin). lia.
    + split; [reflexivity|]. intros H1 H2. rewrite Hsum.
      unfold processAudio, callSTTAPI_request. simpl. rewrite H1, H2. reflexivity.
  - intros Hz. unfold onstop. rewrite (proj2 Hnil (conj eq_refl Hz)). reflexivity.
Qed.

(** A recording of three data events, the second of them empty. *)
Lemma clip_witness :
  fst (onstop 0 (collected [4096; 0; 1024]) (listeningState (CONFIG (Some "token")))) = []
  /\ snd (onstop 0 (collected [4096; 0; 1024]) (listeningState (CONFIG (Some "token"))))
     = (AwaitSTT, set_isProcessing true (listeningState (CONFIG (Some "token"))),
        [E_updateStatus processing; E_fetchTranscribe (fold_right Z.add 0 [4096; 0; 1024])]).
Proof.
  assert (Hpos : Forall (fun x => 0 <= x) [4096; 0; 1024])
    by (repeat constructor; discriminate).
  assert (Hex : Exists (fun x => 0 < x) [4096; 0; 1024])
    by (apply Exists_cons_hd; reflexivity).
  pose proof (proj1 (@clip_is_the_recorded_data 0 [4096; 0; 1024]
                       (listeningState (CONFIG (Some "token"))) Hpos) Hex) as H.
  split; [exact (proj1 H)|exact (proj2 H eq_refl eq_refl)].
Defined.
